(** * Intent normalisation and multi-layer validation pipeline

    A shallow embedding of [server/app.py] (the CFD orchestrator API):
    template merging, dimension-mode enforcement, normalisation of the
    collector's missing-parameter list, schema validation and the
    [/intent/fill], [/intent/fill_fast] and [/intent/save] routes; and,
    further down, the reading of JSON files with comments, the parsing
    of a generation service's answer and the job identifiers.

    Values are the documents [json.loads] produces.  A Python [dict] is an
    insertion-ordered association list; [str] is a Rocq [string]; [int] is
    [Z]; [float] is a binary64 [float]. *)

From Stdlib Require Import String Ascii List ZArith Lia Bool Floats.
From Stdlib Require Import DecimalString Sorted Permutation OrdersEx RelationClasses.
Import ListNotations.
Local Open Scope string_scope.
Local Open Scope Z_scope.

Set Implicit Arguments.

(* ===================================================================== *)
(** ** JSON documents as Python sees them *)
(* ===================================================================== *)

Module Json.

Unset Elimination Schemes.
Inductive json : Type :=
| JNull                                   (* None *)
| JBool (b : bool)                        (* True / False *)
| JInt (n : Z)                            (* int *)
| JFloat (f : float)                      (* float *)
| JStr (s : string)                       (* str *)
| JArr (items : list json)                (* list *)
| JObj (members : list (string * json)).  (* dict, in insertion order *)
Set Elimination Schemes.

(** A [dict] on its own: the members of a [JObj]. *)
Definition dict := list (string * json).

(** Induction over documents, with the hypothesis available for every
    element of a list and every value of a dict. *)
Section Induction.
Variable P : json -> Prop.
Hypothesis Hnull : P JNull.
Hypothesis Hbool : forall b, P (JBool b).
Hypothesis Hint : forall n, P (JInt n).
Hypothesis Hfloat : forall f, P (JFloat f).
Hypothesis Hstr : forall s, P (JStr s).
Hypothesis Harr : forall l, Forall P l -> P (JArr l).
Hypothesis Hobj : forall d, Forall (fun kv => P (snd kv)) d -> P (JObj d).

Fixpoint json_ind (v : json) : P v :=
  match v with
  | JNull => Hnull
  | JBool b => Hbool b
  | JInt n => Hint n
  | JFloat f => Hfloat f
  | JStr s => Hstr s
  | JArr l =>
      Harr ((fix all (l : list json) : Forall P l :=
               match l with
               | [] => Forall_nil P
               | x :: r => Forall_cons x (json_ind x) (all r)
               end) l)
  | JObj d =>
      Hobj ((fix all (d : dict) : Forall (fun kv => P (snd kv)) d :=
               match d with
               | [] => Forall_nil _
               | kv :: r => Forall_cons kv (json_ind (snd kv)) (all r)
               end) d)
  end.
End Induction.

(** *** isinstance *)

Definition is_dict (v : json) : bool :=
  match v with JObj _ => true | _ => false end.

Definition is_list (v : json) : bool :=
  match v with JArr _ => true | _ => false end.

Definition is_str (v : json) : bool :=
  match v with JStr _ => true | _ => false end.

(** [isinstance(v, int)]: [bool] is a subclass of [int]. *)
Definition is_int (v : json) : bool :=
  match v with JInt _ | JBool _ => true | _ => false end.

(** [isinstance(v, (int, float))]. *)
Definition is_number (v : json) : bool :=
  match v with JInt _ | JBool _ | JFloat _ => true | _ => false end.

(** The integer an [int] instance stands for ([True] is 1, [False] is 0). *)
Definition int_value (v : json) : option Z :=
  match v with
  | JInt n => Some n
  | JBool true => Some 1
  | JBool false => Some 0
  | _ => None
  end.

(** *** Truth value ([bool(v)], as used by [or], [if] and [not]) *)

Definition truthy (v : json) : bool :=
  match v with
  | JNull => false
  | JBool b => b
  | JInt n => negb (n =? 0)
  | JFloat f => negb (PrimFloat.eqb f 0%float)
  | JStr s => negb (s =? "")%string
  | JArr l => match l with [] => false | _ => true end
  | JObj d => match d with [] => false | _ => true end
  end.

(** [a or b]. *)
Definition py_or (a b : json) : json := if truthy a then a else b.

(** *** dict operations *)

(** [d.get(key)] as an option: the first (and, in a dict, only) member
    with that key. *)
Fixpoint lookup (d : dict) (key : string) : option json :=
  match d with
  | [] => None
  | (k, v) :: rest => if (k =? key)%string then Some v else lookup rest key
  end.

(** [d[key] = value]: replaces the value in place when the key exists,
    appends a new member otherwise. *)
Fixpoint store (d : dict) (key : string) (value : json) : dict :=
  match d with
  | [] => [(key, value)]
  | (k, v) :: rest =>
      if (k =? key)%string then (k, value) :: rest
      else (k, v) :: store rest key value
  end.

(** [d.get(key)]: [None] when absent. *)
Definition get (d : dict) (key : string) : json :=
  match lookup d key with Some v => v | None => JNull end.

(** [d.get(key, default)]. *)
Definition get_default (d : dict) (key : string) (default : json) : json :=
  match lookup d key with Some v => v | None => default end.

(** [key in d]. *)
Definition has_key (d : dict) (key : string) : bool :=
  match lookup d key with Some _ => true | None => false end.

(** Following a path of keys through nested dicts. *)
Fixpoint resolve (v : json) (path : list string) : option json :=
  match path with
  | [] => Some v
  | k :: rest =>
      match v with
      | JObj d => match lookup d k with
                  | Some w => resolve w rest
                  | None => None
                  end
      | _ => None
      end
  end.

(** Keys are unique in every dict of the document, as in any value built
    by [json.loads] or by dict assignment. *)
Fixpoint distinct (keys : list string) : bool :=
  match keys with
  | [] => true
  | k :: rest => negb (existsb (String.eqb k) rest) && distinct rest
  end.

Fixpoint unique_keys (v : json) : bool :=
  match v with
  | JArr l => forallb unique_keys l
  | JObj d => distinct (map fst d) && forallb (fun kv => unique_keys (snd kv)) d
  | _ => true
  end.

End Json.
Import Json.

(* ===================================================================== *)
(** ** TemplateMerger: [deep_copy_json] and [merge_with_template] *)
(* ===================================================================== *)

Module Merger.

(** [json.loads(json.dumps(data))] on a document built by [json.loads]:
    a fresh document with the same content, rebuilt node by node. *)
Fixpoint deep_copy_json (data : json) : json :=
  match data with
  | JNull => JNull
  | JBool b => JBool b
  | JInt n => JInt n
  | JFloat f => JFloat f
  | JStr s => JStr s
  | JArr l => JArr (map deep_copy_json l)
  | JObj d =>
      JObj ((fix members (d : dict) : dict :=
               match d with
               | [] => []
               | (k, v) :: rest => (k, deep_copy_json v) :: members rest
               end) d)
  end.

Definition deep_copy_dict (d : dict) : dict :=
  match deep_copy_json (JObj d) with JObj d' => d' | _ => d end.

(** The inner [_merge(dst, src)], by recursion on [src].  The loop runs
    over [src.items()] in order; [dst] is the dict being mutated. *)
Fixpoint _merge (dst : dict) (src : json) {struct src} : dict :=
  match src with
  | JObj members =>
      (fix loop (dst : dict) (items : dict) {struct items} : dict :=
         match items with
         | [] => dst
         | (key, value) :: rest =>
             loop
               (match value, lookup dst key with
                | JObj _, Some (JObj sub) =>
                    store dst key (JObj (_merge sub value))
                | _, _ => store dst key value
                end)
               rest
         end) dst members
  | _ => dst
  end.

(** [merge_with_template(template_obj, overrides)]. *)
Definition merge_with_template (template_obj : dict) (overrides : json) : dict :=
  let base := deep_copy_dict template_obj in
  if negb (is_dict overrides) then base
  else _merge base overrides.

(** One turn of the loop of [_merge]. *)
Definition merge_step (dst : dict) (item : string * json) : dict :=
  let (key, value) := item in
  match value, lookup dst key with
  | JObj _, Some (JObj sub) => store dst key (JObj (_merge sub value))
  | _, _ => store dst key value
  end.

(** A path is shielded in [O] when every proper, non-empty prefix of it
    that [O] has leads to a dict there: no ancestor of the path is
    overwritten wholesale. *)
Definition ancestors_are_dicts (O : json) (p : list string) : Prop :=
  forall q r w, q <> [] -> r <> [] -> p = (q ++ r)%list ->
                resolve O q = Some w -> is_dict w = true.

(** The same, computed: below each key of the path that [O] has, [O]
    holds a dict as long as the path goes on. *)
Fixpoint shielded (O : json) (p : list string) : bool :=
  match p with
  | [] => true
  | k :: rest =>
      match rest, O with
      | _ :: _, JObj d =>
          match lookup d k with
          | Some w => is_dict w && shielded w rest
          | None => true
          end
      | _, _ => true
      end
  end.

End Merger.
Import Merger.


(* ===================================================================== *)
(** ** Python run-time behaviour shared by the components *)
(* ===================================================================== *)

Module Py.

(** Exceptions.  [HTTPException] is FastAPI's; the route handlers raise it
    with a status code, and any other exception that leaves a handler is
    answered by the framework with status 500. *)
Inductive exn_kind :=
| AttributeError
| TypeError
| KeyError
| IndexError
| ValueError
| RuntimeError
| FileNotFoundError
| OSError
| HTTPException (status_code : Z).

(** An exception with its [str(e)]. *)
Record exn := Exn { kind : exn_kind; text : string }.

Inductive result (A : Type) :=
| Ok (a : A)
| Raise (e : exn).
Arguments Ok {A} a.
Arguments Raise {A} e.

Class Monad (M : Type -> Type) := {
  ret : forall {A}, A -> M A;
  bind : forall {A B}, M A -> (A -> M B) -> M B
}.

#[global] Instance result_monad : Monad result := {
  ret := fun A a => Ok a;
  bind := fun A B m k => match m with Ok a => k a | Raise e => Raise e end
}.

Definition is_file_not_found (e : exn) : bool :=
  match kind e with FileNotFoundError => true | _ => false end.

(** *** Attribute access on values of unknown type *)

(** [v.get(key)]: only a dict has [get]. *)
Definition attr_get (v : json) (key : string) : result json :=
  match v with
  | JObj d => Ok (get d key)
  | _ => Raise (Exn AttributeError "object has no attribute 'get'")
  end.

(** [v.get(key, default)]. *)
Definition attr_get_default (v : json) (key : string) (default : json)
  : result json :=
  match v with
  | JObj d => Ok (get_default d key default)
  | _ => Raise (Exn AttributeError "object has no attribute 'get'")
  end.

(** [v[0]]: the first element of a list, the first character of a str;
    a dict has no key [0] (its keys are strings); other values are not
    subscriptable. *)
Definition subscript0 (v : json) : result json :=
  match v with
  | JArr (x :: _) => Ok x
  | JArr [] => Raise (Exn IndexError "list index out of range")
  | JStr (String c _) => Ok (JStr (String c EmptyString))
  | JStr EmptyString => Raise (Exn IndexError "string index out of range")
  | JObj _ => Raise (Exn KeyError "0")
  | _ => Raise (Exn TypeError "object is not subscriptable")
  end.

(** [", ".join(v)] succeeds on an iterable of strings: a list of strings,
    a str (its characters) or a dict (its keys). *)
Definition join_defined (v : json) : result unit :=
  match v with
  | JArr l =>
      if forallb is_str l then Ok tt
      else Raise (Exn TypeError "sequence item: expected str instance")
  | JStr _ | JObj _ => Ok tt
  | _ => Raise (Exn TypeError "can only join an iterable")
  end.

(** [v == s] for a str literal [s]. *)
Definition eq_str (v : json) (s : string) : bool :=
  match v with JStr t => (t =? s)%string | _ => false end.

(** [min(a, b)] and [max(a, b)] on [int] instances: the first argument
    unless the second is strictly smaller (larger). *)
Definition int_of (v : json) : Z :=
  match int_value v with Some n => n | None => 0 end.

Definition py_min (a b : json) : json :=
  if int_of b <? int_of a then b else a.

Definition py_max (a b : json) : json :=
  if int_of b >? int_of a then b else a.

(** *** Strings

    A [str] is modelled by the bytes of its UTF-8 encoding.  [strip]
    removes leading and trailing ASCII white space (tab, line feed,
    vertical tab, form feed, carriage return, the separators 28-31 and
    space). *)
Definition is_space (c : ascii) : bool :=
  let n := Z.of_nat (nat_of_ascii c) in
  ((9 <=? n) && (n <=? 13)) || ((28 <=? n) && (n <=? 32)).

Fixpoint lstrip (s : string) : string :=
  match s with
  | EmptyString => EmptyString
  | String c rest => if is_space c then lstrip rest else s
  end.

Fixpoint rstrip (s : string) : string :=
  match s with
  | EmptyString => EmptyString
  | String c rest =>
      let rest' := rstrip rest in
      if is_space c && (rest' =? "")%string then EmptyString
      else String c rest'
  end.

Definition strip (s : string) : string := rstrip (lstrip s).

Definition nonempty (s : string) : bool := negb (s =? "")%string.

End Py.
Import Py.

Notation "x <- m ;; k" := (bind m (fun x => k))
  (at level 61, m at next level, right associativity).
Notation "m ;;; k" := (bind m (fun _ => k))
  (at level 61, right associativity).

(* ===================================================================== *)
(** ** DimensionModeEnforcer *)
(* ===================================================================== *)

Module Dimension.

(** [VALID_DIMENSION_MODES]. *)
Definition VALID_DIMENSION_MODES : list string := ["3D"; "2D_extruded"].

(** [normalize_dimension_mode(raw)], [raw] being [Optional[str]]. *)
Definition normalize_dimension_mode (raw : option string) : option string :=
  match raw with
  | None => None
  | Some r =>
      let value := strip r in
      if existsb (String.eqb value) VALID_DIMENSION_MODES then Some value
      else None
  end.

(** *** In-place mutation of a document

    The enforcer mutates the dict it is given through references to its
    nested dicts ([meshing], [block], [geometry], [cells]).  The document
    is a tree (it was built by [deep_copy_json] and [_merge] from parsed
    JSON), so a reference is the path of keys leading to the nested value,
    and the state is the whole document.  What was mutated before an
    exception stays mutated. *)
Definition Mut (A : Type) : Type := dict -> result A * dict.

#[global] Instance mut_monad : Monad Mut := {
  ret := fun A a doc => (Ok a, doc);
  bind := fun A B m k doc =>
            match m doc with
            | (Ok a, doc') => k a doc'
            | (Raise e, doc') => (Raise e, doc')
            end
}.

(** A computation that does not touch the document. *)
Definition lift {A} (r : result A) : Mut A := fun doc => (r, doc).

(** Replacing the value at a path. *)
Fixpoint write (v : json) (path : list string) (new : json) : json :=
  match path with
  | [] => new
  | k :: rest =>
      match v with
      | JObj d =>
          match lookup d k with
          | Some w => JObj (store d k (write w rest new))
          | None => v
          end
      | _ => v
      end
  end.

Definition write_doc (doc : dict) (path : list string) (new : json) : dict :=
  match write (JObj doc) path new with JObj d => d | _ => doc end.

(** The value a reference points to. *)
Definition deref (doc : dict) (ref : list string) : json :=
  match resolve (JObj doc) ref with Some v => v | None => JNull end.

(** [ref.setdefault(key, {})]; the result is the reference [ref ++ [key]]. *)
Definition setdefault (ref : list string) (key : string) : Mut unit :=
  fun doc =>
    match deref doc ref with
    | JObj d =>
        match lookup d key with
        | Some _ => (Ok tt, doc)
        | None => (Ok tt, write_doc doc ref (JObj (store d key (JObj []))))
        end
    | _ => (Raise (Exn AttributeError "object has no attribute 'setdefault'"), doc)
    end.

(** [ref[key] = value]. *)
Definition setitem (ref : list string) (key : string) (value : json) : Mut unit :=
  fun doc =>
    match deref doc ref with
    | JObj d => (Ok tt, write_doc doc ref (JObj (store d key value)))
    | _ => (Raise (Exn TypeError "object does not support item assignment"), doc)
    end.

(** [ref.get(key)]. *)
Definition getitem (ref : list string) (key : string) : Mut json :=
  fun doc => (attr_get (deref doc ref) key, doc).

(** The literal [0.002]. *)
Definition default_thickness : json := JFloat 0x1.0624dd2f1a9fcp-9%float.

(** [(template_obj.get("meshing") or {}).get("blockMesh", {}).get(leaf, {})]. *)
Definition template_section (template_obj : dict) (leaf : string) : result json :=
  block <- attr_get_default (py_or (get template_obj "meshing") (JObj []))
                            "blockMesh" (JObj []) ;;
  attr_get_default block leaf (JObj []).

Definition MESHING : list string := ["meshing"].
Definition BLOCK : list string := ["meshing"; "blockMesh"].
Definition GEOMETRY : list string := ["meshing"; "blockMesh"; "geometry"].
Definition CELLS : list string := ["meshing"; "blockMesh"; "cells"].

(** The [if mode == "2D_extruded": ... else: ...] statement that ends the
    [try] block of [enforce_dimension_mode]. *)
Definition enforce_branch (mode : string) (template_geo template_cells : json)
  : Mut unit :=
  if (mode =? "2D_extruded")%string then
    thickness <- getitem GEOMETRY "thickness_2d_m" ;;
    (if negb (is_number thickness) then
       fallback <- lift (attr_get template_geo "thickness_2d_m") ;;
       fallback <- (if negb (is_number fallback)
                    then getitem GEOMETRY "height_m" else ret fallback) ;;
       let fallback := if negb (is_number fallback)
                       then default_thickness else fallback in
       setitem GEOMETRY "thickness_2d_m" fallback
     else ret tt) ;;;
    nz <- getitem CELLS "nz" ;;
    if is_int nz then
      setitem CELLS "nz" (py_max (JInt 1) (py_min nz (JInt 10)))
    else
      fallback_nz <- lift (attr_get template_cells "nz") ;;
      if is_int fallback_nz then setitem CELLS "nz" fallback_nz
      else ret tt
  else
    height <- getitem GEOMETRY "height_m" ;;
    if negb (is_number height) then
      fallback <- lift (attr_get template_geo "height_m") ;;
      fallback <- (if negb (is_number fallback)
                   then getitem GEOMETRY "thickness_2d_m" else ret fallback) ;;
      let fallback := if negb (is_number fallback)
                      then default_thickness else fallback in
      setitem GEOMETRY "height_m" fallback
    else ret tt.

(** The [try] block of [enforce_dimension_mode]. *)
Definition enforce_body (mode : string) (template_obj : dict) : Mut unit :=
  setdefault [] "meshing" ;;;
  setdefault MESHING "blockMesh" ;;;
  setdefault BLOCK "geometry" ;;;
  setitem GEOMETRY "dimension_mode" (JStr mode) ;;;
  template_geo <- lift (template_section template_obj "geometry") ;;
  template_cells <- lift (template_section template_obj "cells") ;;
  setdefault BLOCK "cells" ;;;
  enforce_branch mode template_geo template_cells.

(** [enforce_dimension_mode(intent_obj, dimension_mode, template_obj)]:
    the document after the call.  An exception inside the [try] block is
    logged and dropped; the mutations made before it remain. *)
Definition enforce_dimension_mode
  (intent_obj : dict) (dimension_mode : option string) (template_obj : dict)
  : dict :=
  match normalize_dimension_mode dimension_mode with
  | None => intent_obj
  | Some mode => snd (enforce_body mode template_obj intent_obj)
  end.

(** The [if mode == "2D_extruded": ... else: ...] statement that ends the
    [try] block of [apply_dimension_mode_to_template]. *)
Definition apply_branch (mode : string) : Mut unit :=
  if (mode =? "2D_extruded")%string then
    thickness <- getitem GEOMETRY "thickness_2d_m" ;;
    (if negb (is_number thickness) then
       fallback <- getitem GEOMETRY "height_m" ;;
       let fallback := if negb (is_number fallback)
                       then default_thickness else fallback in
       setitem GEOMETRY "thickness_2d_m" fallback
     else ret tt) ;;;
    nz <- getitem CELLS "nz" ;;
    if is_int nz then
      setitem CELLS "nz" (py_max (JInt 2) (py_min nz (JInt 10)))
    else
      setitem CELLS "nz" (JInt 4)
  else
    height <- getitem GEOMETRY "height_m" ;;
    if negb (is_number height) then
      fallback <- getitem GEOMETRY "thickness_2d_m" ;;
      if is_number fallback then setitem GEOMETRY "height_m" fallback
      else ret tt
    else ret tt.

(** The [try] block of [apply_dimension_mode_to_template]. *)
Definition apply_body (mode : string) : Mut unit :=
  setdefault [] "meshing" ;;;
  setdefault MESHING "blockMesh" ;;;
  setdefault BLOCK "geometry" ;;;
  setitem GEOMETRY "dimension_mode" (JStr mode) ;;;
  setdefault BLOCK "cells" ;;;
  apply_branch mode.

(** [apply_dimension_mode_to_template(template_obj, dimension_mode)]. *)
Definition apply_dimension_mode_to_template
  (template_obj : dict) (dimension_mode : option string) : dict :=
  let base := deep_copy_dict template_obj in
  match normalize_dimension_mode dimension_mode with
  | None => base
  | Some mode => snd (apply_body mode base)
  end.

End Dimension.
Import Dimension.

Module DimensionSpec.

(** Each nested container on the way to the geometry and cells dicts is a
    dict wherever the document has it. *)
Definition well_shaped (doc : dict) : bool :=
  forallb (fun ref => match resolve (JObj doc) ref with
                      | Some v => is_dict v
                      | None => true
                      end)
          [MESHING; BLOCK; GEOMETRY; CELLS].

(** The nested dict under a key, empty when the key is absent. *)
Definition sub_dict (d : dict) (key : string) : dict :=
  match lookup d key with Some (JObj x) => x | _ => [] end.

Definition block_of (doc : dict) : dict :=
  sub_dict (sub_dict doc "meshing") "blockMesh".
Definition geometry_of (doc : dict) : dict := sub_dict (block_of doc) "geometry".
Definition cells_of (doc : dict) : dict := sub_dict (block_of doc) "cells".

(** The document rebuilt around given geometry and cells dicts. *)
Definition with_sections (doc : dict) (geometry cells : dict) : dict :=
  store doc "meshing"
    (JObj (store (sub_dict doc "meshing") "blockMesh"
       (JObj (store (store (block_of doc) "geometry" (JObj geometry))
                    "cells" (JObj cells))))).

(** The document once the nested dicts exist and the mode is written. *)
Definition skeleton (doc : dict) (mode : string) : dict :=
  with_sections doc
    (store (geometry_of doc) "dimension_mode" (JStr mode))
    (cells_of doc).

Definition THICKNESS : list string := GEOMETRY ++ ["thickness_2d_m"].
Definition HEIGHT : list string := GEOMETRY ++ ["height_m"].
Definition NZ : list string := CELLS ++ ["nz"].

(** The thickness the fallback chain of [enforce_dimension_mode] selects
    when the intent has none: the template's, else the intent's height,
    else the literal default. *)
Definition fallback_thickness (intent_obj : dict) (template_geo : dict) : json :=
  let fallback := get template_geo "thickness_2d_m" in
  let fallback := if negb (is_number fallback)
                  then deref intent_obj HEIGHT else fallback in
  if negb (is_number fallback) then default_thickness else fallback.


End DimensionSpec.
Import DimensionSpec.

(* ===================================================================== *)
(** ** ParameterCollector: normalising the collector's answer *)
(* ===================================================================== *)

Module Collector.

Section WithRepr.

(** [str(v)] for a value [v] that is not a [str] (the repr of a number, a
    list, a dict, ...), left uninterpreted. *)
Variable repr : json -> string.

(** [str(v)]. *)
Definition py_str (v : json) : string :=
  match v with JStr s => s | _ => repr v end.

(** [str(v or "").strip()]. *)
Definition stripped (v : json) : string :=
  strip (py_str (py_or v (JStr ""))).

(** The default label, [参数]. *)
Definition DEFAULT_LABEL : string := "参数".

(** The [suggested] dict built for one entry. *)
Definition normalize_suggested (suggested_raw : json) : dict :=
  match suggested_raw with
  | JObj sr =>
      let suggested : dict := [] in
      let text := stripped (get sr "text") in
      let suggested :=
        if nonempty text then store suggested "text" (JStr text)
        else suggested in
      let suggested :=
        fold_left (fun acc num_key =>
                     let val := get sr num_key in
                     if is_number val then store acc num_key val else acc)
                  ["value"; "si"] suggested in
      let unit := stripped (get sr "unit") in
      if nonempty unit then store suggested "unit" (JStr unit)
      else suggested
  | JStr s =>
      let text := strip s in
      if nonempty text then store [] "text" (JStr text) else []
  | _ => []
  end.

(** The body of the loop for an entry that is a dict. *)
Definition normalize_entry (item : dict) : dict :=
  let label := stripped (get item "label") in
  let label :=
    if negb (nonempty label) then
      let group := stripped (get item "group") in
      if nonempty group then group else DEFAULT_LABEL
    else label in
  let detail := stripped (get item "detail") in
  let path := stripped (get item "path") in
  let suggested := normalize_suggested (get item "suggested") in
  let norm := [("label", JStr label); ("detail", JStr detail);
               ("path", JStr path)] in
  if truthy (JObj suggested) then store norm "suggested" (JObj suggested)
  else norm.

(** [normalize_missing_parameters(items)]. *)
Definition normalize_missing_parameters (items : json) : list dict :=
  match items with
  | JArr l =>
      fold_left (fun normalized item =>
                   match item with
                   | JObj d => (normalized ++ [normalize_entry d])%list
                   | _ => normalized          (* [continue] *)
                   end)
                l []
  | _ => []
  end.

End WithRepr.

(** The entries of a list that are dicts, in order. *)
Definition dict_entries (l : list json) : list dict :=
  flat_map (fun item => match item with JObj d => [d] | _ => [] end) l.

(** A member of a normalised [suggested] dict. *)
Definition suggested_member (kv : string * json) : bool :=
  let (k, v) := kv in
  match v with
  | JStr s => ((k =? "text") || (k =? "unit"))%string && nonempty s
  | _ => ((k =? "value") || (k =? "si"))%string && is_number v
  end.

(** The shape of a normalised record: [label] (not empty), [detail] and
    [path] are strings; [suggested], when present, is a non-empty dict
    holding some of [text], [value], [si] and [unit]. *)
Definition normalized_record (r : dict) : bool :=
  match r with
  | ("label", JStr label) :: ("detail", JStr _) :: ("path", JStr _) :: rest =>
      nonempty label &&
      match rest with
      | [] => true
      | [("suggested", JObj s)] =>
          match s with [] => false | _ => true end
          && forallb suggested_member s
      | _ => false
      end
  | _ => false
  end.

(** The record shape as the specification words it,
    [{label, detail, path, suggested: {text?, value?, unit?}}]: the four
    keys, and nothing but [text], [value] and [unit] under [suggested]. *)
Definition spec_record_shape (r : dict) : bool :=
  match lookup r "label", lookup r "detail", lookup r "path",
        lookup r "suggested" with
  | Some _, Some _, Some _, Some (JObj s) =>
      forallb (fun kv => existsb (String.eqb (fst kv)) ["text"; "value"; "unit"]) s
  | _, _, _, _ => false
  end.

End Collector.
Import Collector.

(* ===================================================================== *)
(** ** SchemaValidator *)
(* ===================================================================== *)

Module Schema.

(** An element of [err.path]: a property name or an array index. *)
Inductive path_part :=
| Key (name : string)
| Index (i : Z).

(** What the pipeline reads of a [jsonschema] validation error. *)
Record ValidationError := {
  err_path : list path_part;    (* err.path, the position in the instance *)
  err_message : string          (* err.message *)
}.

(** [x == y] on path elements; a str never equals an int. *)
Definition part_eqb (x y : path_part) : bool :=
  match x, y with
  | Key a, Key b => (a =? b)%string
  | Index i, Index j => i =? j
  | _, _ => false
  end.

(** [x < y] on path elements; comparing a str with an int raises. *)
Definition part_lt (x y : path_part) : result bool :=
  match x, y with
  | Key a, Key b => Ok (a <? b)%string
  | Index i, Index j => Ok (i <? j)
  | _, _ => Raise (Exn TypeError "'<' not supported between instances of 'str' and 'int'")
  end.

(** [a < b] on deques: lexicographic, the first pair of unequal elements
    decides; a proper prefix is smaller. *)
Fixpoint deque_lt (a b : list path_part) : result bool :=
  match a, b with
  | [], [] => Ok false
  | [], _ :: _ => Ok true
  | _ :: _, [] => Ok false
  | x :: a', y :: b' => if part_eqb x y then deque_lt a' b' else part_lt x y
  end.

(** [sorted(errors, key=lambda e: e.path)].  Python's sort is stable and
    compares keys with [<] only; the model is the stable insertion sort,
    which an exception raised by a comparison aborts. *)
Fixpoint insert_by_path (e : ValidationError) (sorted : list ValidationError)
  : result (list ValidationError) :=
  match sorted with
  | [] => Ok [e]
  | y :: rest =>
      before <- deque_lt (err_path y) (err_path e) ;;
      if (before : bool) then
        rest' <- insert_by_path e rest ;;
        ret (y :: rest')
      else ret (e :: y :: rest)
  end.

Fixpoint sorted_by_path (errors : list ValidationError)
  : result (list ValidationError) :=
  match errors with
  | [] => Ok []
  | e :: rest =>
      rest' <- sorted_by_path rest ;;
      insert_by_path e rest'
  end.

(** The decimal digits of an int, as an f-string prints it. *)
Definition decimal (n : Z) : string :=
  DecimalString.NilZero.string_of_int (Z.to_int n).

(** The text of a path: [$], then [[i]] for an index and [.name] for a
    property. *)
Definition format_path (p : list path_part) : string :=
  fold_left (fun path part =>
               match part with
               | Index i => path ++ "[" ++ decimal i ++ "]"
               | Key name => path ++ "." ++ name
               end)
            p "$".

Definition format_issue (err : ValidationError) : json :=
  JObj [("path", JStr (format_path (err_path err)));
        ("message", JStr (err_message err))].

(** [format_schema_errors(errors)]. *)
Definition format_schema_errors (errors : list ValidationError) : dict :=
  let issues := map format_issue errors in
  [("valid", JBool (Nat.eqb (List.length issues) 0)); ("issues", JArr issues)].

Section WithValidator.

(** [Draft202012Validator(schema).iter_errors(instance)], the errors in
    the order the library yields them. *)
Variable iter_errors : json -> json -> list ValidationError.

(** [schema_validate(instance, schema)]. *)
Definition schema_validate (instance schema : json)
  : result (list ValidationError) :=
  sorted_by_path (iter_errors schema instance).


End WithValidator.

(** A path points into the instance: property names lead through dicts
    that have them, indices through lists that are long enough. *)
Fixpoint locates (instance : json) (p : list path_part) : bool :=
  match p with
  | [] => true
  | Key name :: rest =>
      match instance with
      | JObj d => match lookup d name with
                  | Some v => locates v rest
                  | None => false
                  end
      | _ => false
      end
  | Index i :: rest =>
      match instance with
      | JArr l => (0 <=? i) &&
                  match nth_error l (Z.to_nat i) with
                  | Some v => locates v rest
                  | None => false
                  end
      | _ => false
      end
  end.

(** [a] does not come after [b]: [b < a] is false. *)
Definition not_after (a b : ValidationError) : Prop :=
  deque_lt (err_path b) (err_path a) = Ok false.




End Schema.
Import Schema.

(* ===================================================================== *)
(** ** The routes: registry, summaries, storage and the three entry points *)
(* ===================================================================== *)

Module Routes.

(** *** Profile registry *)

(** An entry of [PROFILE_REGISTRY] or of [PROFILE_BY_NAME].  [key] is the
    slug the entry is registered under; the entries of [PROFILE_BY_NAME]
    are copies that also carry a ["slug"] field. *)
Record profile_meta := {
  key : string;
  carries_slug : bool;
  label : string;
  family : string;
  profile : string;
  schema : string;      (* path of the schema file *)
  template : string     (* path of the template file *)
}.

Definition SCHEMA_DIR : string := "/opt/cfd-orchestrator/schemas/intent".

Definition MESH_V1 : profile_meta := {|
  key := "coolingplate-mesh-v1";
  carries_slug := false;
  label := "Fluent + 外部网格 (.msh)";
  family := "fluent";
  profile := "CoolingPlate-Intent@mesh_v1.0";
  schema := SCHEMA_DIR ++ "/coolingplate_intent_mesh_v1.schema.json";
  template := SCHEMA_DIR ++ "/coolingplate_intent_mesh_v1.template.json"
|}.

Definition OPENFOAM_BMESH_V1 : profile_meta := {|
  key := "coolingplate-openfoam-bmesh-v1";
  carries_slug := false;
  label := "OpenFOAM + 自动 blockMesh";
  family := "openfoam";
  profile := "CoolingPlate-OF-Intent@blockMesh_v1.0";
  schema := SCHEMA_DIR ++ "/coolingplate_intent_openfoam_bmesh_v1.schema.json";
  template := SCHEMA_DIR ++ "/coolingplate_intent_openfoam_bmesh_v1.template.json"
|}.

Definition PROFILE_REGISTRY : list profile_meta := [MESH_V1; OPENFOAM_BMESH_V1].

Definition DEFAULT_PROFILE_SLUG : string := "coolingplate-openfoam-bmesh-v1".

(** [PROFILE_REGISTRY.get(slug)]. *)
Definition registry_get (slug : string) : option profile_meta :=
  find (fun meta => (key meta =? slug)%string) PROFILE_REGISTRY.

(** [PROFILE_BY_NAME]: [{meta["profile"]: {**meta, "slug": slug}}]. *)
Definition with_slug (meta : profile_meta) : profile_meta := {|
  key := key meta; carries_slug := true; label := label meta;
  family := family meta; profile := profile meta;
  schema := schema meta; template := template meta
|}.

Definition PROFILE_BY_NAME : list profile_meta := map with_slug PROFILE_REGISTRY.

(** [PROFILE_BY_NAME.get(profile_name)] for a value read from a document:
    a list or a dict is not hashable. *)
Definition by_name_get (profile_name : json) : result (option profile_meta) :=
  match profile_name with
  | JStr name =>
      Ok (find (fun meta => (profile meta =? name)%string) PROFILE_BY_NAME)
  | JArr _ | JObj _ => Raise (Exn TypeError "unhashable type")
  | _ => Ok None
  end.

(** [meta.get("slug")]. *)
Definition meta_slug (meta : profile_meta) : option string :=
  if carries_slug meta then Some (key meta) else None.

(** The [profile_slug] reported by [/intent/save]:
    [req.profile_slug or meta.get("slug")], then the registry entry that
    is this very object, then the default slug. *)
Definition reported_slug (requested : option string) (meta : profile_meta)
  : string :=
  let given (o : option string) : bool :=
    match o with Some s => nonempty s | None => false end in
  let profile_slug := if given requested then requested else meta_slug meta in
  let profile_slug :=
    if given profile_slug then profile_slug
    else if carries_slug meta then profile_slug
    else Some (key meta) in
  match profile_slug with
  | Some s => if nonempty s then s else DEFAULT_PROFILE_SLUG
  | None => DEFAULT_PROFILE_SLUG
  end.

(** *** The world outside the module *)

(** A call that leaves the process, in the order it was made. *)
Inductive event :=
| CollectorCall (user_request : string) (template_obj : dict)
| ReviewerCall (intent : dict)
| FastFillCall (user_request : string) (template_obj : dict)
| IntentFileWrite (job_id : string) (document : dict).

Definition is_reviewer_call (e : event) : bool :=
  match e with ReviewerCall _ => true | _ => false end.

(** How [build_multilayer_summary] is given the final check: omitted
    ([None]), the very object of the initial check, or a distinct one. *)
Inductive final_check :=
| NoFinal
| SameAsInitial
| Final (schema_final : dict).

(** What the model does not interpret: files, the validator library, the
    generation services, the clock, and the wording of the summaries.
    [iter_errors] is total: building the validator and running it do not
    raise.  The three generation calls stand for the whole of
    [call_llm_collect_parameters], [call_reasoner_review] and
    [call_llm_fill_fast], prompt building and HTTP exchange included. *)
Record World := {
  repr : json -> string;
  splitlines : string -> list string;
  load_json : string -> result json;
  iter_errors : json -> json -> list ValidationError;
  get_override_for_frontend_model : string -> option json;
  call_llm_collect_parameters : string -> dict -> option json -> result json;
  call_reasoner_review : dict -> profile_meta -> json -> result json;
  call_llm_fill_fast :
    string -> dict -> string -> option string -> option json -> result json;
  (* [job_dir.mkdir], then [json.dump] into [job_id/intent.json] *)
  write_intent_file : string -> dict -> result unit;
  (* [f"job-{timestamp}-{random_tail}"] *)
  fresh_job_id : string;
  (* the texts *)
  collection_summary_text : list dict -> string -> string;
  multilayer_summary_text :
    dict -> final_check -> dict -> string -> option string -> string;
  intent_summary_text : dict -> string
}.

(** A route handler: its result or the exception it raises, and the calls
    it made. *)
Definition Route (A : Type) : Type := (result A * list event)%type.

#[global] Instance route_monad : Monad Route := {
  ret := fun A a => (Ok a, []);
  bind := fun A B m k =>
            match m with
            | (Ok a, calls) =>
                let (r, calls') := k a in (r, (calls ++ calls')%list)
            | (Raise e, calls) => (Raise e, calls)
            end
}.

Definition raise {A} (e : exn) : Route A := (Raise e, []).
Definition pure {A} (r : result A) : Route A := (r, []).
Definition call {A} (e : event) (r : result A) : Route A := (r, [e]).

(** [raise HTTPException(status_code=..., detail=...)]. *)
Definition http_error {A} (status_code : Z) (detail : string) : Route A :=
  raise (Exn (HTTPException status_code) detail).

(** [try: ... except FileNotFoundError as e: raise HTTPException(500, ...)]. *)
Definition files_or_500 {A} (prefix : string) (r : result A) : Route A :=
  match r with
  | Ok a => ret a
  | Raise e =>
      if is_file_not_found e then http_error 500 (prefix ++ text e)
      else raise e
  end.

(** A [JSONResponse]: status code and content.  A handler's result is
    the content it hands to [JSONResponse]; the rendering of that content
    by the framework is outside the model. *)
Record response := {
  status_code : Z;
  content : dict
}.

Section InWorld.

Variable W : World.

(** *** Summaries *)

(** [prof.startswith(prefix)]. *)
Definition startswith (v : json) (prefix : string) : result bool :=
  match v with
  | JStr s => Ok (String.prefix prefix s)
  | _ => Raise (Exn AttributeError "object has no attribute 'startswith'")
  end.

(** [summarize_intent(intent)]: the attribute accesses and subscripts in
    the order the function makes them, each of which raises on a value of
    the wrong type; the wording is [intent_summary_text]. *)
Definition summarize_intent (intent : dict) : result string :=
  let prof := get_default intent "profile" (JStr "") in
  let oc := py_or (get_default intent "operating_conditions" (JObj [])) (JObj []) in
  let mats := py_or (get_default intent "materials" (JObj [])) (JObj []) in
  let tls := py_or (get_default intent "thermal_loads" (JArr [])) (JArr []) in
  let acc := py_or (get_default intent "accuracy_pref" (JObj [])) (JObj []) in
  let deliv := py_or (get_default intent "deliverables" (JObj [])) (JObj []) in
  is_of <- startswith prof "CoolingPlate-OF-Intent" ;;
  (if (is_of : bool) then
     let meshing := py_or (get_default intent "meshing" (JObj [])) (JObj []) in
     mode <- attr_get_default meshing "mode" (JStr "") ;;
     if eq_str mode "blockMesh" then
       bm <- attr_get_default meshing "blockMesh" (JObj []) ;;
       geo <- attr_get_default (py_or bm (JObj [])) "geometry" (JObj []) ;;
       attr_get_default (py_or geo (JObj [])) "dimension_mode" (JStr "3D") ;;;
       ret tt
     else ret tt
   else
     is_mesh <- startswith prof "CoolingPlate-Intent@mesh" ;;
     if (is_mesh : bool) then
       let mesh := py_or (get_default intent "mesh" (JObj [])) (JObj []) in
       attr_get_default mesh "units_hint" (JStr "unknown") ;;; ret tt
     else ret tt) ;;;
  attr_get_default oc "time_mode" (JStr "steady") ;;;
  inlets <- attr_get oc "inlets" ;;
  inlet <- subscript0 (py_or inlets (JArr [JObj []])) ;;
  attr_get_default inlet "quantity" (JStr "") ;;;
  Tin <- attr_get_default inlet "T_in" (JObj []) ;;
  (if truthy Tin then attr_get_default Tin "si" (JStr "") else ret JNull) ;;;
  outlets <- attr_get oc "outlets" ;;
  outlet <- subscript0 (py_or outlets (JArr [JObj []])) ;;
  attr_get_default outlet "p" (JObj []) ;;;
  (if truthy tls then
     t0 <- subscript0 tls ;;
     attr_get_default t0 "type" (JStr "")
   else ret JNull) ;;;
  fluid <- attr_get mats "fluid" ;;
  attr_get_default (py_or fluid (JObj [])) "name" (JStr "water") ;;;
  res <- attr_get_default acc "residual_targets" (JObj []) ;;
  attr_get_default (py_or res (JObj [])) "U" (JStr "") ;;;
  (if (is_of : bool) then
     let openfoam := py_or (get_default intent "openfoam" (JObj [])) (JObj []) in
     attr_get_default openfoam "solver" (JStr "") ;;;
     numerics <- attr_get openfoam "numerics" ;;
     attr_get_default (py_or numerics (JObj [])) "under_relaxation" (JObj [])
   else ret JNull) ;;;
  reports <- attr_get_default deliv "reports" (JArr []) ;;
  join_defined reports ;;;
  plots <- attr_get_default deliv "plots" (JArr []) ;;
  join_defined plots ;;;
  exports <- attr_get_default deliv "exports" (JArr []) ;;
  join_defined exports ;;;
  ret (intent_summary_text W intent).

(** [build_collection_summary(missing, summary_hint)]. *)
Definition build_collection_summary (missing : list dict) (summary_hint : string)
  : string :=
  collection_summary_text W missing summary_hint.

(** [build_multilayer_summary(schema_initial, schema_final, review,
    final_intent, pipeline_status, storage_record=None)]: with an invalid
    initial check the function returns before it summarises the intent;
    otherwise it ends with [summarize_intent(final_intent)]. *)
Definition build_multilayer_summary
  (schema_initial : dict) (schema_final : final_check) (review : dict)
  (final_intent : dict) (pipeline_status : string) : result string :=
  if negb (truthy (get_default schema_initial "valid" (JBool false))) then
    ret (multilayer_summary_text W schema_initial schema_final review
           pipeline_status None)
  else
    summary <- summarize_intent final_intent ;;
    ret (multilayer_summary_text W schema_initial schema_final review
           pipeline_status (Some summary)).

(** *** Small helpers of the handlers *)

Definition opt_json (d : option dict) : json :=
  match d with Some x => JObj x | None => JNull end.

(** [v if isinstance(v, dict) else None]. *)
Definition as_dict (v : json) : option dict :=
  match v with JObj d => Some d | _ => None end.

(** [v if isinstance(v, dict) else {}]. *)
Definition dict_or_empty (v : json) : dict :=
  match v with JObj d => d | _ => [] end.

(** [dst.update(src)]. *)
Definition update (dst src : dict) : dict :=
  fold_left (fun acc kv => store acc (fst kv) (snd kv)) src dst.

(** The two optional members every full-fill response may get. *)
Definition with_defaults (response : dict)
  (defaults_intent defaults_overview : option dict) : dict :=
  let response :=
    match defaults_intent with
    | Some d => if truthy (JObj d) then store response "default_intent" (JObj d)
                else response
    | None => response
    end in
  match defaults_overview with
  | Some d => store response "defaults_overview" (JObj d)
  | None => response
  end.

(** [format_schema_errors(schema_validate(instance, schema))]. *)
Definition validation (instance : dict) (schema : json) : result dict :=
  errors <- schema_validate (iter_errors W) (JObj instance) schema ;;
  ret (format_schema_errors errors).

(** The [job_meta] block shared by fast-fill and save. *)
Definition merge_job_meta (intent : dict) (req_job_meta : option dict) : dict :=
  match req_job_meta with
  | Some extra =>
      let job_meta := dict_or_empty (get intent "job_meta") in
      let job_meta := update job_meta extra in
      store intent "job_meta" (JObj job_meta)
  | None => intent
  end.

(** *** Full fill: [/intent/fill] *)

Record FillRequest := {
  user_request : string;
  profile_slug : string;
  use_template : bool;
  model : option string;
  client_intent : option dict
}.

(** How the collecting part of [intent_fill] ends: with the
    [needs_parameters] response, or with the intent to validate. *)
Inductive collected :=
| Halt (response : dict)
| Proceed (final_intent : dict) (defaults_intent defaults_overview : option dict).

(** [a or b] on optional overrides. *)
Definition or_else (a b : option json) : option json :=
  match a with Some _ => a | None => b end.

(** The override the collector call is made with. *)
Definition collect_override (req : FillRequest) : option json :=
  let collect_override := get_override_for_frontend_model W "deepseek-v1" in
  match model req with
  | Some m =>
      if nonempty m && String.prefix "deepseek" m
      then or_else (get_override_for_frontend_model W m) collect_override
      else collect_override
  | None => collect_override
  end.

(** Lines 1202-1256 of [intent_fill]. *)
Definition fill_collect (req : FillRequest) (meta : profile_meta)
  (template_obj : dict) : Route collected :=
  match client_intent req with
  | None =>
      collected <-
        match call_llm_collect_parameters W (user_request req) template_obj
                (collect_override req) with
        | Ok c => call (CollectorCall (user_request req) template_obj) (Ok c)
        | Raise e =>
            call (CollectorCall (user_request req) template_obj)
                 (Raise (Exn (HTTPException 502)
                           ("LLM 参数采集失败: " ++ text e)))
        end ;;
      let collected_dict := dict_or_empty collected in
      let intent_raw := dict_or_empty (get collected_dict "intent") in
      let intent := merge_with_template template_obj (JObj intent_raw) in
      let intent := store intent "profile" (JStr (profile meta)) in
      let missing_list :=
        normalize_missing_parameters (repr W)
          (get collected_dict "missing_parameters") in
      let defaults_overview := as_dict (get collected_dict "defaults_overview") in
      let summary_hint := stripped (repr W) (get collected_dict "summary") in
      let defaults_intent :=
        match get collected_dict "default_intent" with
        | JObj default_intent_raw =>
            Some (store (merge_with_template template_obj (JObj default_intent_raw))
                        "profile" (JStr (profile meta)))
        | _ => None
        end in
      match missing_list with
      | _ :: _ =>
          let pipeline_status := "needs_parameters" in
          let human_summary := build_collection_summary missing_list summary_hint in
          let review_payload :=
            [("stage", JStr "collecting");
             ("summary", JStr summary_hint);
             ("missing", JArr (map JObj missing_list));
             ("defaults_overview", opt_json defaults_overview)] in
          let response :=
            [("profile_slug", JStr (profile_slug req));
             ("family", JStr (family meta));
             ("intent", JObj intent);
             ("human_summary", JStr human_summary);
             ("review", JObj review_payload);
             ("pipeline_status", JStr pipeline_status);
             ("missing_parameters", JArr (map JObj missing_list))] in
          ret (Halt (with_defaults response defaults_intent defaults_overview))
      | [] =>
          let final_intent := deep_copy_dict intent in
          ret (Proceed (store final_intent "profile" (JStr (profile meta)))
                       defaults_intent defaults_overview)
      end
  | Some client =>
      let final_intent := merge_with_template template_obj (JObj client) in
      ret (Proceed (store final_intent "profile" (JStr (profile meta))) None None)
  end.

(** The response of the validating and reviewing part. *)
Definition fill_response (req : FillRequest) (meta : profile_meta)
  (final_intent : dict) (human_summary : string) (review_payload : dict)
  (pipeline_status : string) (defaults_intent defaults_overview : option dict)
  : dict :=
  with_defaults
    [("profile_slug", JStr (profile_slug req));
     ("family", JStr (family meta));
     ("intent", JObj final_intent);
     ("human_summary", JStr human_summary);
     ("review", JObj review_payload);
     ("pipeline_status", JStr pipeline_status);
     ("missing_parameters", JArr [])]
    defaults_intent defaults_overview.

(** Lines 1305-1308 of [intent_fill]: the reviewer's [updated_intent]
    is adopted when it is a dict, and the profile identifier is written
    again. *)
Definition reviewed_intent (meta : profile_meta) (final_intent : dict)
  (reasoner_raw : json) : dict :=
  let updated_intent :=
    match reasoner_raw with
    | JObj r => get r "updated_intent"
    | _ => JNull
    end in
  let final_intent :=
    match updated_intent with
    | JObj u => deep_copy_dict u
    | _ => final_intent
    end in
  store final_intent "profile" (JStr (profile meta)).

(** Lines 1258-1344 of [intent_fill]. *)
Definition fill_review (req : FillRequest) (meta : profile_meta) (schema : json)
  (final_intent : dict) (defaults_intent defaults_overview : option dict)
  : Route dict :=
  schema_initial <- pure (validation final_intent schema) ;;
  let review_payload := [("schema_initial", JObj schema_initial)] in
  if negb (truthy (get schema_initial "valid")) then
    let pipeline_status := "schema_failed" in
    human_summary <-
      pure (build_multilayer_summary schema_initial NoFinal review_payload
              final_intent pipeline_status) ;;
    ret (fill_response req meta final_intent human_summary review_payload
           pipeline_status defaults_intent defaults_overview)
  else
    match call_reasoner_review W final_intent meta schema with
    | Raise e =>
        call (ReviewerCall final_intent) (Ok tt) ;;;
        let pipeline_status := "reasoner_failed" in
        let review_payload := store review_payload "reasoner_error" (JStr (text e)) in
        human_summary <-
          pure (build_multilayer_summary schema_initial SameAsInitial
                  review_payload final_intent pipeline_status) ;;
        ret (fill_response req meta final_intent human_summary review_payload
               pipeline_status defaults_intent defaults_overview)
    | Ok reasoner_raw =>
        call (ReviewerCall final_intent) (Ok tt) ;;;
        let pipeline_status := "ok" in
        let final_intent := reviewed_intent meta final_intent reasoner_raw in
        schema_final <- pure (validation final_intent schema) ;;
        let part name :=
          match reasoner_raw with JObj r => get r name | _ => JNull end in
        let review_payload :=
          update review_payload
            [("schema_final", JObj schema_final);
             ("physics", part "physics_check");
             ("expert", part "expert_review");
             ("auto_corrections", part "auto_corrections")] in
        let pipeline_status :=
          if negb (truthy (get schema_final "valid")) then "schema_regression"
          else pipeline_status in
        human_summary <-
          pure (build_multilayer_summary schema_initial (Final schema_final)
                  review_payload final_intent pipeline_status) ;;
        ret (fill_response req meta final_intent human_summary review_payload
               pipeline_status defaults_intent defaults_overview)
    end.

(** The template and schema documents [intent_fill] loads for a request. *)
Definition files_loaded (req : FillRequest) (meta : profile_meta)
  (template_doc schema_doc : json) : Prop :=
  (if use_template req then load_json W (template meta) else Ok (JObj []))
    = Ok template_doc /\
  load_json W (schema meta) = Ok schema_doc.

(** [intent_fill(req)]. *)
Definition intent_fill (req : FillRequest) : Route dict :=
  match registry_get (profile_slug req) with
  | None => http_error 400 ("未知的 profile_slug：" ++ profile_slug req)
  | Some meta =>
      files <-
        files_or_500 "Schema/Template not found: "
          (template <- (if use_template req then load_json W (template meta)
                        else Ok (JObj [])) ;;
           schema <- load_json W (schema meta) ;;
           ret (template, schema)) ;;
      let template_obj := dict_or_empty (fst files) in
      stage <- fill_collect req meta template_obj ;;
      match stage with
      | Halt response => ret response
      | Proceed final_intent defaults_intent defaults_overview =>
          fill_review req meta (snd files) final_intent
            defaults_intent defaults_overview
      end
  end.

(** *** Fast fill: [/intent/fill_fast] *)

Record FillFastRequest := {
  ff_user_request : string;
  ff_profile_slug : string;
  ff_dimension_mode : option string;
  ff_model : option string;
  ff_job_meta : option dict
}.

(** [coerce_string_list(value)]. *)
Definition coerce_string_list (value : json) : list string :=
  let keep (text : string) : list string :=
    if nonempty text then [text] else [] in
  match value with
  | JNull => []
  | JArr l =>
      flat_map
        (fun item =>
           match item with
           | JStr s => keep (strip s)
           | JObj d =>
               (* the first of the three keys that holds a str *)
               match find (fun k => is_str (get d k)) ["text"; "message"; "detail"] with
               | Some k => match get d k with
                           | JStr s => keep (strip s)
                           | _ => []
                           end
               | None => []
               end
           | _ => keep (strip (py_str (repr W) item))
           end) l
  | JStr s => flat_map (fun piece => keep (strip piece)) (splitlines W s)
  | _ => keep (strip (py_str (repr W) value))
  end.

(** [intent_fill_fast(req)]. *)
Definition intent_fill_fast (req : FillFastRequest) : Route dict :=
  match registry_get (ff_profile_slug req) with
  | None => http_error 400 ("未知的 profile_slug：" ++ ff_profile_slug req)
  | Some meta =>
      template_raw <-
        files_or_500 "Template not found: " (load_json W (template meta)) ;;
      let template_obj := dict_or_empty template_raw in
      let dimension_mode := normalize_dimension_mode (ff_dimension_mode req) in
      let prepared_template :=
        apply_dimension_mode_to_template template_obj dimension_mode in
      let override :=
        match ff_model req with
        | Some m => if nonempty m then get_override_for_frontend_model W m
                    else None
        | None => None
        end in
      let override :=
        match override with
        | Some _ => override
        | None => get_override_for_frontend_model W "deepseek-v1"
        end in
      llm_result <-
        match call_llm_fill_fast W (ff_user_request req) prepared_template
                (ff_profile_slug req) dimension_mode override with
        | Ok r => call (FastFillCall (ff_user_request req) prepared_template) (Ok r)
        | Raise e =>
            call (FastFillCall (ff_user_request req) prepared_template)
                 (Raise (Exn (HTTPException 502) ("LLM 填写失败: " ++ text e)))
        end ;;
      match llm_result with
      | JObj llm =>
          let llm_intent_raw := get llm "intent" in
          let intent :=
            merge_with_template prepared_template
              (JObj (dict_or_empty llm_intent_raw)) in
          let intent := store intent "profile" (JStr (profile meta)) in
          let intent := merge_job_meta intent (ff_job_meta req) in
          let intent := enforce_dimension_mode intent dimension_mode prepared_template in
          let defaults_used := coerce_string_list (get llm "defaults_used") in
          let open_questions := coerce_string_list (get llm "open_questions") in
          block <- pure (attr_get_default (py_or (get intent "meshing") (JObj []))
                           "blockMesh" (JObj [])) ;;
          geo <- pure (attr_get_default block "geometry" (JObj [])) ;;
          let effective_dimension :=
            match geo with JObj g => get g "dimension_mode" | _ => JNull end in
          ret [("profile_slug", JStr (ff_profile_slug req));
               ("family", JStr (family meta));
               ("intent", JObj intent);
               ("defaults_used", JArr (map JStr defaults_used));
               ("open_questions", JArr (map JStr open_questions));
               ("dimension_mode", effective_dimension)]
      | _ => http_error 502 "LLM 返回非 JSON"
      end
  end.

(** *** Save: [/intent/save] *)

Record SaveIntentRequest := {
  sv_intent : dict;
  sv_profile_slug : option string;
  sv_job_meta : option dict
}.

(** One character of [re.sub(r"[^0-9A-Za-z_-]", "-", value)] on the UTF-8
    bytes: a safe character stays, any other character becomes one dash
    (its first byte; continuation bytes add nothing). *)
Definition sanitize_byte (c : ascii) : string :=
  let n := Z.of_nat (nat_of_ascii c) in
  if ((48 <=? n) && (n <=? 57)) || ((65 <=? n) && (n <=? 90))
     || ((97 <=? n) && (n <=? 122)) || (n =? 95) || (n =? 45)
  then String c EmptyString
  else if (128 <=? n) && (n <? 192) then EmptyString
  else "-".

Fixpoint sanitize (s : string) : string :=
  match s with
  | EmptyString => EmptyString
  | String c rest => sanitize_byte c ++ sanitize rest
  end.

(** [s.strip("-")]. *)
Fixpoint lstrip_dash (s : string) : string :=
  match s with
  | String "-"%char rest => lstrip_dash rest
  | _ => s
  end.

Fixpoint rstrip_dash (s : string) : string :=
  match s with
  | EmptyString => EmptyString
  | String c rest =>
      let rest' := rstrip_dash rest in
      if Ascii.eqb c "-"%char && (rest' =? "")%string then EmptyString
      else String c rest'
  end.

(** [normalize_job_id(raw)]. *)
Definition normalize_job_id (raw : json) : string :=
  let value := stripped (repr W) raw in
  let sanitized := rstrip_dash (lstrip_dash (sanitize value)) in
  if nonempty value && nonempty sanitized then String.substring 0 120 sanitized
  else fresh_job_id W.

(** [save_intent_with_job_directory(intent)]: the saved document and the
    job id. *)
Definition save_intent_with_job_directory (intent : dict) : Route (dict * string) :=
  let final_intent := deep_copy_dict intent in
  let job_meta := dict_or_empty (get final_intent "job_meta") in
  let job_id := normalize_job_id (get job_meta "job_id") in
  let job_meta := store job_meta "job_id" (JStr job_id) in
  let final_intent := store final_intent "job_meta" (JObj job_meta) in
  match write_intent_file W job_id final_intent with
  | Ok _ => call (IntentFileWrite job_id final_intent) (Ok (final_intent, job_id))
  | Raise e => raise e
  end.

(** The profile [intent_save] resolves: by the slug of the request when
    it is registered, else by the [profile] of the intent. *)
Definition resolve_profile (req : SaveIntentRequest) : result (option profile_meta) :=
  let by_slug :=
    match sv_profile_slug req with
    | Some s => if nonempty s then registry_get s else None
    | None => None
    end in
  match by_slug with
  | Some m => Ok (Some m)
  | None =>
      let profile_name := get (sv_intent req) "profile" in
      if truthy profile_name then by_name_get profile_name
      else Ok None
  end.

(** [intent_save(req)]. *)
Definition intent_save (req : SaveIntentRequest) : Route response :=
  meta <- pure (resolve_profile req) ;;
  match meta with
  | None => http_error 400 "无法识别 intent 对应的 profile"
  | Some meta =>
      schema <- files_or_500 "Schema not found: " (load_json W (schema meta)) ;;
      let intent_obj := deep_copy_dict (sv_intent req) in
      let intent_obj := store intent_obj "profile" (JStr (profile meta)) in
      let intent_obj := merge_job_meta intent_obj (sv_job_meta req) in
      validation <- pure (validation intent_obj schema) ;;
      if negb (truthy (get validation "valid")) then
        ret {| status_code := 400;
               content := [("valid", JBool false);
                           ("issues", get validation "issues")] |}
      else
        saved <-
          match save_intent_with_job_directory intent_obj with
          | (Raise e, calls) =>
              (Raise (Exn (HTTPException 500) ("保存失败：" ++ text e)), calls)
          | ok => ok
          end ;;
        let (saved_intent, job_id) := (saved : dict * string) in
        let relative_path := job_id ++ "/intent.json" in
        let storage_path := "storage/" ++ relative_path in
        ret {| status_code := 200;
               content := [("ok", JBool true);
                           ("job_id", JStr job_id);
                           ("relative_path", JStr relative_path);
                           ("storage_path", JStr storage_path);
                           ("intent", JObj saved_intent);
                           ("profile_slug",
                            JStr (reported_slug (sv_profile_slug req) meta))] |}
  end.

End InWorld.

(** The calls to the reviewer among the calls of a run. *)
Definition reviewer_calls (calls : list event) : list event :=
  filter is_reviewer_call calls.

(** The [pipeline_status] of a response. *)
Definition pipeline_status_of (response : dict) : json :=
  get response "pipeline_status".

End Routes.
Import Routes.

(* ===================================================================== *)
(** ** Sample worlds, for running the routes on concrete requests *)
(* ===================================================================== *)

Module Samples.

(** [str(v)] on the values the samples use. *)
Definition sample_repr (v : json) : string :=
  match v with
  | JNull => "None"
  | JBool true => "True"
  | JBool false => "False"
  | JInt n => decimal n
  | _ => ""
  end.

(** A validator for schemas made of the two draft-2020-12 keywords
    [properties] (with [{"type": "object"}] sub-schemas) and [required],
    reporting the errors the real one reports for them. *)
Definition sample_iter_errors (schema instance : json) : list ValidationError :=
  match schema, instance with
  | JObj s, JObj inst =>
      (match lookup s "properties" with
       | Some (JObj props) =>
           flat_map
             (fun kv =>
                match lookup inst (fst kv), snd kv with
                | Some v, JObj sub =>
                    if eq_str (get sub "type") "object" && negb (is_dict v)
                    then [{| err_path := [Key (fst kv)];
                             err_message := "value is not of type 'object'" |}]
                    else []
                | _, _ => []
                end) props
       | _ => []
       end ++
       match lookup s "required" with
       | Some (JArr names) =>
           flat_map
             (fun name =>
                match name with
                | JStr k =>
                    if has_key inst k then []
                    else [{| err_path := [];
                             err_message := "'" ++ k ++ "' is a required property" |}]
                | _ => []
                end) names
       | _ => []
       end)%list
  | _, _ => []
  end.

(** A world with given files and given answers of the generation
    services; writing the intent file succeeds. *)
Definition sample_world (files : string -> result json)
  (collector reviewer : result json) : World := {|
  repr := sample_repr;
  splitlines := fun s => [s];
  load_json := files;
  iter_errors := sample_iter_errors;
  get_override_for_frontend_model := fun _ => None;
  call_llm_collect_parameters := fun _ _ _ => collector;
  call_reasoner_review := fun _ _ _ => reviewer;
  call_llm_fill_fast := fun _ _ _ _ _ => collector;
  write_intent_file := fun _ _ => Ok tt;
  fresh_job_id := "job-20260101T000000-0a1b2c";
  collection_summary_text := fun _ _ => "";
  multilayer_summary_text := fun _ _ _ _ _ => "";
  intent_summary_text := fun _ => ""
|}.

(** Every template is empty; the schema wants [operating_conditions] to
    be an object. *)
Definition typed_files (path : string) : result json :=
  if (path =? schema OPENFOAM_BMESH_V1)%string
     || (path =? schema MESH_V1)%string
  then Ok (JObj [("properties",
                  JObj [("operating_conditions",
                         JObj [("type", JStr "object")])])])
  else Ok (JObj []).

(** Every template is empty; the schema wants a [materials] member. *)
Definition strict_files (path : string) : result json :=
  if (path =? schema OPENFOAM_BMESH_V1)%string
     || (path =? schema MESH_V1)%string
  then Ok (JObj [("required", JArr [JStr "materials"])])
  else Ok (JObj []).

(** Every file is the empty object: the schema accepts any document. *)
Definition lax_files (path : string) : result json := Ok (JObj []).

Definition timeout : exn := Exn RuntimeError "上游超时 @ https://llm/chat/completions".

Definition fill_request (client : option dict) : FillRequest := {|
  user_request := "2D cooling plate, water, 0.5 m/s";
  profile_slug := "coolingplate-openfoam-bmesh-v1";
  use_template := true;
  model := None;
  client_intent := client
|}.

End Samples.
Import Samples.

(* ===================================================================== *)
(** ** Reading JSON files: comments and [load_json] *)
(* ===================================================================== *)

Module Loader.

(** Where the loop of [_strip_json_comments] stands: outside a string
    literal, inside one ([in_string], with [string_delim] and [escape]),
    or in one of the two inner loops that skip a comment. *)
Inductive scanner :=
| Outside
| Inside (string_delim : ascii) (escape : bool)
| LineComment
| BlockComment.

(** A character is one of the two quotes that open a string literal
    (codes 34 and 39). *)
Definition is_quote (ch : ascii) : bool :=
  Ascii.eqb ch "034"%char || Ascii.eqb ch "039"%char.

(** A character is a carriage return or a line feed. *)
Definition is_newline (ch : ascii) : bool :=
  Ascii.eqb ch "013"%char || Ascii.eqb ch "010"%char.

(** The loop of [_strip_json_comments] from position [i], [raw] being the
    text from [i] on; the result is what the loop still appends.  The
    character that ends a line comment is left to the outer loop, which
    appends it (it is neither a quote nor a slash).  In a block comment
    the inner loop stops at the last character ([i + 1 < length] fails)
    and [i += 2] steps over it. *)
Fixpoint scan (st : scanner) (raw : string) : string :=
  match raw with
  | EmptyString => EmptyString
  | String ch rest =>
      match st with
      | Inside string_delim escape =>
          let st' :=
            if escape then Inside string_delim false
            else if Ascii.eqb ch "092"%char then Inside string_delim true
            else if Ascii.eqb ch string_delim then Outside
            else Inside string_delim false in
          String ch (scan st' rest)
      | Outside =>
          if is_quote ch then String ch (scan (Inside ch false) rest)
          else if Ascii.eqb ch "/"%char then
            match rest with
            | String nxt rest' =>
                if Ascii.eqb nxt "/"%char then scan LineComment rest'
                else if Ascii.eqb nxt "*"%char then scan BlockComment rest'
                else String ch (scan Outside rest)
            | EmptyString => String ch (scan Outside rest)
            end
          else String ch (scan Outside rest)
      | LineComment =>
          if is_newline ch then String ch (scan Outside rest)
          else scan LineComment rest
      | BlockComment =>
          match rest with
          | String nxt rest' =>
              if Ascii.eqb ch "*"%char && Ascii.eqb nxt "/"%char
              then scan Outside rest'
              else scan BlockComment rest
          | EmptyString => EmptyString
          end
      end
  end.

(** [_strip_json_comments(raw)]. *)
Definition _strip_json_comments (raw : string) : string := scan Outside raw.

(** The character [c] occurs in [s]. *)
Fixpoint occurs (c : ascii) (s : string) : bool :=
  match s with
  | EmptyString => false
  | String x rest => Ascii.eqb x c || occurs c rest
  end.

(** The text holds the two characters that close a block comment. *)
Fixpoint has_close (s : string) : bool :=
  match s with
  | String x (String y _ as rest) =>
      (Ascii.eqb x "*"%char && Ascii.eqb y "/"%char) || has_close rest
  | _ => false
  end.

(** A stretch of text with no slash and no quote: outside a string
    literal the loop copies it and stays outside. *)
Fixpoint plain (s : string) : bool :=
  match s with
  | EmptyString => true
  | String x rest => negb (Ascii.eqb x "/"%char) && negb (is_quote x) && plain rest
  end.

Section Files.

(** The file system and the parser: [p.exists()], [p.read_text(...)] and
    [json.loads], which answers with a document or with the text of a
    [JSONDecodeError] (a [ValueError]). *)
Variable path_exists : string -> bool.
Variable read_text : string -> result string.
Variable json_loads : string -> json + string.

(** [load_json(p)]. *)
Definition load_json (p : string) : result json :=
  if negb (path_exists p) then Raise (Exn FileNotFoundError p)
  else
    raw <- read_text p ;;
    match json_loads raw with
    | inl doc => Ok doc
    | inr err =>
        let stripped := _strip_json_comments raw in
        if negb (stripped =? raw)%string then
          match json_loads stripped with
          | inl doc => Ok doc
          | inr err' =>
              Raise (Exn ValueError ("JSON decode error in " ++ p ++ ": " ++ err'))
          end
        else Raise (Exn ValueError err)
    end.

End Files.

End Loader.

(* ===================================================================== *)
(** ** The answer of a generation service: [call_llm_json_response] *)
(* ===================================================================== *)

Module Llm.

(** [s.find(c)] for a single character [c]: the lowest index where it
    occurs, [-1] when it does not.  Indices count the bytes of the UTF-8
    encoding; a slice between two positions found this way is the same
    text as in Python, where they count characters. *)
Fixpoint find (c : ascii) (s : string) : Z :=
  match s with
  | EmptyString => -1
  | String x rest =>
      if Ascii.eqb x c then 0
      else let i := find c rest in if i <? 0 then -1 else i + 1
  end.

(** [s.rfind(c)]: the highest index, [-1] when [c] does not occur. *)
Fixpoint rfind (c : ascii) (s : string) : Z :=
  match s with
  | EmptyString => -1
  | String x rest =>
      let i := rfind c rest in
      if 0 <=? i then i + 1 else if Ascii.eqb x c then 0 else -1
  end.

(** [s[start:stop]] for [0 <= start]. *)
Definition slice (s : string) (start stop : Z) : string :=
  String.substring (Z.to_nat start) (Z.to_nat (stop - start)) s.

Section Parser.

(** [json.loads], which answers with a document or with the text of a
    [JSONDecodeError], and [s[:n]], which counts characters. *)
Variable json_loads : string -> json + string.
Variable head : nat -> string -> string.

(** [json.loads(s)] where the error is left to propagate. *)
Definition loads (s : string) : result json :=
  match json_loads s with
  | inl doc => Ok doc
  | inr err => Raise (Exn ValueError err)
  end.

(** The end of [call_llm_json_response]: the [content] of the first
    choice is parsed; when that fails, the text from the first opening
    brace to the last closing brace is parsed instead. *)
Definition parse_content (content : string) : result json :=
  match json_loads content with
  | inl doc => Ok doc
  | inr _ =>
      let start := find "{" content in
      let end_ := rfind "}" content in
      if (0 <=? start) && (end_ >? start) then
        loads (slice content start (end_ + 1))
      else
        Raise (Exn RuntimeError ("模型返回非 JSON：" ++ head 200 content ++ "..."))
  end.

End Parser.

End Llm.

(* ===================================================================== *)
(** ** DimensionModeEnforcer: what it may write *)
(* ===================================================================== *)

Module EnforcerSpec.

(** The members of the geometry and cells dicts that the enforcer
    assigns. *)
Definition GEOMETRY_FIELDS : list string :=
  ["dimension_mode"; "thickness_2d_m"; "height_m"].
Definition CELLS_FIELDS : list string := ["nz"].

(** The paths of those members in the intent. *)
Definition FIELDS : list (list string) :=
  (map (fun k => GEOMETRY ++ [k]) GEOMETRY_FIELDS
   ++ map (fun k => CELLS ++ [k]) CELLS_FIELDS)%list.

(** [p] is a prefix of [q]. *)
Fixpoint is_prefix (p q : list string) : bool :=
  match p, q with
  | [], _ => true
  | k :: p', k' :: q' => (k =? k')%string && is_prefix p' q'
  | _ :: _, [] => false
  end.

(** A path that lies apart from the assigned members: it leads neither
    to one of them or into it, nor to a dict that holds one. *)
Definition apart (p : list string) : bool :=
  forallb (fun f => negb (is_prefix p f) && negb (is_prefix f p)) FIELDS.

(** Two dicts agree outside the listed keys. *)
Definition same_outside (fields : list string) (d d' : dict) : Prop :=
  forall k, ~ In k fields -> lookup d' k = lookup d k.

(** A mutation stays inside the geometry and cells dicts of a document
    that has them, and there inside the listed members. *)
Definition within_sections {A} (geometry_fields cells_fields : list string)
  (m : Mut A) : Prop :=
  forall doc g c, exists r g' c',
    m (with_sections doc g c) = (r, with_sections doc g' c') /\
    same_outside geometry_fields g g' /\ same_outside cells_fields c c'.

(** The members the two branches assign once the mode is written. *)
Definition SIZE_FIELDS : list string := ["thickness_2d_m"; "height_m"].

End EnforcerSpec.

(* ===================================================================== *)
(** ** Job identifiers: the shape [normalize_job_id] promises *)
(* ===================================================================== *)

Module JobIdSpec.

(** The characters of the class [0-9A-Za-z_-]. *)
Definition safe_char (c : ascii) : bool :=
  let n := Z.of_nat (nat_of_ascii c) in
  ((48 <=? n) && (n <=? 57)) || ((65 <=? n) && (n <=? 90))
  || ((97 <=? n) && (n <=? 122)) || (n =? 95) || (n =? 45).

(** Every character of the text satisfies [p]. *)
Fixpoint all_chars (p : ascii -> bool) (s : string) : bool :=
  match s with
  | EmptyString => true
  | String c rest => p c && all_chars p rest
  end.

(** The text starts with the character [c]. *)
Definition starts_with (c : ascii) (s : string) : bool :=
  match s with
  | String x _ => Ascii.eqb x c
  | EmptyString => false
  end.

End JobIdSpec.

(* ===================================================================== *)
(** ** Shapes: the nested containers, level by level *)
(* ===================================================================== *)

Module ShapeSpec.

(** A member that is absent, or a dict that satisfies [Q]. *)
Definition dictish (Q : dict -> Prop) (o : option json) : Prop :=
  match o with
  | Some (JObj d) => Q d
  | Some _ => False
  | None => True
  end.

Definition block_shaped (b : dict) : Prop :=
  dictish (fun _ => True) (lookup b "geometry") /\
  dictish (fun _ => True) (lookup b "cells").

Definition meshing_shaped (m : dict) : Prop :=
  dictish block_shaped (lookup m "blockMesh").

(** [well_shaped], level by level. *)
Definition shaped (doc : dict) : Prop :=
  dictish meshing_shaped (lookup doc "meshing").

End ShapeSpec.

(* ===================================================================== *)
(** ** Sample documents, requests and worlds *)
(* ===================================================================== *)

Module Cases.

(** A parser that knows one document, the empty object. *)
Definition loads_empty_object (s : string) : json + string :=
  if (s =? "{}")%string then inl (JObj []) else inr "Expecting value".

(** An intent and a template of the blockMesh profile. *)
Definition sample_intent : dict :=
  [("profile", JStr "CoolingPlate-OF-Intent@blockMesh_v1.0");
   ("meshing",
    JObj [("mode", JStr "blockMesh");
          ("blockMesh",
           JObj [("geometry",
                  JObj [("length_m", JInt 1); ("thickness_2d_m", JInt 3)]);
                 ("cells", JObj [("nx", JInt 40); ("nz", JInt 40)])])])].

Definition sample_template : dict :=
  [("meshing",
    JObj [("blockMesh",
           JObj [("geometry", JObj [("height_m", JInt 2)]);
                 ("cells", JObj [("nz", JInt 20)])])])].

(** A template and overrides that meet under the key [a]. *)
Definition merge_template : dict :=
  [("a", JObj [("b", JInt 1); ("c", JInt 2)]); ("d", JNull)].

Definition merge_overrides : dict :=
  [("a", JObj [("b", JStr "x")]); ("e", JArr [])].

(** A request to save an intent under its job id, in a world whose
    schemas accept every document. *)
Definition save_world : World := sample_world lax_files (Ok JNull) (Ok JNull).

Definition save_request : SaveIntentRequest := {|
  sv_intent := [("job_meta", JObj [("job_id", JStr " run 7/a ")])];
  sv_profile_slug := Some "coolingplate-mesh-v1";
  sv_job_meta := None
|}.

(** A full-fill request that carries its intent, in a world whose
    reviewer returns the intent unchanged. *)
Definition fill_world : World := sample_world lax_files (Ok JNull) (Ok (JObj [])).

Definition fill_with_intent : FillRequest := fill_request (Some [("materials", JObj [])]).

(** A fast-fill request for the 2D mode; the template and the answer of
    the generation service hold a blockMesh section each. *)
Definition fast_world : World :=
  sample_world (fun _ => Ok (JObj sample_template))
               (Ok (JObj [("intent", JObj sample_intent)])) (Ok JNull).

Definition fast_request : FillFastRequest := {|
  ff_user_request := "2D cooling plate, water, 0.5 m/s";
  ff_profile_slug := "coolingplate-openfoam-bmesh-v1";
  ff_dimension_mode := Some "2D_extruded";
  ff_model := None;
  ff_job_meta := None
|}.

End Cases.
(* ===================================================================== *)
(** ** Facts about dicts *)
(* ===================================================================== *)

Section DictFacts.

Lemma lookup_store_same (d : dict) k v : lookup (store d k v) k = Some v.
Proof.
  induction d as [| [k' v'] d IH]; simpl.
  - now rewrite String.eqb_refl.
  - destruct (String.eqb k' k) eqn:E; simpl; rewrite E; auto.
Qed.

Lemma lookup_store_other (d : dict) k k' v :
  k' <> k -> lookup (store d k v) k' = lookup d k'.
Proof.
  intros Hne. induction d as [| [k0 v0] d IH]; simpl.
  - destruct (String.eqb k k') eqn:E; auto.
    apply String.eqb_eq in E. congruence.
  - destruct (String.eqb k0 k) eqn:E; simpl.
    + apply String.eqb_eq in E. subst k0.
      destruct (String.eqb k k') eqn:E'; auto.
      apply String.eqb_eq in E'. congruence.
    + destruct (String.eqb k0 k'); auto.
Qed.

Lemma lookup_none_not_key (d : dict) k :
  existsb (String.eqb k) (map fst d) = false -> lookup d k = None.
Proof.
  induction d as [| [k0 v0] d IH]; simpl; auto.
  intros H. apply orb_false_iff in H. destruct H as [H1 H2].
  rewrite String.eqb_sym, H1. auto.
Qed.

End DictFacts.

(* ===================================================================== *)
(** ** TemplateMerger: properties *)
(* ===================================================================== *)

Section MergerFacts.

Lemma deep_copy_json_id (v : json) : deep_copy_json v = v.
Proof.
  induction v as [| | | | | l IH | d IH] using json_ind; simpl; auto.
  - f_equal. induction IH as [| x l Hx _ IHl]; simpl; congruence.
  - f_equal. induction IH as [| [k x] d Hx _ IHd]; simpl in *; congruence.
Qed.

Lemma deep_copy_dict_id (d : dict) : deep_copy_dict d = d.
Proof.
  unfold deep_copy_dict. now rewrite deep_copy_json_id.
Qed.

Lemma _merge_obj (members dst : dict) :
  _merge dst (JObj members) = fold_left merge_step members dst.
Proof.
  revert dst. induction members as [| [key value] rest IH]; intros dst.
  - reflexivity.
  - simpl fold_left. rewrite <- IH. reflexivity.
Qed.

Lemma merge_with_template_obj (T members : dict) :
  merge_with_template T (JObj members) = fold_left merge_step members T.
Proof.
  unfold merge_with_template. cbn [is_dict negb].
  now rewrite deep_copy_dict_id, _merge_obj.
Qed.

Lemma resolve_step (d : dict) k p w :
  lookup d k = Some w -> resolve (JObj d) (k :: p) = resolve w p.
Proof. intros H. simpl. now rewrite H. Qed.

Lemma resolve_present_cons (d : dict) k p :
  resolve (JObj d) (k :: p) <> None ->
  exists w, lookup d k = Some w /\ resolve w p <> None.
Proof.
  simpl. destruct (lookup d k) as [w|]; [eauto | congruence].
Qed.

Lemma resolve_nonempty_is_dict (w : json) p :
  p <> [] -> resolve w p <> None -> exists sub, w = JObj sub.
Proof.
  destruct p as [| k p]; [congruence |].
  intros _. destruct w; simpl; try congruence. eauto.
Qed.

Lemma merge_loop_keeps (items : dict) :
  Forall (fun kv =>
            unique_keys (snd kv) = true ->
            forall dst p, p <> [] ->
              resolve (JObj dst) p <> None ->
              resolve (snd kv) p = None ->
              ancestors_are_dicts (snd kv) p ->
              resolve (JObj (_merge dst (snd kv))) p <> None) items ->
  unique_keys (JObj items) = true ->
  forall dst k p,
    resolve (JObj dst) (k :: p) <> None ->
    resolve (JObj items) (k :: p) = None ->
    ancestors_are_dicts (JObj items) (k :: p) ->
    resolve (JObj (fold_left merge_step items dst)) (k :: p) <> None.
Proof.
  induction 1 as [| [key value] rest Hhead _ IH]; intros Huniq dst k p Hdst Habs Hanc.
  - exact Hdst.
  - simpl in Huniq. apply andb_true_iff in Huniq. destruct Huniq as [Hd Hall].
    apply andb_true_iff in Hd. destruct Hd as [Hfresh Hd].
    apply andb_true_iff in Hall. destruct Hall as [Hv Hall].
    apply negb_true_iff in Hfresh.
    assert (Hrest : unique_keys (JObj rest) = true)
      by (simpl; now rewrite Hd, Hall).
    simpl fold_left. simpl in Hhead.
    destruct (String.eqb key k) eqn:E.
    + (* the override has this very key *)
      apply String.eqb_eq in E. subst key.
      assert (Hnone : lookup rest k = None) by now apply lookup_none_not_key.
      apply IH; auto.
      * (* the path is still there after this turn *)
        destruct (resolve_present_cons _ _ _ Hdst) as (w & Hw & Hwp).
        destruct p as [| k2 p2].
        { simpl in Habs. rewrite String.eqb_refl in Habs. discriminate. }
        assert (Hvd : is_dict value = true).
        { apply (Hanc [k] (k2 :: p2) value); try discriminate; auto.
          simpl. now rewrite String.eqb_refl. }
        destruct value as [| | | | | |vs]; try discriminate.
        destruct (resolve_nonempty_is_dict w (p:=k2 :: p2)) as [sub ->];
          [discriminate | assumption |].
        unfold merge_step. rewrite Hw.
        rewrite (@resolve_step _ _ _ _ (lookup_store_same dst k _)).
        apply Hhead; auto; try discriminate.
        -- simpl in Habs. rewrite String.eqb_refl in Habs. exact Habs.
        -- intros q r w' Hq Hr Hsplit Hres.
           apply (Hanc (k :: q) r w'); try discriminate; auto.
           ++ simpl. now rewrite Hsplit.
           ++ simpl. rewrite String.eqb_refl. exact Hres.
      * simpl. now rewrite Hnone.
      * intros q r w' Hq _ Hsplit Hres.
        destruct q as [| k' q']; [congruence |].
        simpl in Hsplit. injection Hsplit as -> _.
        simpl in Hres. rewrite Hnone in Hres. discriminate.
    + (* another key: the member at [k] is untouched *)
      assert (Hne : k <> key)
        by (intros ->; rewrite String.eqb_refl in E; discriminate).
      apply IH; auto.
      * destruct (resolve_present_cons _ _ _ Hdst) as (w & Hw & Hwp).
        assert (Hsame : lookup (merge_step dst (key, value)) k = Some w).
        { unfold merge_step.
          destruct value; destruct (lookup dst key) as [[]|];
            rewrite lookup_store_other; auto. }
        now rewrite (@resolve_step _ _ _ _ Hsame).
      * simpl in Habs. rewrite E in Habs. exact Habs.
      * intros q r w' Hq Hr Hsplit Hres.
        apply (Hanc q r w'); auto.
        destruct q as [| k' q']; [congruence |].
        simpl in Hsplit. injection Hsplit as -> _.
        simpl. rewrite E. exact Hres.
Qed.

Lemma _merge_keeps (src : json) :
  unique_keys src = true ->
  forall dst p, p <> [] ->
    resolve (JObj dst) p <> None ->
    resolve src p = None ->
    ancestors_are_dicts src p ->
    resolve (JObj (_merge dst src)) p <> None.
Proof.
  induction src as [| | | | | l IH | d IH] using json_ind;
    intros Hu dst p Hp Hdst Habs Hanc; try exact Hdst.
  rewrite _merge_obj. destruct p as [| k p]; [congruence |].
  apply merge_loop_keeps; auto.
Qed.

End MergerFacts.

(* ===================================================================== *)
(** ** DimensionModeEnforcer: properties *)
(* ===================================================================== *)

Section DimensionFacts.

Lemma normalize_2D : normalize_dimension_mode (Some "2D_extruded") = Some "2D_extruded".
Proof. reflexivity. Qed.

Lemma lookup_nil k : lookup [] k = None.
Proof. reflexivity. Qed.

Lemma store_store_same (d : dict) k v v' : store (store d k v) k v' = store d k v'.
Proof.
  induction d as [| [k0 v0] d IH]; simpl.
  - now rewrite String.eqb_refl.
  - destruct (String.eqb k0 k) eqn:E; simpl; rewrite E; congruence.
Qed.

Lemma store_id (d : dict) k v : lookup d k = Some v -> store d k v = d.
Proof.
  induction d as [| [k0 v0] d IH]; simpl; [discriminate |].
  destruct (String.eqb k0 k) eqn:E.
  - intros [= ->]. reflexivity.
  - intros H. now rewrite IH.
Qed.

Lemma store_again (d : dict) k k' v w v' :
  k <> k' ->
  store (store (store d k v) k' w) k v' = store (store d k v') k' w.
Proof.
  intros Hne. induction d as [| [k0 v0] d IH]; simpl.
  - destruct (String.eqb k k') eqn:E.
    + apply String.eqb_eq in E. congruence.
    + simpl. now rewrite String.eqb_refl.
  - destruct (String.eqb k0 k) eqn:E; simpl.
    + apply String.eqb_eq in E. subst k0.
      destruct (String.eqb k k') eqn:E'.
      * apply String.eqb_eq in E'. congruence.
      * simpl. now rewrite String.eqb_refl.
    + destruct (String.eqb k0 k') eqn:E'; simpl; rewrite E.
      * now rewrite store_store_same.
      * now rewrite IH.
Qed.

#[local] Ltac stores :=
  repeat (rewrite lookup_store_same
          || rewrite lookup_nil
          || rewrite store_store_same
          || (rewrite lookup_store_other by discriminate)).

#[local] Ltac open_ops :=
  unfold setdefault, setitem, getitem, lift, deref, write_doc,
    MESHING, BLOCK, GEOMETRY, CELLS in *.

#[local] Ltac crunch :=
  repeat (progress (cbn -[store lookup enforce_branch apply_branch default_thickness];
                    stores;
                    repeat match goal with
                           | H : lookup ?d ?k = _ |- context [lookup ?d ?k] =>
                               rewrite H
                           | H : is_number ?v = _ |- context [is_number ?v] =>
                               rewrite H
                           | H : is_int ?v = _ |- context [is_int ?v] =>
                               rewrite H
                           end)).

#[local] Ltac shape_cases doc :=
  let m := fresh "m" in let b := fresh "b" in
  let g := fresh "g" in let c := fresh "c" in
  let Em := fresh "Em" in let Eb := fresh "Eb" in
  let Eg := fresh "Eg" in let Ec := fresh "Ec" in
  destruct (lookup doc "meshing") as [[| | | | | |m]|] eqn:Em;
    try discriminate;
  [ destruct (lookup m "blockMesh") as [[| | | | | |b]|] eqn:Eb;
      try discriminate;
    [ destruct (lookup b "geometry") as [[| | | | | |g]|] eqn:Eg;
        try discriminate;
      destruct (lookup b "cells") as [[| | | | | |c]|] eqn:Ec;
        try discriminate
    | ]
  | ].

Lemma enforce_setup (doc template_obj : dict) (mode : string) (tg tc : json) :
  well_shaped doc = true ->
  template_section template_obj "geometry" = Ok tg ->
  template_section template_obj "cells" = Ok tc ->
  enforce_body mode template_obj doc = enforce_branch mode tg tc (skeleton doc mode).
Proof.
  intros Hshape Hg Hc.
  unfold enforce_body. rewrite Hg, Hc.
  unfold skeleton, with_sections, geometry_of, cells_of, block_of, sub_dict, well_shaped in *.
  open_ops. cbn -[lookup store] in Hshape.
  shape_cases doc; crunch.
  all: try reflexivity.
  all: rewrite (@store_id (store b "geometry" _) "cells" (JObj c))
    by (rewrite lookup_store_other by discriminate; assumption).
  all: reflexivity.
Qed.

Lemma resolve_geometry (doc : dict) k :
  well_shaped doc = true ->
  resolve (JObj doc) (GEOMETRY ++ [k]) = lookup (geometry_of doc) k.
Proof.
  intros Hshape.
  unfold geometry_of, cells_of, block_of, sub_dict, well_shaped in *.
  open_ops. cbn -[lookup store] in *.
  shape_cases doc; crunch; try reflexivity;
    match goal with |- context [lookup ?d k] => now destruct (lookup d k) end.
Qed.

Lemma resolve_cells (doc : dict) k :
  well_shaped doc = true ->
  resolve (JObj doc) (CELLS ++ [k]) = lookup (cells_of doc) k.
Proof.
  intros Hshape.
  unfold geometry_of, cells_of, block_of, sub_dict, well_shaped in *.
  open_ops. cbn -[lookup store] in *.
  shape_cases doc; crunch; try reflexivity;
    match goal with |- context [lookup ?d k] => now destruct (lookup d k) end.
Qed.

(** Reading the sections of a rebuilt document. *)
Lemma with_sections_geometry (doc g c : dict) k :
  resolve (JObj (with_sections doc g c)) (GEOMETRY ++ [k]) = lookup g k.
Proof. unfold with_sections. open_ops. crunch. now destruct (lookup g k). Qed.

Lemma with_sections_cells (doc g c : dict) k :
  resolve (JObj (with_sections doc g c)) (CELLS ++ [k]) = lookup c k.
Proof. unfold with_sections. open_ops. crunch. now destruct (lookup c k). Qed.

Lemma with_sections_deref_geometry (doc g c : dict) :
  deref (with_sections doc g c) GEOMETRY = JObj g.
Proof. unfold with_sections. open_ops. crunch. reflexivity. Qed.

Lemma with_sections_deref_cells (doc g c : dict) :
  deref (with_sections doc g c) CELLS = JObj c.
Proof. unfold with_sections. open_ops. crunch. reflexivity. Qed.

Lemma with_sections_write_geometry (doc g c g' : dict) :
  write_doc (with_sections doc g c) GEOMETRY (JObj g') = with_sections doc g' c.
Proof.
  unfold with_sections. open_ops. crunch.
  now rewrite store_again by discriminate.
Qed.

Lemma with_sections_write_cells (doc g c c' : dict) :
  write_doc (with_sections doc g c) CELLS (JObj c') = with_sections doc g c'.
Proof. unfold with_sections. open_ops. crunch. reflexivity. Qed.

(** [ref[key] = value] and [ref.get(key)] on the two sections. *)
Lemma setitem_geometry (doc g c : dict) k v :
  setitem GEOMETRY k v (with_sections doc g c)
  = (Ok tt, with_sections doc (store g k v) c).
Proof.
  unfold setitem. now rewrite with_sections_deref_geometry, with_sections_write_geometry.
Qed.

Lemma setitem_cells (doc g c : dict) k v :
  setitem CELLS k v (with_sections doc g c)
  = (Ok tt, with_sections doc g (store c k v)).
Proof.
  unfold setitem. now rewrite with_sections_deref_cells, with_sections_write_cells.
Qed.

Lemma getitem_geometry (doc g c : dict) k :
  getitem GEOMETRY k (with_sections doc g c) = (Ok (get g k), with_sections doc g c).
Proof. unfold getitem. now rewrite with_sections_deref_geometry. Qed.

Lemma getitem_cells (doc g c : dict) k :
  getitem CELLS k (with_sections doc g c) = (Ok (get c k), with_sections doc g c).
Proof. unfold getitem. now rewrite with_sections_deref_cells. Qed.

Lemma enforce_2D_run (intent_obj template_obj tg tc : dict) :
  well_shaped intent_obj = true ->
  resolve (JObj intent_obj) THICKNESS = None ->
  resolve (JObj intent_obj) NZ = None ->
  template_section template_obj "geometry" = Ok (JObj tg) ->
  template_section template_obj "cells" = Ok (JObj tc) ->
  let out := enforce_dimension_mode intent_obj (Some "2D_extruded") template_obj in
  resolve (JObj out) THICKNESS = Some (fallback_thickness intent_obj tg) /\
  resolve (JObj out) NZ =
    (if is_int (get tc "nz") then Some (get tc "nz") else None).
Proof.
  intros Hshape Hth Hnz Hg Hc out. subst out.
  unfold enforce_dimension_mode. rewrite normalize_2D.
  rewrite (@enforce_setup intent_obj template_obj "2D_extruded" (JObj tg) (JObj tc) Hshape Hg Hc).
  unfold THICKNESS, NZ in *.
  rewrite resolve_geometry in Hth by assumption.
  rewrite resolve_cells in Hnz by assumption.
  assert (Hh : deref intent_obj HEIGHT = get (geometry_of intent_obj) "height_m").
  { unfold deref, HEIGHT, get. now rewrite resolve_geometry by assumption. }
  unfold fallback_thickness. rewrite Hh. clear Hh.
  unfold skeleton, enforce_branch. cbn [String.eqb Ascii.eqb Bool.eqb].
  set (g := geometry_of intent_obj) in *. set (c := cells_of intent_obj) in *.
  assert (Ht : get (store g "dimension_mode" (JStr "2D_extruded")) "thickness_2d_m" = JNull).
  { unfold get. rewrite lookup_store_other by discriminate. now rewrite Hth. }
  assert (Hheight : get (store g "dimension_mode" (JStr "2D_extruded")) "height_m"
                    = get g "height_m").
  { unfold get. now rewrite lookup_store_other by discriminate. }
  assert (Hz : get c "nz" = JNull) by (unfold get; now rewrite Hnz).
  destruct (is_number (get tg "thickness_2d_m")) eqn:E1;
  [| destruct (is_number (get g "height_m")) eqn:E3];
  destruct (is_int (get tc "nz")) eqn:E2.
  all: repeat (cbn [bind ret mut_monad lift attr_get negb snd];
               rewrite ?getitem_geometry, ?getitem_cells,
                 ?setitem_geometry, ?setitem_cells,
                 ?Ht, ?Hheight, ?Hz, ?E1, ?E2, ?E3;
               cbn [is_number is_int negb]).
  all: rewrite with_sections_geometry, with_sections_cells.
  all: rewrite ?lookup_store_same, ?Hnz; split; reflexivity.
Qed.

Lemma fallback_thickness_is_number (intent_obj tg : dict) :
  is_number (fallback_thickness intent_obj tg) = true.
Proof.
  unfold fallback_thickness.
  destruct (is_number (get tg "thickness_2d_m")) eqn:E1; cbn [negb].
  - now rewrite E1.
  - destruct (is_number (deref intent_obj HEIGHT)) eqn:E2; cbn [negb]; auto.
Qed.

Lemma apply_setup (doc : dict) (mode : string) :
  well_shaped doc = true ->
  apply_body mode doc = apply_branch mode (skeleton doc mode).
Proof.
  intros Hshape. unfold apply_body.
  unfold skeleton, with_sections, geometry_of, cells_of, block_of, sub_dict, well_shaped in *.
  open_ops. cbn -[lookup store] in Hshape.
  shape_cases doc; crunch.
  all: try reflexivity.
  all: rewrite (@store_id (store b "geometry" _) "cells" (JObj c))
    by (rewrite lookup_store_other by discriminate; assumption).
  all: reflexivity.
Qed.

Lemma clamp_2_10 (nz : json) :
  is_int nz = true ->
  exists n, py_max (JInt 2) (py_min nz (JInt 10)) = JInt n /\ 2 <= n <= 10.
Proof.
  destruct nz as [| [|] | k | | | |]; try discriminate; intros _.
  - exists 2. split; [reflexivity | lia].
  - exists 2. split; [reflexivity | lia].
  - unfold py_min, py_max. cbn [int_of int_value].
    destruct (10 <? k) eqn:E1; cbn [int_of int_value].
    + exists 10. split; [reflexivity | lia].
    + destruct (k >? 2) eqn:E2.
      * exists k. split; [reflexivity |]. apply Z.ltb_ge in E1. 
        apply Z.gtb_lt in E2. lia.
      * exists 2. split; [reflexivity | lia].
Qed.

(** The template prepared for the 2D mode carries dict sections and an
    [nz] between 2 and 10. *)
Lemma prepared_template_2D (template_obj : dict) :
  well_shaped template_obj = true ->
  exists g c n,
    apply_dimension_mode_to_template template_obj (Some "2D_extruded")
      = with_sections template_obj g c /\
    lookup c "nz" = Some (JInt n) /\ 2 <= n <= 10.
Proof.
  intros Hshape. unfold apply_dimension_mode_to_template.
  rewrite deep_copy_dict_id, normalize_2D, (@apply_setup _ "2D_extruded" Hshape).
  unfold skeleton, apply_branch. cbn [String.eqb Ascii.eqb Bool.eqb].
  set (g := store (geometry_of template_obj) "dimension_mode" _).
  set (c := cells_of template_obj).
  assert (Hnz : forall g', exists c' n,
             snd ((nz <- getitem CELLS "nz" ;;
                   if is_int nz
                   then setitem CELLS "nz" (py_max (JInt 2) (py_min nz (JInt 10)))
                   else setitem CELLS "nz" (JInt 4)) (with_sections template_obj g' c))
             = with_sections template_obj g' c' /\
             lookup c' "nz" = Some (JInt n) /\ 2 <= n <= 10).
  { intros g'. cbn [bind ret mut_monad]. rewrite getitem_cells.
    destruct (is_int (get c "nz")) eqn:E; rewrite setitem_cells; cbn [snd].
    - destruct (clamp_2_10 _ E) as (n & -> & Hn).
      exists (store c "nz" (JInt n)), n. now rewrite lookup_store_same.
    - exists (store c "nz" (JInt 4)), 4. rewrite lookup_store_same.
      repeat split; lia. }
  cbn [bind ret mut_monad]. rewrite getitem_geometry.
  destruct (is_number (get g "thickness_2d_m")); cbn [negb].
  - destruct (Hnz g) as (c' & n & H1 & H2 & H3).
    exists g, c', n. cbn [bind ret mut_monad] in H1. auto.
  - rewrite getitem_geometry, setitem_geometry.
    match goal with |- context [with_sections _ ?g' c] =>
      destruct (Hnz g') as (c' & n & H1 & H2 & H3); exists g', c', n
    end.
    cbn [bind ret mut_monad] in H1. auto.
Qed.

Lemma store_not_nil (d : dict) k v : store d k v <> [].
Proof.
  destruct d as [| [k0 v0] d]; simpl; [discriminate |].
  destruct (String.eqb k0 k); discriminate.
Qed.

Lemma template_section_geometry (doc g c : dict) :
  template_section (with_sections doc g c) "geometry" = Ok (JObj g).
Proof.
  unfold template_section, with_sections, get, py_or.
  rewrite lookup_store_same. cbn [truthy].
  destruct (store (sub_dict doc "meshing") "blockMesh" _) eqn:E.
  - now apply store_not_nil in E.
  - rewrite <- E. cbn. unfold get_default. stores. cbn. unfold get_default.
    now stores.
Qed.

Lemma template_section_cells (doc g c : dict) :
  template_section (with_sections doc g c) "cells" = Ok (JObj c).
Proof.
  unfold template_section, with_sections, get, py_or.
  rewrite lookup_store_same. cbn [truthy].
  destruct (store (sub_dict doc "meshing") "blockMesh" _) eqn:E.
  - now apply store_not_nil in E.
  - rewrite <- E. cbn. unfold get_default. stores. cbn. unfold get_default.
    now stores.
Qed.

(** On the fast-fill route the enforcer receives the prepared template:
    an intent without thickness and [nz] then gets a numeric thickness
    and an [nz] between 2 and 10. *)
Lemma enforce_2D_with_prepared_template (intent_obj template_obj : dict) :
  well_shaped intent_obj = true ->
  well_shaped template_obj = true ->
  resolve (JObj intent_obj) THICKNESS = None ->
  resolve (JObj intent_obj) NZ = None ->
  let prepared := apply_dimension_mode_to_template template_obj (Some "2D_extruded") in
  let out := enforce_dimension_mode intent_obj (Some "2D_extruded") prepared in
  exists t n,
    resolve (JObj out) THICKNESS = Some t /\ is_number t = true /\
    resolve (JObj out) NZ = Some (JInt n) /\ 1 <= n <= 10.
Proof.
  intros Hi Ht Hth Hnz prepared out. subst prepared out.
  destruct (@prepared_template_2D template_obj Ht) as (g & c & n & -> & Hc & Hn).
  destruct (@enforce_2D_run intent_obj (with_sections template_obj g c) g c
              Hi Hth Hnz (template_section_geometry _ _ _)
              (template_section_cells _ _ _)) as [H1 H2].
  exists (fallback_thickness intent_obj g), n.
  rewrite H1, H2, fallback_thickness_is_number.
  unfold get. rewrite Hc. cbn [is_int]. repeat split; auto; lia.
Qed.

(** *** The enforcer touches nothing outside [meshing] *)











End DimensionFacts.

(* ===================================================================== *)
(** ** ParameterCollector: properties *)
(* ===================================================================== *)

Section CollectorFacts.

Variable repr : json -> string.

Lemma normalize_loop (l : list json) (acc : list dict) :
  fold_left (fun normalized item =>
               match item with
               | JObj d => (normalized ++ [normalize_entry repr d])%list
               | _ => normalized
               end) l acc
  = (acc ++ map (normalize_entry repr) (dict_entries l))%list.
Proof.
  revert acc. induction l as [| item l IH]; intros acc; simpl.
  - now rewrite app_nil_r.
  - rewrite IH. destruct item; simpl; auto.
    now rewrite <- app_assoc.
Qed.

Lemma normalize_suggested_members (raw : json) :
  forallb suggested_member (normalize_suggested repr raw) = true.
Proof.
  destruct raw as [| | | | s | | sr]; try reflexivity.
  - cbn [normalize_suggested]. destruct (nonempty (strip s)) eqn:E; [| reflexivity].
    cbn. now rewrite E.
  - cbn [normalize_suggested fold_left].
    generalize (get sr "value") (get sr "si"). intros v1 v2.
    destruct (nonempty (stripped repr (get sr "text"))) eqn:Et;
    destruct (is_number v1) eqn:Ev;
    destruct (is_number v2) eqn:Es;
    destruct (nonempty (stripped repr (get sr "unit"))) eqn:Eu;
    repeat match goal with
           | H : is_number ?v = true |- _ =>
               destruct v; try discriminate H; clear H
           end;
    cbn [store String.eqb Ascii.eqb Bool.eqb forallb suggested_member
           orb andb is_number];
    rewrite ?Et, ?Eu; reflexivity.
Qed.

Lemma normalize_entry_label (item : dict) :
  exists label detail path,
    nonempty label = true /\
    normalize_entry repr item =
      let norm := [("label", JStr label); ("detail", JStr detail);
                   ("path", JStr path)] in
      let suggested := normalize_suggested repr (get item "suggested") in
      if truthy (JObj suggested) then (norm ++ [("suggested", JObj suggested)])%list
      else norm.
Proof.
  unfold normalize_entry.
  destruct (nonempty (stripped repr (get item "label"))) eqn:El; cbn [negb].
  - do 3 eexists. split; [exact El |].
    cbv zeta. destruct (truthy _); reflexivity.
  - destruct (nonempty (stripped repr (get item "group"))) eqn:Eg.
    + do 3 eexists. split; [exact Eg |].
      cbv zeta. destruct (truthy _); reflexivity.
    + exists DEFAULT_LABEL. do 2 eexists. split; [reflexivity |].
      cbv zeta. destruct (truthy _); reflexivity.
Qed.

Lemma normalize_entry_shape (item : dict) :
  normalized_record (normalize_entry repr item) = true.
Proof.
  destruct (normalize_entry_label item) as (label & detail & path & Hl & ->).
  cbv zeta.
  pose proof (normalize_suggested_members (get item "suggested")) as Hm.
  destruct (normalize_suggested repr (get item "suggested")) as [| kv s] eqn:E.
  - cbn. now rewrite Hl.
  - cbn [truthy app normalized_record]. rewrite Hl, Hm. reflexivity.
Qed.

End CollectorFacts.

(* ===================================================================== *)
(** ** SchemaValidator: properties *)
(* ===================================================================== *)

Section SchemaFacts.

Lemma string_ltb_asym (a b : string) : (a <? b)%string = true -> (b <? a)%string = false.
Proof.
  unfold String.ltb. rewrite (String.compare_antisym b a).
  destruct (String.compare a b); simpl; congruence.
Qed.

Lemma part_eqb_sym (x y : path_part) : part_eqb x y = part_eqb y x.
Proof.
  destruct x, y; simpl; auto using String.eqb_sym, Z.eqb_sym.
Qed.

Lemma part_lt_asym (x y : path_part) :
  part_lt x y = Ok true -> part_lt y x = Ok false.
Proof.
  destruct x, y; simpl; try discriminate; intros [= H]; f_equal.
  - now apply string_ltb_asym.
  - apply Z.ltb_lt in H. apply Z.ltb_ge. lia.
Qed.

Lemma deque_lt_asym (a b : list path_part) :
  deque_lt a b = Ok true -> deque_lt b a = Ok false.
Proof.
  revert b. induction a as [| x a IH]; intros [| y b]; simpl; try congruence.
  rewrite (part_eqb_sym y x).
  destruct (part_eqb x y); auto using part_lt_asym.
Qed.

(** Two positions in one document can always be compared: where they
    part, both follow a property or both follow an index. *)
Lemma located_comparable (instance : json) (a b : list path_part) :
  locates instance a = true -> locates instance b = true ->
  exists r, deque_lt a b = Ok r.
Proof.
  revert instance b. induction a as [| x a IH]; intros instance [| y b] Ha Hb;
    simpl; eauto.
  destruct (part_eqb x y) eqn:E.
  - destruct x as [k | i], y as [k' | j]; simpl in E; try discriminate.
    + apply String.eqb_eq in E. subst k'.
      simpl in Ha, Hb. destruct instance; try discriminate.
      destruct (lookup members k); try discriminate. eauto.
    + apply Z.eqb_eq in E. subst j.
      simpl in Ha, Hb. destruct instance; try discriminate.
      apply andb_true_iff in Ha, Hb. destruct Ha as [_ Ha], Hb as [_ Hb].
      destruct (nth_error items (Z.to_nat i)); try discriminate. eauto.
  - destruct x as [k | i], y as [k' | j]; simpl; eauto;
      simpl in Ha, Hb; destruct instance; discriminate.
Qed.

Lemma insert_by_path_sorted (e : ValidationError) (l : list ValidationError) :
  Forall (fun y => exists r, deque_lt (err_path y) (err_path e) = Ok r) l ->
  Sorted not_after l ->
  exists l', insert_by_path e l = Ok l' /\
             Permutation (e :: l) l' /\ Sorted not_after l' /\
             (forall z, HdRel not_after z l -> not_after z e -> HdRel not_after z l').
Proof.
  induction l as [| y l IH]; intros Hc Hs.
  - exists [e]. simpl. repeat split; auto.
  - inversion Hc as [| ? ? [r Hr] Hc']; subst.
    inversion Hs as [| ? ? Hs' Hhd]; subst.
    simpl. rewrite Hr. simpl. destruct r.
    + destruct (IH Hc' Hs') as (l' & -> & Hp & Hsl & Hh).
      exists (y :: l'). simpl. repeat split.
      * rewrite perm_swap. now constructor.
      * constructor; auto. apply Hh; auto.
        now apply deque_lt_asym.
      * intros z Hz _. inversion Hz; subst. now constructor.
    + exists (e :: y :: l). repeat split; auto.
Qed.

Lemma sorted_by_path_sorted (instance : json) (l : list ValidationError) :
  Forall (fun e => locates instance (err_path e) = true) l ->
  exists l', sorted_by_path l = Ok l' /\
             Permutation l l' /\ Sorted not_after l'.
Proof.
  induction l as [| e l IH]; intros Hloc.
  - exists []. simpl. auto.
  - inversion Hloc as [| ? ? He Hl]; subst.
    destruct (IH Hl) as (l1 & H1 & Hp & Hs).
    simpl. rewrite H1. simpl.
    destruct (@insert_by_path_sorted e l1) as (l' & H2 & Hp' & Hs' & _); auto.
    + rewrite Forall_forall in *. intros y Hy.
      apply (@located_comparable instance); auto.
      apply Hl. eapply Permutation_in; [symmetry; exact Hp | exact Hy].
    + exists l'. repeat split; auto.
      rewrite <- Hp'. now constructor.
Qed.

Lemma format_schema_errors_issues (errors : list ValidationError) :
  get (format_schema_errors errors) "issues" = JArr (map format_issue errors).
Proof. reflexivity. Qed.


(** *** The order of the sorted list is a total order *)
















End SchemaFacts.

(* ===================================================================== *)
(** ** The routes: properties *)
(* ===================================================================== *)

Section FillFacts.

Variable W : World.

Lemma get_store_same (d : dict) k v : get (store d k v) k = v.
Proof. unfold get. now rewrite lookup_store_same. Qed.

Lemma get_store_other (d : dict) k k' v :
  k' <> k -> get (store d k v) k' = get d k'.
Proof. intros H. unfold get. now rewrite lookup_store_other. Qed.

Lemma get_with_defaults (response : dict) (di dov : option dict) k :
  k <> "default_intent" -> k <> "defaults_overview" ->
  get (with_defaults response di dov) k = get response k.
Proof.
  intros H1 H2. unfold with_defaults.
  destruct dov as [o|]; [rewrite get_store_other by assumption |];
    (destruct di as [d|]; [destruct (truthy (JObj d));
                           [rewrite get_store_other by assumption |] |]);
    reflexivity.
Qed.

Lemma fill_response_status req meta fi hs rp st di dov :
  pipeline_status_of (fill_response req meta fi hs rp st di dov) = JStr st.
Proof.
  unfold pipeline_status_of, fill_response.
  rewrite get_with_defaults by discriminate. reflexivity.
Qed.

Lemma fill_response_intent req meta fi hs rp st di dov :
  get (fill_response req meta fi hs rp st di dov) "intent" = JObj fi.
Proof.
  unfold fill_response. rewrite get_with_defaults by discriminate. reflexivity.
Qed.

Lemma fill_response_review req meta fi hs rp st di dov :
  get (fill_response req meta fi hs rp st di dov) "review" = JObj rp.
Proof.
  unfold fill_response. rewrite get_with_defaults by discriminate. reflexivity.
Qed.

(** The collecting part never calls the reviewer. *)
Lemma fill_collect_calls req meta template_obj (r : result collected) calls :
  fill_collect W req meta template_obj = (r, calls) ->
  reviewer_calls calls = [].
Proof.
  unfold fill_collect.
  destruct (client_intent req).
  - intros [= _ <-]. reflexivity.
  - destruct (call_llm_collect_parameters W _ _ _);
      cbn [bind route_monad call ret].
    + destruct (normalize_missing_parameters _ _);
        cbn [ret route_monad]; intros [= _ <-]; reflexivity.
    + intros [= _ <-]. reflexivity.
Qed.

Lemma intent_fill_stages req meta template_doc schema_doc :
  registry_get (profile_slug req) = Some meta ->
  files_loaded W req meta template_doc schema_doc ->
  intent_fill W req =
    (stage <- fill_collect W req meta (dict_or_empty template_doc) ;;
     match stage with
     | Halt response => ret response
     | Proceed final_intent defaults_intent defaults_overview =>
         fill_review W req meta schema_doc final_intent
           defaults_intent defaults_overview
     end).
Proof.
  intros Hmeta [Ht Hs]. unfold intent_fill. rewrite Hmeta, Ht, Hs.
  cbn [bind result_monad ret files_or_500 route_monad fst snd].
  destruct (fill_collect W req meta (dict_or_empty template_doc)) as [[stage|e] calls];
    [| reflexivity].
  destruct stage; cbn [ret route_monad];
    [| destruct (fill_review _ _ _ _ _ _ _)]; reflexivity.
Qed.

Lemma reviewer_calls_app (a b : list event) :
  reviewer_calls (a ++ b) = (reviewer_calls a ++ reviewer_calls b)%list.
Proof. apply filter_app. Qed.

Lemma valid_flag (errors : list ValidationError) :
  truthy (get (format_schema_errors errors) "valid")
  = match errors with [] => true | _ => false end.
Proof.
  unfold format_schema_errors, get. simpl. rewrite length_map.
  now destruct errors.
Qed.

Lemma validation_of fi schema_doc errors :
  schema_validate (iter_errors W) (JObj fi) schema_doc = Ok errors ->
  validation W fi schema_doc = Ok (format_schema_errors errors).
Proof. intros H. unfold validation. now rewrite H. Qed.

(** With an invalid initial check the summary is built without reading
    the intent. *)
Lemma summary_of_invalid schema_initial fc review fi st :
  truthy (get schema_initial "valid") = false ->
  build_multilayer_summary W schema_initial fc review fi st
  = Ok (multilayer_summary_text W schema_initial fc review st None).
Proof.
  intros H. unfold build_multilayer_summary, get_default.
  unfold get in H. destruct (lookup schema_initial "valid"); [| reflexivity].
  now rewrite H.
Qed.

Lemma summary_of_valid schema_initial fc review fi st :
  truthy (get schema_initial "valid") = true ->
  build_multilayer_summary W schema_initial fc review fi st
  = (summary <- summarize_intent W fi ;;
     ret (multilayer_summary_text W schema_initial fc review st (Some summary))).
Proof.
  intros H. unfold build_multilayer_summary, get_default.
  unfold get in H. destruct (lookup schema_initial "valid"); [| discriminate].
  now rewrite H.
Qed.

(** The run of the validating and reviewing part on an intent that fails
    the initial check. *)
Lemma fill_review_schema_failed req meta schema_doc fi di dov errors :
  schema_validate (iter_errors W) (JObj fi) schema_doc = Ok errors ->
  errors <> [] ->
  exists hs rp,
    fill_review W req meta schema_doc fi di dov
    = (Ok (fill_response req meta fi hs rp "schema_failed" di dov), []).
Proof.
  intros Hv Hne. unfold fill_review. rewrite (@validation_of _ _ _ Hv).
  cbn [bind route_monad pure]. rewrite valid_flag.
  destruct errors as [| e0 rest]; [congruence |]. cbn [negb].
  rewrite summary_of_invalid by (rewrite valid_flag; reflexivity).
  cbn [bind route_monad pure ret app]. eauto.
Qed.

(** The run on an intent that passes the initial check when the reviewer
    call raises. *)
Lemma fill_review_reasoner_failed req meta schema_doc fi di dov e summary :
  schema_validate (iter_errors W) (JObj fi) schema_doc = Ok [] ->
  call_reasoner_review W fi meta schema_doc = Raise e ->
  summarize_intent W fi = Ok summary ->
  exists hs rp,
    fill_review W req meta schema_doc fi di dov
    = (Ok (fill_response req meta fi hs rp "reasoner_failed" di dov),
       [ReviewerCall fi]) /\
    get rp "reasoner_error" = JStr (text e).
Proof.
  intros Hv Hr Hs. unfold fill_review. rewrite (@validation_of _ _ _ Hv).
  cbn [bind route_monad pure]. rewrite valid_flag. cbn [negb].
  rewrite Hr. cbn [bind route_monad call].
  rewrite summary_of_valid by (rewrite valid_flag; reflexivity).
  rewrite Hs. cbn [bind result_monad route_monad pure ret app].
  do 2 eexists. split; [reflexivity |]. apply get_store_same.
Qed.

(** The intent the reviewing part validates last: the reviewer's
    [updated_intent] when that is a dict, else the one it was given; the
    profile identifier is written over it. *)
Lemma fill_review_reviewed req meta schema_doc fi di dov answer errors summary :
  schema_validate (iter_errors W) (JObj fi) schema_doc = Ok [] ->
  call_reasoner_review W fi meta schema_doc = Ok answer ->
  let reviewed := reviewed_intent meta fi answer in
  schema_validate (iter_errors W) (JObj reviewed) schema_doc = Ok errors ->
  summarize_intent W reviewed = Ok summary ->
  exists hs rp,
    fill_review W req meta schema_doc fi di dov
    = (Ok (fill_response req meta reviewed hs rp
             (match errors with [] => "ok" | _ => "schema_regression" end)
             di dov),
       [ReviewerCall fi]).
Proof.
  intros Hv Hr reviewed Hv2 Hs. unfold fill_review. rewrite (@validation_of _ _ _ Hv).
  cbn [bind route_monad pure]. rewrite valid_flag. cbn [negb].
  rewrite Hr. cbn [bind route_monad call].
  fold reviewed.
  rewrite (@validation_of _ _ _ Hv2).
  cbn [bind route_monad pure]. rewrite valid_flag.
  rewrite summary_of_valid by (rewrite valid_flag; reflexivity).
  rewrite Hs. cbn [bind result_monad route_monad pure ret app].
  destruct errors; cbn [negb]; eauto.
Qed.


(** Every response of the validating and reviewing part. *)
Lemma fill_review_outcome req meta schema_doc fi di dov response calls :
  fill_review W req meta schema_doc fi di dov = (Ok response, calls) ->
  exists fi' hs rp st,
    response = fill_response req meta fi' hs rp st di dov /\
    ((fi' = fi /\ calls = [] /\ st = "schema_failed" /\
      exists errors, schema_validate (iter_errors W) (JObj fi) schema_doc = Ok errors
                     /\ errors <> [])
     \/ (fi' = fi /\ calls = [ReviewerCall fi] /\ st = "reasoner_failed" /\
         schema_validate (iter_errors W) (JObj fi) schema_doc = Ok [])
     \/ (exists answer errors,
           fi' = reviewed_intent meta fi answer /\ calls = [ReviewerCall fi] /\
           schema_validate (iter_errors W) (JObj fi) schema_doc = Ok [] /\
           schema_validate (iter_errors W) (JObj fi') schema_doc = Ok errors /\
           st = match errors with [] => "ok" | _ => "schema_regression" end)).
Proof.
  unfold fill_review, validation.
  destruct (schema_validate (iter_errors W) (JObj fi) schema_doc) as [errors | e] eqn:Hv;
    cbn [bind result_monad route_monad pure ret]; [| discriminate].
  rewrite valid_flag. destruct errors as [| e0 rest]; cbn [negb].
  - destruct (call_reasoner_review W fi meta schema_doc) as [answer | e] eqn:Hr;
      cbn [bind route_monad call].
    + destruct (schema_validate (iter_errors W)
                  (JObj (reviewed_intent meta fi answer)) schema_doc)
        as [errors | e] eqn:Hv2;
        cbn [bind result_monad route_monad pure ret]; [| discriminate].
      destruct (build_multilayer_summary _ _ _ _ _ _) as [hs | e];
        cbn [bind route_monad pure ret app]; [| discriminate].
      intros [= <- <-]. do 4 eexists. split; [reflexivity |].
      right. right. exists answer, errors. repeat split; auto.
      now destruct errors.
    + destruct (build_multilayer_summary _ _ _ _ _ _) as [hs | e'];
        cbn [bind route_monad pure ret app]; [| discriminate].
      intros [= <- <-]. do 4 eexists. split; [reflexivity |].
      right. left. auto.
  - destruct (build_multilayer_summary _ _ _ _ _ _) as [hs | e];
      cbn [bind route_monad pure ret app]; [| discriminate].
    intros [= <- <-]. do 4 eexists. split; [reflexivity |].
    left. repeat split; auto. eexists. split; [reflexivity | discriminate].
Qed.



(** What the collecting part hands on carries the profile identifier. *)
Lemma fill_collect_profile req meta template_obj stage calls :
  fill_collect W req meta template_obj = (Ok stage, calls) ->
  match stage with
  | Halt response =>
      exists intent, get response "intent" = JObj intent /\
                     lookup intent "profile" = Some (JStr (profile meta))
  | Proceed fi _ _ => lookup fi "profile" = Some (JStr (profile meta))
  end.
Proof.
  unfold fill_collect. destruct (client_intent req).
  - intros [= <- _]. apply lookup_store_same.
  - destruct (call_llm_collect_parameters W _ _ _);
      cbn [bind route_monad call ret]; [| discriminate].
    destruct (normalize_missing_parameters _ _); cbn [ret route_monad];
      intros [= <- _].
    + apply lookup_store_same.
    + eexists. rewrite get_with_defaults by discriminate.
      split; [reflexivity |]. apply lookup_store_same.
Qed.






End FillFacts.


(* ===================================================================== *)
(** ** TemplateMerger: the identity law and the survival of template keys *)
(* ===================================================================== *)

Lemma shielded_ancestors (O : json) (p : list string) :
  shielded O p = true -> ancestors_are_dicts O p.
Proof.
  revert O. induction p as [| k rest IH]; intros O Hs q r w Hq Hr Hsplit Hres.
  - destruct q; [congruence | discriminate].
  - destruct q as [| k' q']; [congruence |].
    simpl in Hsplit. injection Hsplit as <- Hrest.
    assert (Hne : rest <> []).
    { rewrite Hrest. destruct q'; [assumption | discriminate]. }
    destruct rest as [| k2 rest2]; [congruence |].
    simpl in Hres. destruct O as [| | | | | | d]; try discriminate.
    cbn [shielded] in Hs.
    destruct (lookup d k) as [w0 |]; [| discriminate].
    apply andb_true_iff in Hs. destruct Hs as [Hd Hs].
    destruct q' as [| k3 q3].
    + simpl in Hres. now injection Hres as <-.
    + apply (IH w0 Hs (k3 :: q3) r w); auto. discriminate.
Qed.

(** C9: merging the empty object onto a template gives the template
    back, and merging any overrides value that is not an object gives an
    unmodified copy of the template, which equals the template. *)
Theorem merge_identity_laws (T : dict) :
  merge_with_template T (JObj []) = T /\
  (forall overrides, is_dict overrides = false ->
     merge_with_template T overrides = deep_copy_dict T /\
     deep_copy_dict T = T).
Proof.
  split.
  - now rewrite merge_with_template_obj.
  - intros overrides H. unfold merge_with_template. rewrite H.
    split; [reflexivity | apply deep_copy_dict_id].
Qed.

Lemma merge_identity_laws_witness :
  let T := [("meshing", JObj [("mode", JStr "blockMesh")]); ("profile", JNull)] in
  merge_with_template T (JObj []) = T /\
  merge_with_template T (JStr "not an object") = T.
Proof.
  intros T. destruct (merge_identity_laws T) as [H1 H2].
  split; [exact H1 |].
  destruct (H2 (JStr "not an object") eq_refl) as [H3 H4].
  exact (eq_trans H3 H4).
Defined.

(** C10, as stated, fails: an override that replaces an object of the
    template by a scalar drops the keys nested in that object, although
    the overrides do not have them. *)
Lemma merge_drops_keys_under_replaced_object :
  let T := [("a", JObj [("b", JInt 1)])] in
  let O := JObj [("a", JInt 5)] in
  resolve (JObj T) ["a"; "b"] = Some (JInt 1) /\
  resolve O ["a"; "b"] = None /\
  resolve (JObj (merge_with_template T O)) ["a"; "b"] = None.
Proof. repeat split. Qed.

(** C10, amended: a key path present in the template and absent from the
    overrides is still present in the merge result whenever no ancestor
    of it is overwritten wholesale, that is, every proper prefix of the
    path that the overrides have holds an object there (the overrides
    being a parsed document, with unique keys in every object). *)
Theorem merge_keeps_unshadowed_keys (T : dict) (O : json) (p : list string) :
  unique_keys O = true ->
  p <> [] ->
  resolve (JObj T) p <> None ->
  resolve O p = None ->
  shielded O p = true ->
  resolve (JObj (merge_with_template T O)) p <> None.
Proof.
  intros Hu Hp HT HO Hs. unfold merge_with_template.
  rewrite deep_copy_dict_id.
  destruct (is_dict O); cbn [negb]; [| exact HT].
  apply _merge_keeps; auto using shielded_ancestors.
Qed.

Lemma merge_keeps_unshadowed_keys_witness :
  let T := [("a", JObj [("b", JInt 1); ("c", JInt 2)]); ("d", JNull)] in
  let O := JObj [("a", JObj [("b", JInt 5)]); ("e", JArr [])] in
  resolve (JObj (merge_with_template T O)) ["a"; "c"] <> None /\
  resolve (JObj (merge_with_template T O)) ["d"] <> None.
Proof.
  intros T O. split.
  - apply (@merge_keeps_unshadowed_keys T O ["a"; "c"]);
      [reflexivity | discriminate | discriminate | reflexivity | reflexivity].
  - apply (@merge_keeps_unshadowed_keys T O ["d"]);
      [reflexivity | discriminate | discriminate | reflexivity | reflexivity].
Defined.

(* ===================================================================== *)
(** ** DimensionModeEnforcer: thickness and cell count in the 2D mode *)
(* ===================================================================== *)

(** C5, as stated, fails: with an empty intent and an empty template the
    enforcer writes a thickness but no [nz] at all. *)
Lemma enforce_2D_nz_not_always_in_range :
  ~ (forall intent_obj template_obj : dict,
       resolve (JObj intent_obj) THICKNESS = None ->
       resolve (JObj intent_obj) NZ = None ->
       let out := enforce_dimension_mode intent_obj (Some "2D_extruded") template_obj in
       exists t nz,
         resolve (JObj out) THICKNESS = Some t /\ is_number t = true /\
         resolve (JObj out) NZ = Some nz /\ is_int nz = true /\
         1 <= int_of nz <= 10).
Proof.
  intros H.
  destruct (H [] [] eq_refl eq_refl) as (t & nz & _ & _ & Hnz & _).
  vm_compute in Hnz. discriminate Hnz.
Qed.

(** The template's [nz] is taken as it is, also when it is out of range;
    and an intent whose [cells] is not a dict keeps it. *)
Example enforce_2D_template_nz_unclamped :
  let template_obj :=
    [("meshing", JObj [("blockMesh", JObj [("cells", JObj [("nz", JInt 20)])])])] in
  resolve (JObj (enforce_dimension_mode [] (Some "2D_extruded") template_obj)) NZ
  = Some (JInt 20).
Proof. reflexivity. Qed.

Example enforce_2D_ill_shaped_cells :
  let intent_obj := [("meshing", JObj [("blockMesh", JObj [("cells", JInt 5)])])] in
  let template_obj :=
    [("meshing", JObj [("blockMesh", JObj [("cells", JObj [("nz", JInt 4)])])])] in
  resolve (JObj (enforce_dimension_mode intent_obj (Some "2D_extruded") template_obj)) CELLS
  = Some (JInt 5).
Proof. reflexivity. Qed.

(** C5, amended: for an intent whose [meshing], [blockMesh], [geometry]
    and [cells] members are objects where present and that has neither a
    thickness nor an [nz], and a template whose [geometry] and [cells]
    sections are objects with an [nz] that is an integer in [1,10] (as
    [apply_dimension_mode_to_template] leaves it), enforcement of
    [2D_extruded] yields a numeric thickness, chosen by the chain
    template value, then the intent's height, then the literal default,
    and an [nz] equal to the template's, hence an integer in [1,10]. *)
Theorem enforce_2D_fills_absent_fields
  (intent_obj template_obj tg tc : dict) (n : Z) :
  well_shaped intent_obj = true ->
  resolve (JObj intent_obj) THICKNESS = None ->
  resolve (JObj intent_obj) NZ = None ->
  template_section template_obj "geometry" = Ok (JObj tg) ->
  template_section template_obj "cells" = Ok (JObj tc) ->
  lookup tc "nz" = Some (JInt n) ->
  1 <= n <= 10 ->
  let out := enforce_dimension_mode intent_obj (Some "2D_extruded") template_obj in
  exists t,
    resolve (JObj out) THICKNESS = Some t /\
    is_number t = true /\
    t = fallback_thickness intent_obj tg /\
    resolve (JObj out) NZ = Some (JInt n) /\
    1 <= n <= 10.
Proof.
  intros Hshape Hth Hnz Hg Hc Hn Hrange out.
  destruct (@enforce_2D_run intent_obj template_obj tg tc Hshape Hth Hnz Hg Hc)
    as [H1 H2].
  exists (fallback_thickness intent_obj tg). fold out in H1, H2.
  rewrite H1, H2, fallback_thickness_is_number.
  unfold get. rewrite Hn. cbn [is_int]. auto.
Qed.

Lemma enforce_2D_fills_absent_fields_witness :
  let intent_obj :=
    [("profile", JStr "CoolingPlate-OF-Intent@blockMesh_v1.0");
     ("meshing", JObj [("blockMesh", JObj [("geometry", JObj [("height_m", JInt 3)])])])] in
  let template_obj :=
    [("meshing",
      JObj [("blockMesh",
             JObj [("geometry", JObj [("length_m", JInt 1)]);
                   ("cells", JObj [("nx", JInt 40); ("nz", JInt 4)])])])] in
  let out := enforce_dimension_mode intent_obj (Some "2D_extruded") template_obj in
  exists t,
    resolve (JObj out) THICKNESS = Some t /\
    is_number t = true /\
    t = JInt 3 /\
    resolve (JObj out) NZ = Some (JInt 4) /\
    1 <= 4 <= 10.
Proof.
  intros intent_obj template_obj.
  apply (@enforce_2D_fills_absent_fields intent_obj template_obj
           [("length_m", JInt 1)] [("nx", JInt 40); ("nz", JInt 4)] 4);
    [reflexivity | reflexivity | reflexivity | reflexivity | reflexivity
    | reflexivity | lia].
Defined.


(* ===================================================================== *)
(** ** ParameterCollector: the normalised missing-parameter list *)
(* ===================================================================== *)

(** C6, as stated, fails: an entry that is a string is skipped, not
    normalised; and a record may carry [si] under [suggested], which the
    record shape of the specification does not have. *)
Lemma string_entries_are_skipped :
  normalize_missing_parameters sample_repr
    (JArr [JStr "inlet velocity"; JObj [("label", JStr "outlet pressure")]])
  = [[("label", JStr "outlet pressure"); ("detail", JStr ""); ("path", JStr "")]]
  /\
  map spec_record_shape
    (normalize_missing_parameters sample_repr
       (JArr [JObj [("label", JStr "p_out");
                    ("suggested", JObj [("si", JInt 0); ("unit", JStr "Pa")])]]))
  = [false].
Proof. split; reflexivity. Qed.

(** C6, amended: normalisation keeps the entries that are objects, in
    order, and maps each of them to a record with a non-empty [label], a
    [detail] and a [path], all strings, and, only when it is not empty, a
    [suggested] object holding some of [text], [value], [si] and [unit];
    entries that are not objects (strings included) are skipped. *)
Theorem normalize_missing_parameters_records
  (repr : json -> string) (l : list json) :
  normalize_missing_parameters repr (JArr l)
  = map (normalize_entry repr) (dict_entries l) /\
  Forall (fun r => normalized_record r = true)
         (normalize_missing_parameters repr (JArr l)) /\
  List.length (normalize_missing_parameters repr (JArr l))
  = List.length (filter is_dict l).
Proof.
  assert (H : normalize_missing_parameters repr (JArr l)
              = map (normalize_entry repr) (dict_entries l)).
  { unfold normalize_missing_parameters. now rewrite normalize_loop. }
  rewrite H. repeat split.
  - apply Forall_forall. intros r Hr. apply in_map_iff in Hr.
    destruct Hr as (d & <- & _). apply normalize_entry_shape.
  - rewrite length_map. clear H.
    induction l as [| item l IH]; [reflexivity |].
    destruct item; simpl; try exact IH. now f_equal.
Qed.

(* ===================================================================== *)
(** ** SchemaValidator: order and completeness of the issue list *)
(* ===================================================================== *)



Example schema_validate_sample_order :
  let schema :=
    JObj [("properties", JObj [("thermal_loads", JObj [("type", JStr "object")]);
                               ("materials", JObj [("type", JStr "object")])]);
          ("required", JArr [JStr "profile"])] in
  let instance := JObj [("materials", JInt 1); ("thermal_loads", JStr "none")] in
  match schema_validate sample_iter_errors instance schema with
  | Ok errors => map (fun e => format_path (err_path e)) errors
  | Raise _ => []
  end = ["$"; "$.materials"; "$.thermal_loads"].
Proof. reflexivity. Qed.


(* ===================================================================== *)
(** ** The full-fill pipeline: where it stops and what it returns *)
(* ===================================================================== *)

(** C1: on [/intent/fill] without a client intent, when the collector
    answers and the normalised list of missing parameters is not empty,
    the pipeline returns [needs_parameters] with that list, and the
    reviewer is not called. *)
Theorem needs_parameters_halts_pipeline
  (W : World) (req : FillRequest) (meta : profile_meta)
  (template_doc schema_doc answer : json) :
  registry_get (profile_slug req) = Some meta ->
  files_loaded W req meta template_doc schema_doc ->
  client_intent req = None ->
  call_llm_collect_parameters W (user_request req) (dict_or_empty template_doc)
    (collect_override W req) = Ok answer ->
  normalize_missing_parameters (repr W)
    (get (dict_or_empty answer) "missing_parameters") <> [] ->
  exists response calls,
    intent_fill W req = (Ok response, calls) /\
    pipeline_status_of response = JStr "needs_parameters" /\
    get response "missing_parameters"
    = JArr (map JObj (normalize_missing_parameters (repr W)
                        (get (dict_or_empty answer) "missing_parameters"))) /\
    reviewer_calls calls = [].
Proof.
  intros Hmeta Hfiles Hclient Hanswer Hmissing.
  rewrite (@intent_fill_stages W req meta template_doc schema_doc Hmeta Hfiles).
  destruct (fill_collect W req meta (dict_or_empty template_doc))
    as [r calls] eqn:Hc.
  pose proof (@fill_collect_calls W _ _ _ _ _ Hc) as Hcalls.
  unfold fill_collect in Hc. rewrite Hclient, Hanswer in Hc.
  cbn [bind route_monad call ret] in Hc.
  destruct (normalize_missing_parameters (repr W)
              (get (dict_or_empty answer) "missing_parameters"))
    as [| m rest] eqn:Hm; [congruence |].
  cbn [ret route_monad] in Hc. injection Hc as <- <-.
  cbn [bind route_monad ret]. do 2 eexists. split; [reflexivity |].
  unfold pipeline_status_of. rewrite !get_with_defaults by discriminate.
  repeat split.
Qed.

Lemma needs_parameters_halts_pipeline_witness :
  let W := sample_world typed_files
             (Ok (JObj [("intent", JObj []);
                        ("missing_parameters",
                         JArr [JObj [("label", JStr "inlet velocity")]])]))
             (Raise timeout) in
  exists response calls,
    intent_fill W (fill_request None) = (Ok response, calls) /\
    pipeline_status_of response = JStr "needs_parameters" /\
    get response "missing_parameters"
    = JArr [JObj [("label", JStr "inlet velocity"); ("detail", JStr "");
                  ("path", JStr "")]] /\
    reviewer_calls calls = [].
Proof.
  intros W.
  apply (@needs_parameters_halts_pipeline W (fill_request None)
           OPENFOAM_BMESH_V1 (JObj [])
           (JObj [("properties",
                   JObj [("operating_conditions", JObj [("type", JStr "object")])])])
           (JObj [("intent", JObj []);
                  ("missing_parameters",
                   JArr [JObj [("label", JStr "inlet velocity")]])]));
    [reflexivity | split; reflexivity | reflexivity | reflexivity
    | vm_compute; discriminate].
Defined.

(** C2: when the initial validation of the intent reports issues, the
    pipeline returns [schema_failed] with that intent and the reviewer is
    not called; and a response whose status is [schema_regression] comes
    only from a run whose initial validation was clean and that did call
    the reviewer, so no request yields both statuses. *)
Theorem schema_failed_forecloses_review
  (W : World) (req : FillRequest) (meta : profile_meta)
  (template_doc schema_doc : json) (final_intent : dict)
  (defaults_intent defaults_overview : option dict) (calls : list event)
  (errors : list ValidationError) :
  registry_get (profile_slug req) = Some meta ->
  files_loaded W req meta template_doc schema_doc ->
  fill_collect W req meta (dict_or_empty template_doc)
  = (Ok (Proceed final_intent defaults_intent defaults_overview), calls) ->
  schema_validate (iter_errors W) (JObj final_intent) schema_doc = Ok errors ->
  (errors <> [] ->
   exists response,
     intent_fill W req = (Ok response, calls) /\
     pipeline_status_of response = JStr "schema_failed" /\
     get response "intent" = JObj final_intent /\
     reviewer_calls calls = []) /\
  (forall response calls',
     intent_fill W req = (Ok response, calls') ->
     pipeline_status_of response = JStr "schema_regression" ->
     errors = [] /\ reviewer_calls calls' = [ReviewerCall final_intent]).
Proof.
  intros Hmeta Hfiles Hc Hv.
  rewrite (@intent_fill_stages W req meta template_doc schema_doc Hmeta Hfiles).
  rewrite Hc. cbn [bind route_monad].
  pose proof (@fill_collect_calls W _ _ _ _ _ Hc) as Hcalls.
  split.
  - intros Hne.
    destruct (@fill_review_schema_failed W req meta schema_doc final_intent
                defaults_intent defaults_overview errors Hv Hne)
      as (hs & rp & ->).
    eexists. rewrite app_nil_r. split; [reflexivity |].
    now rewrite fill_response_status, fill_response_intent.
  - intros response calls'.
    destruct (fill_review W req meta schema_doc final_intent
                defaults_intent defaults_overview) as [[r | e] calls1] eqn:Hr;
      [| discriminate].
    intros [= <- <-].
    destruct (@fill_review_outcome W _ _ _ _ _ _ _ _ Hr)
      as (fi' & hs & rp & st & -> &
          [(_ & _ & -> & _) | [(_ & _ & -> & _) | (a & errs & _ & -> & Hv1 & _ & _)]]);
      rewrite fill_response_status; try discriminate.
    intros _. rewrite Hv in Hv1. injection Hv1 as ->.
    rewrite reviewer_calls_app, Hcalls. auto.
Qed.

Lemma schema_failed_forecloses_review_witness :
  let W := sample_world strict_files (Ok JNull) (Raise timeout) in
  exists response,
    intent_fill W (fill_request (Some [])) = (Ok response, []) /\
    pipeline_status_of response = JStr "schema_failed" /\
    get response "intent"
    = JObj [("profile", JStr "CoolingPlate-OF-Intent@blockMesh_v1.0")] /\
    reviewer_calls [] = [].
Proof.
  intros W.
  refine (proj1 (@schema_failed_forecloses_review W (fill_request (Some []))
                   OPENFOAM_BMESH_V1 (JObj [])
                   (JObj [("required", JArr [JStr "materials"])])
                   [("profile", JStr "CoolingPlate-OF-Intent@blockMesh_v1.0")]
                   None None []
                   [{| err_path := [];
                       err_message := "'materials' is a required property" |}]
                   _ _ _ _) _);
    [reflexivity | split; reflexivity | reflexivity | reflexivity | discriminate].
Defined.

(** When the reviewer call raises and the summary of the retained intent
    can be written, the pipeline returns [reasoner_failed] with the
    pre-review intent and the error text in the review payload. *)
Lemma reasoner_failure_keeps_intent
  (W : World) (req : FillRequest) (meta : profile_meta)
  (template_doc schema_doc : json) (final_intent : dict)
  (defaults_intent defaults_overview : option dict) (calls : list event)
  (e : exn) (summary : string) :
  registry_get (profile_slug req) = Some meta ->
  files_loaded W req meta template_doc schema_doc ->
  fill_collect W req meta (dict_or_empty template_doc)
  = (Ok (Proceed final_intent defaults_intent defaults_overview), calls) ->
  schema_validate (iter_errors W) (JObj final_intent) schema_doc = Ok [] ->
  call_reasoner_review W final_intent meta schema_doc = Raise e ->
  summarize_intent W final_intent = Ok summary ->
  exists response review,
    intent_fill W req = (Ok response, (calls ++ [ReviewerCall final_intent])%list) /\
    pipeline_status_of response = JStr "reasoner_failed" /\
    get response "intent" = JObj final_intent /\
    get response "review" = JObj review /\
    get review "reasoner_error" = JStr (text e).
Proof.
  intros Hmeta Hfiles Hc Hv Hr Hs.
  rewrite (@intent_fill_stages W req meta template_doc schema_doc Hmeta Hfiles).
  rewrite Hc. cbn [bind route_monad].
  destruct (@fill_review_reasoner_failed W req meta schema_doc final_intent
              defaults_intent defaults_overview e summary Hv Hr Hs)
    as (hs & rp & -> & Herr).
  do 2 eexists. split; [reflexivity |].
  now rewrite fill_response_status, fill_response_intent, fill_response_review.
Qed.

(** C3, on a failing input: the schema file accepts every document, the
    client intent has a string for [operating_conditions], the reviewer
    call times out.  The intent passes the initial validation and the
    reviewer is called and fails, but the handler then raises
    [AttributeError] while it writes the summary of the retained intent:
    no [reasoner_failed] response is returned. *)
Theorem reasoner_failed_summary_crash :
  let W := sample_world lax_files (Ok JNull) (Raise timeout) in
  let client := [("operating_conditions", JStr "steady")] in
  let retained := [("operating_conditions", JStr "steady");
                   ("profile", JStr "CoolingPlate-OF-Intent@blockMesh_v1.0")] in
  schema_validate (iter_errors W) (JObj retained) (JObj []) = Ok [] /\
  call_reasoner_review W retained OPENFOAM_BMESH_V1 (JObj []) = Raise timeout /\
  intent_fill W (fill_request (Some client))
  = (Raise (Exn AttributeError "object has no attribute 'get'"),
     [ReviewerCall retained]).
Proof. repeat split. Qed.

(** When the reviewer answers and the summary of the reviewed intent can
    be written, the response carries the reviewed intent (the reviewer's
    [updated_intent] with the profile identifier written over it), with
    status [schema_regression] when that intent fails validation. *)
Lemma schema_regression_returns_updated_intent
  (W : World) (req : FillRequest) (meta : profile_meta)
  (template_doc schema_doc : json) (final_intent updated : dict)
  (defaults_intent defaults_overview : option dict) (calls : list event)
  (answer : dict) (errors : list ValidationError) (summary : string) :
  registry_get (profile_slug req) = Some meta ->
  files_loaded W req meta template_doc schema_doc ->
  fill_collect W req meta (dict_or_empty template_doc)
  = (Ok (Proceed final_intent defaults_intent defaults_overview), calls) ->
  schema_validate (iter_errors W) (JObj final_intent) schema_doc = Ok [] ->
  call_reasoner_review W final_intent meta schema_doc = Ok (JObj answer) ->
  get answer "updated_intent" = JObj updated ->
  let regressed := store updated "profile" (JStr (profile meta)) in
  schema_validate (iter_errors W) (JObj regressed) schema_doc = Ok errors ->
  errors <> [] ->
  summarize_intent W regressed = Ok summary ->
  exists response,
    intent_fill W req = (Ok response, (calls ++ [ReviewerCall final_intent])%list) /\
    pipeline_status_of response = JStr "schema_regression" /\
    get response "intent" = JObj regressed.
Proof.
  intros Hmeta Hfiles Hc Hv Hr Hu regressed Hv2 Hne Hs.
  rewrite (@intent_fill_stages W req meta template_doc schema_doc Hmeta Hfiles).
  rewrite Hc. cbn [bind route_monad].
  assert (Hreg : reviewed_intent meta final_intent (JObj answer) = regressed).
  { unfold reviewed_intent. rewrite Hu. now rewrite deep_copy_dict_id. }
  rewrite <- Hreg in Hv2, Hs.
  destruct (@fill_review_reviewed W req meta schema_doc final_intent
              defaults_intent defaults_overview (JObj answer) errors summary
              Hv Hr Hv2 Hs) as (hs & rp & ->).
  eexists. split; [reflexivity |].
  rewrite fill_response_status, fill_response_intent, Hreg.
  destruct errors; [congruence | auto].
Qed.

(** C4, on a failing input: the schema wants [operating_conditions] to be
    an object, the client intent is empty, and the reviewer returns an
    [updated_intent] with a string there.  The updated intent fails the
    final validation, but the handler raises [AttributeError] while it
    writes the summary of that intent: neither the [schema_regression]
    status nor the regressed intent is returned. *)
Theorem schema_regression_summary_crash :
  let updated := [("operating_conditions", JStr "steady")] in
  let W := sample_world typed_files (Ok JNull)
             (Ok (JObj [("updated_intent", JObj updated)])) in
  let schema_doc :=
    JObj [("properties",
           JObj [("operating_conditions", JObj [("type", JStr "object")])])] in
  let pre_review := [("profile", JStr "CoolingPlate-OF-Intent@blockMesh_v1.0")] in
  let regressed := store updated "profile" (JStr (profile OPENFOAM_BMESH_V1)) in
  schema_validate (iter_errors W) (JObj pre_review) schema_doc = Ok [] /\
  schema_validate (iter_errors W) (JObj regressed) schema_doc
  = Ok [{| err_path := [Key "operating_conditions"];
           err_message := "value is not of type 'object'" |}] /\
  intent_fill W (fill_request (Some []))
  = (Raise (Exn AttributeError "object has no attribute 'get'"),
     [ReviewerCall pre_review]).
Proof. repeat split. Qed.

(** A regressed intent whose members have the types the summary reads is
    returned, with status [schema_regression]. *)
Example schema_regression_sample :
  let W := sample_world strict_files (Ok JNull)
             (Ok (JObj [("updated_intent", JObj [("profile", JStr "x")])])) in
  exists response calls,
    intent_fill W (fill_request (Some [("materials", JObj [])]))
    = (Ok response, calls) /\
    pipeline_status_of response = JStr "schema_regression" /\
    get response "intent"
    = JObj [("profile", JStr "CoolingPlate-OF-Intent@blockMesh_v1.0")].
Proof. do 2 eexists. repeat split. Qed.

(* ===================================================================== *)
(** ** The profile identifier of every returned or stored intent *)
(* ===================================================================== *)



(* ===================================================================== *)
(** ** Strings: [strip] *)
(* ===================================================================== *)

Section StripFacts.







End StripFacts.

(* ===================================================================== *)
(** ** Dimension modes and string lists *)
(* ===================================================================== *)

(** X9 ([normalize_dimension_mode]): the result is one of the two valid
    modes or nothing, and normalising a normalised mode changes
    nothing. *)
Theorem normalize_dimension_mode_range_and_idempotent (raw : option string) :
  let mode := normalize_dimension_mode raw in
  (mode = None \/ mode = Some "3D" \/ mode = Some "2D_extruded") /\
  normalize_dimension_mode mode = mode.
Proof.
  intros mode.
  assert (H : mode = None \/ mode = Some "3D" \/ mode = Some "2D_extruded").
  { subst mode. unfold normalize_dimension_mode.
    destruct raw as [r|]; [| now left].
    destruct (existsb (String.eqb (strip r)) VALID_DIMENSION_MODES) eqn:E;
      [| now left].
    cbn [existsb VALID_DIMENSION_MODES] in E.
    apply orb_true_iff in E as [E|E];
      [| apply orb_true_iff in E as [E|E]; [|discriminate]];
      apply String.eqb_eq in E; rewrite <- E; auto. }
  split; [exact H|].
  destruct H as [-> | [-> | ->]]; reflexivity.
Qed.

(* ===================================================================== *)
(** ** Reading JSON files: properties *)
(* ===================================================================== *)

Section LoaderFacts.

Import Loader.

Lemma scan_no_slash st raw :
  occurs "/" raw = false ->
  match st with Outside | Inside _ _ => True | _ => False end ->
  scan st raw = raw.
Proof.
  revert st. induction raw as [|ch rest IH]; intros st Hno Hst; [reflexivity|].
  cbn [occurs] in Hno. apply orb_false_iff in Hno as [Hch Hrest].
  destruct st as [|d e| |]; try contradiction; cbn [scan].
  - rewrite Hch. destruct (is_quote ch); now rewrite IH.
  - f_equal. apply IH; [assumption|].
    destruct e; [exact I|].
    destruct (Ascii.eqb ch "092"); [exact I|].
    now destruct (Ascii.eqb ch d).
Qed.

Lemma scan_length st raw : (String.length (scan st raw) <= String.length raw)%nat.
Proof.
  remember (String.length raw) as n eqn:Hn.
  revert st raw Hn. induction n as [n IH] using lt_wf_ind. intros st raw Hn.
  destruct raw as [|ch rest]; [cbn; lia|].
  cbn [String.length] in Hn.
  assert (Hrest : forall st', (String.length (scan st' rest) <= String.length rest)%nat).
  { intros st'. apply (IH (String.length rest)); [lia|reflexivity]. }
  destruct st as [|d e| |]; cbn [scan].
  - destruct (is_quote ch); [cbn [String.length]; specialize (Hrest (Inside ch false)); lia|].
    destruct (Ascii.eqb ch "/").
    + destruct rest as [|nxt rest']; [cbn; lia|].
      cbn [String.length] in *.
      assert (Hrest' : forall st', (String.length (scan st' rest') <= String.length rest')%nat).
      { intros st'. apply (IH (String.length rest')); [lia|reflexivity]. }
      destruct (Ascii.eqb nxt "/"); [specialize (Hrest' LineComment); lia|].
      destruct (Ascii.eqb nxt "*"); [specialize (Hrest' BlockComment); lia|].
      specialize (Hrest Outside). cbn [String.length] in *. lia.
    + cbn [String.length]. specialize (Hrest Outside). lia.
  - cbn [String.length]. match goal with |- context [scan ?s rest] => specialize (Hrest s) end. lia.
  - destruct (is_newline ch); cbn [String.length];
      [specialize (Hrest Outside)|specialize (Hrest LineComment)]; lia.
  - destruct rest as [|nxt rest']; [cbn; lia|].
    cbn [String.length] in *.
    assert (Hrest' : forall st', (String.length (scan st' rest') <= String.length rest')%nat).
    { intros st'. apply (IH (String.length rest')); [lia|reflexivity]. }
    destruct (Ascii.eqb ch "*" && Ascii.eqb nxt "/");
      [specialize (Hrest' Outside)|specialize (Hrest BlockComment)];
      cbn [String.length] in *; lia.
Qed.

Lemma is_quote_not_backslash q : is_quote q = true -> Ascii.eqb q "092" = false.
Proof.
  unfold is_quote. intros H. apply orb_true_iff in H.
  destruct H as [H|H]; apply Ascii.eqb_eq in H; now subst q.
Qed.

Lemma is_quote_not_slash q : is_quote q = true -> Ascii.eqb q "/" = false.
Proof.
  unfold is_quote. intros H. apply orb_true_iff in H.
  destruct H as [H|H]; apply Ascii.eqb_eq in H; now subst q.
Qed.

Lemma scan_inside_body q body tail :
  Ascii.eqb q "092" = false ->
  occurs q body = false -> occurs "092" body = false ->
  scan (Inside q false) (body ++ String q tail)
  = body ++ String q (scan Outside tail).
Proof.
  intros Hq. induction body as [|ch body IH]; cbn [append occurs scan]; intros Hb Hs.
  - now rewrite Hq, Ascii.eqb_refl.
  - apply orb_false_iff in Hb as [Hb1 Hb2]. apply orb_false_iff in Hs as [Hs1 Hs2].
    rewrite Hs1, Hb1. now rewrite IH.
Qed.

Lemma scan_line_comment c :
  occurs "013" c = false -> occurs "010" c = false ->
  scan LineComment c = "" /\
  forall nl rest, is_newline nl = true ->
    scan LineComment (c ++ String nl rest) = String nl (scan Outside rest).
Proof.
  induction c as [|ch c IH]; cbn [occurs append scan]; intros H1 H2.
  - split; [reflexivity|]. intros nl rest ->. reflexivity.
  - apply orb_false_iff in H1 as [H1 H1']. apply orb_false_iff in H2 as [H2 H2'].
    unfold is_newline at 1 3. rewrite H1, H2. cbn [orb]. now apply IH.
Qed.

Lemma scan_block_comment c :
  has_close c = false ->
  scan BlockComment c = "" /\
  forall rest, scan BlockComment (c ++ String "*" (String "/" rest)) = scan Outside rest.
Proof.
  induction c as [|x c IH]; intros H.
  - split; reflexivity.
  - destruct c as [|y c'].
    + split; [reflexivity|]. intros rest. cbn [append scan].
      replace (Ascii.eqb x "*" && Ascii.eqb "*" "/") with false
        by (now rewrite andb_false_r).
      reflexivity.
    + cbn [has_close] in H. apply orb_false_iff in H as [Hxy Hc].
      specialize (IH Hc) as [IH1 IH2].
      split.
      * change (scan BlockComment (String x (String y c')))
          with (if Ascii.eqb x "*" && Ascii.eqb y "/" then scan Outside c'
                else scan BlockComment (String y c')).
        now rewrite Hxy.
      * intros rest.
        change (scan BlockComment (String x (String y c') ++ String "*" (String "/" rest)))
          with (if Ascii.eqb x "*" && Ascii.eqb y "/"
                then scan Outside (c' ++ String "*" (String "/" rest))
                else scan BlockComment (String y c' ++ String "*" (String "/" rest))).
        rewrite Hxy. apply IH2.
Qed.

Lemma scan_plain_prefix p rest :
  plain p = true -> scan Outside (p ++ rest) = p ++ scan Outside rest.
Proof.
  induction p as [|ch p IH]; cbn [plain append]; intros H; [reflexivity|].
  apply andb_true_iff in H as [H Hp]. apply andb_true_iff in H as [Hs Hq].
  apply negb_true_iff in Hs, Hq.
  cbn [scan]. rewrite Hq, Hs. now rewrite IH.
Qed.

End LoaderFacts.

(** X1 ([_strip_json_comments]): a text with no slash holds no comment
    and is returned as it is. *)
Theorem strip_json_comments_without_slash (raw : string) :
  Loader.occurs "/" raw = false ->
  Loader._strip_json_comments raw = raw.
Proof. intros H. now apply scan_no_slash. Qed.

Lemma strip_json_comments_without_slash_witness :
  Loader._strip_json_comments "{ 'a': [1, 2] }" = "{ 'a': [1, 2] }".
Proof. apply strip_json_comments_without_slash. reflexivity. Defined.

(** X2 ([_strip_json_comments]): the function only removes text; its
    result is never longer than its argument. *)
Theorem strip_json_comments_never_grows (raw : string) :
  (String.length (Loader._strip_json_comments raw) <= String.length raw)%nat.
Proof. apply scan_length. Qed.

(** X3 ([_strip_json_comments]): after a stretch of text with no slash
    and no quote, a string literal without backslash is copied whole,
    comment markers inside it included, and the scan goes on behind its
    closing quote. *)
Theorem strip_json_comments_keeps_string_literal
  (p : string) (q : ascii) (body rest : string) :
  Loader.plain p = true ->
  Loader.is_quote q = true ->
  Loader.occurs q body = false ->
  Loader.occurs "092" body = false ->
  Loader._strip_json_comments (p ++ String q (body ++ String q rest))
  = p ++ String q (body ++ String q (Loader._strip_json_comments rest)).
Proof.
  intros Hp Hq Hb Hs. unfold Loader._strip_json_comments.
  rewrite scan_plain_prefix by assumption. f_equal.
  cbn [Loader.scan]. rewrite Hq. f_equal.
  apply scan_inside_body; auto using is_quote_not_backslash.
Qed.

Lemma strip_json_comments_keeps_string_literal_witness :
  Loader._strip_json_comments "{u: 'http://x /* y */', v: 1 // one"
  = "{u: 'http://x /* y */', v: 1 ".
Proof.
  apply (@strip_json_comments_keeps_string_literal
           "{u: " "039" "http://x /* y */" ", v: 1 // one"); reflexivity.
Defined.

(** X4 ([_strip_json_comments]): a line comment that follows text with
    no slash and no quote is dropped up to the end of its line; the
    carriage return or line feed that ends it is kept, and a comment
    that runs to the end of the text is dropped whole. *)
Theorem strip_json_comments_drops_line_comment (p c : string) :
  Loader.plain p = true ->
  Loader.occurs "013" c = false ->
  Loader.occurs "010" c = false ->
  Loader._strip_json_comments (p ++ "//" ++ c) = p /\
  forall nl rest, Loader.is_newline nl = true ->
    Loader._strip_json_comments (p ++ "//" ++ c ++ String nl rest)
    = p ++ String nl (Loader._strip_json_comments rest).
Proof.
  intros Hp H1 H2. unfold Loader._strip_json_comments.
  destruct (scan_line_comment c H1 H2) as [Ha Hb].
  split; [| intros nl rest Hnl]; rewrite scan_plain_prefix by assumption.
  - cbn [append Loader.scan Ascii.eqb Bool.eqb Loader.is_quote orb].
    rewrite Ha. clear. induction p; cbn; congruence.
  - cbn [append Loader.scan Ascii.eqb Bool.eqb Loader.is_quote orb].
    now rewrite Hb.
Qed.

Lemma strip_json_comments_drops_line_comment_witness :
  Loader._strip_json_comments "{a: 1 // unit: m" = "{a: 1 " /\
  forall nl rest, Loader.is_newline nl = true ->
    Loader._strip_json_comments ("{a: 1 " ++ "//" ++ " unit: m" ++ String nl rest)
    = "{a: 1 " ++ String nl (Loader._strip_json_comments rest).
Proof.
  apply (@strip_json_comments_drops_line_comment "{a: 1 " " unit: m"); reflexivity.
Defined.

(** X5 ([_strip_json_comments]): a block comment that follows text with
    no slash and no quote is dropped with its two markers, whatever it
    holds short of a closing marker; when the closing marker is missing,
    the rest of the text is dropped. *)
Theorem strip_json_comments_drops_block_comment (p c : string) :
  Loader.plain p = true ->
  Loader.has_close c = false ->
  Loader._strip_json_comments (p ++ "/*" ++ c) = p /\
  forall rest,
    Loader._strip_json_comments (p ++ "/*" ++ c ++ "*/" ++ rest)
    = p ++ Loader._strip_json_comments rest.
Proof.
  intros Hp Hc. unfold Loader._strip_json_comments.
  destruct (scan_block_comment c Hc) as [Ha Hb].
  split; [| intros rest]; rewrite scan_plain_prefix by assumption.
  - cbn [append Loader.scan Ascii.eqb Bool.eqb Loader.is_quote orb].
    rewrite Ha. clear. induction p; cbn; congruence.
  - cbn [append Loader.scan Ascii.eqb Bool.eqb Loader.is_quote orb].
    now rewrite Hb.
Qed.

Lemma strip_json_comments_drops_block_comment_witness :
  Loader._strip_json_comments "[1, /* two * 'three' " = "[1, " /\
  forall rest,
    Loader._strip_json_comments ("[1, " ++ "/*" ++ " two * 'three' " ++ "*/" ++ rest)
    = "[1, " ++ Loader._strip_json_comments rest.
Proof.
  apply (@strip_json_comments_drops_block_comment "[1, " " two * 'three' "); reflexivity.
Defined.

Section LoadFacts.

Variable path_exists : string -> bool.
Variable read_text : string -> result string.
Variable json_loads : string -> json + string.

(** X6 ([load_json]): for a file whose text has no slash, comment
    stripping changes nothing, so the outcome is that of the one call of
    [json.loads] on the text: its document, or its decode error. *)
Theorem load_json_without_slash (p raw : string) :
  path_exists p = true ->
  read_text p = Ok raw ->
  Loader.occurs "/" raw = false ->
  Loader.load_json path_exists read_text json_loads p
  = match json_loads raw with
    | inl doc => Ok doc
    | inr err => Raise (Exn ValueError err)
    end.
Proof.
  intros He Hr Hs. unfold Loader.load_json. rewrite He, Hr.
  cbn [negb bind result_monad].
  destruct (json_loads raw); [reflexivity|].
  unfold Loader._strip_json_comments.
  rewrite scan_no_slash by (auto; exact I).
  now rewrite String.eqb_refl.
Qed.

End LoadFacts.

(* ===================================================================== *)
(** ** The answer of a generation service: properties *)
(* ===================================================================== *)

Section LlmFacts.

Import Loader Llm.

Lemma find_bounds c s : -1 <= find c s < Z.of_nat (String.length s).
Proof.
  induction s as [|x s IH]; cbn [find String.length]; [lia|].
  destruct (Ascii.eqb x c); [lia|].
  destruct (find c s <? 0) eqn:E; [lia|]. apply Z.ltb_ge in E. lia.
Qed.

Lemma rfind_bounds c s : -1 <= rfind c s < Z.of_nat (String.length s).
Proof.
  induction s as [|x s IH]; cbn [rfind String.length]; [lia|].
  destruct (0 <=? rfind c s) eqn:E; [lia|].
  destruct (Ascii.eqb x c); lia.
Qed.

Lemma find_absent c s : occurs c s = false -> find c s = -1.
Proof.
  induction s as [|x s IH]; cbn [find occurs]; [reflexivity|].
  intros H. apply orb_false_iff in H as [-> H]. now rewrite IH.
Qed.

Lemma rfind_absent c s : occurs c s = false -> rfind c s = -1.
Proof.
  induction s as [|x s IH]; cbn [rfind occurs]; [reflexivity|].
  intros H. apply orb_false_iff in H as [-> H]. now rewrite IH.
Qed.

(** The first occurrence behind a stretch that has none. *)
Lemma find_app c a b :
  occurs c a = false ->
  find c (a ++ b)
  = if find c b <? 0 then -1 else Z.of_nat (String.length a) + find c b.
Proof.
  induction a as [|x a IH]; cbn [append find occurs String.length]; intros H.
  - destruct (find c b <? 0) eqn:E; [| lia].
    apply Z.ltb_lt in E. pose proof (find_bounds c b). lia.
  - apply orb_false_iff in H as [-> H]. rewrite (IH H).
    destruct (find c b <? 0) eqn:E; [reflexivity|].
    apply Z.ltb_ge in E.
    destruct (Z.of_nat (String.length a) + find c b <? 0) eqn:E'; [| lia].
    apply Z.ltb_lt in E'. lia.
Qed.

(** The last occurrence before a stretch that has none. *)
Lemma rfind_app c a b :
  occurs c b = false -> rfind c (a ++ b) = rfind c a.
Proof.
  intros H. induction a as [|x a IH]; cbn [append rfind].
  - now apply rfind_absent.
  - now rewrite IH.
Qed.

Lemma rfind_last c a b :
  occurs c b = false ->
  rfind c (a ++ String c b) = Z.of_nat (String.length a).
Proof.
  intros H. induction a as [|x a IH]; cbn [append rfind String.length].
  - rewrite (rfind_absent _ _ H). cbn. now rewrite Ascii.eqb_refl.
  - rewrite IH. destruct (0 <=? Z.of_nat (String.length a)) eqn:E; lia.
Qed.

Lemma substring_skip a s m :
  String.substring (String.length a) m (a ++ s) = String.substring 0 m s.
Proof. induction a as [|x a IH]; [reflexivity | exact IH]. Qed.

Lemma substring_take s t :
  String.substring 0 (String.length s) (s ++ t) = s.
Proof.
  induction s as [|x s IH]; cbn [String.length append String.substring].
  - now destruct t.
  - now rewrite IH.
Qed.

Lemma length_append (a b : string) :
  String.length (a ++ b) = (String.length a + String.length b)%nat.
Proof. induction a; cbn [append String.length Nat.add]; congruence. Qed.

Lemma append_assoc (a b c : string) : (a ++ b) ++ c = a ++ (b ++ c).
Proof. induction a; cbn [append]; congruence. Qed.

Lemma slice_middle (a s t : string) :
  slice (a ++ s ++ t) (Z.of_nat (String.length a))
        (Z.of_nat (String.length a) + Z.of_nat (String.length s))
  = s.
Proof.
  unfold slice.
  replace (Z.of_nat (String.length a) + Z.of_nat (String.length s)
           - Z.of_nat (String.length a))
    with (Z.of_nat (String.length s)) by lia.
  rewrite !Nat2Z.id, substring_skip. apply substring_take.
Qed.

End LlmFacts.

Section ParseFacts.

Variable json_loads : string -> json + string.
Variable head : nat -> string -> string.

(** X7 ([call_llm_json_response]): when the content as a whole does not
    parse, the object between the first opening brace and the last
    closing brace is parsed in its place: text before it that has no
    opening brace and text behind it that has no closing brace are cut
    away, and the outcome is that of [json.loads] on the object. *)
Theorem parse_content_salvages_outer_object (pre mid post err : string) :
  let object := String "{" (mid ++ "}") in
  json_loads (pre ++ object ++ post) = inr err ->
  Loader.occurs "{" pre = false ->
  Loader.occurs "}" post = false ->
  Llm.parse_content json_loads head (pre ++ object ++ post)
  = Llm.loads json_loads object.
Proof.
  intros object Hfail Hpre Hpost. unfold Llm.parse_content. rewrite Hfail.
  assert (Hstart : Llm.find "{" (pre ++ object ++ post)
                   = Z.of_nat (String.length pre)).
  { rewrite find_app by assumption. unfold object.
    cbn [append Llm.find Ascii.eqb Bool.eqb]. cbn. lia. }
  assert (Hend : Llm.rfind "}" (pre ++ object ++ post)
                 = Z.of_nat (String.length pre) + Z.of_nat (String.length object) - 1).
  { replace (pre ++ object ++ post)
      with ((pre ++ String "{" mid) ++ String "}" post).
    - rewrite rfind_last by assumption. unfold object.
      rewrite !length_append. cbn [String.length]. rewrite length_append.
      cbn [String.length]. lia.
    - unfold object. rewrite append_assoc. cbn [append].
      now rewrite append_assoc. }
  rewrite Hstart, Hend.
  assert (Hlen : (0 < String.length object)%nat) by (unfold object; cbn; lia).
  replace (0 <=? Z.of_nat (String.length pre)) with true by lia.
  replace (Z.of_nat (String.length pre) + Z.of_nat (String.length object) - 1
           >? Z.of_nat (String.length pre)) with true.
  2:{ symmetry. apply Z.gtb_lt. unfold object.
      cbn [String.length]. rewrite length_append. cbn [String.length]. lia. }
  cbn [andb].
  replace (Z.of_nat (String.length pre) + Z.of_nat (String.length object) - 1 + 1)
    with (Z.of_nat (String.length pre) + Z.of_nat (String.length object)) by lia.
  now rewrite slice_middle.
Qed.

(** X8 ([call_llm_json_response]): content that does not parse and
    holds no opening brace before a closing one (every opening brace,
    if any, comes behind the last closing brace) raises the
    [RuntimeError] that quotes its first 200 characters. *)
Theorem parse_content_without_object (a b err : string) :
  json_loads (a ++ b) = inr err ->
  Loader.occurs "{" a = false ->
  Loader.occurs "}" b = false ->
  Llm.parse_content json_loads head (a ++ b)
  = Raise (Exn RuntimeError ("模型返回非 JSON：" ++ head 200 (a ++ b) ++ "...")).
Proof.
  intros Hfail Ha Hb. unfold Llm.parse_content. rewrite Hfail.
  rewrite find_app, rfind_app by assumption.
  pose proof (rfind_bounds "}" a) as Hr.
  pose proof (find_bounds "{" b) as Hf.
  destruct (Llm.find "{" b <? 0) eqn:E; [reflexivity|].
  apply Z.ltb_ge in E.
  replace (Llm.rfind "}" a >? Z.of_nat (String.length a) + Llm.find "{" b)
    with false; [now rewrite andb_false_r|].
  symmetry. rewrite Z.gtb_ltb. apply Z.ltb_ge. lia.
Qed.

End ParseFacts.

(* ===================================================================== *)
(** ** DimensionModeEnforcer: further properties *)
(* ===================================================================== *)

Section EnforcerRuns.

Lemma normalize_3D : normalize_dimension_mode (Some "3D") = Some "3D".
Proof. reflexivity. Qed.

Lemma int_clamp (lo : Z) (nz : json) :
  is_int nz = true -> 1 <= lo <= 10 ->
  py_max (JInt lo) (py_min nz (JInt 10)) = JInt (Z.max lo (Z.min (int_of nz) 10)).
Proof.
  intros Hint Hlo. unfold py_max, py_min.
  destruct nz as [| [|] | k | | | |]; try discriminate; cbn [int_of int_value].
  - replace (10 <? 1) with false by reflexivity. cbn [int_of int_value].
    replace (1 >? lo) with false by (symmetry; rewrite Z.gtb_ltb; apply Z.ltb_ge; lia).
    f_equal. lia.
  - replace (10 <? 0) with false by reflexivity. cbn [int_of int_value].
    replace (0 >? lo) with false by (symmetry; rewrite Z.gtb_ltb; apply Z.ltb_ge; lia).
    f_equal. lia.
  - destruct (10 <? k) eqn:E; cbn [int_of int_value].
    + apply Z.ltb_lt in E. destruct (10 >? lo) eqn:E'; f_equal.
      * lia.
      * rewrite Z.gtb_ltb in E'. apply Z.ltb_ge in E'. lia.
    + apply Z.ltb_ge in E. destruct (k >? lo) eqn:E'; f_equal.
      * apply Z.gtb_lt in E'. lia.
      * rewrite Z.gtb_ltb in E'. apply Z.ltb_ge in E'. lia.
Qed.

(** The 2D branch on a well-shaped intent, with template sections that
    are dicts. *)
Lemma enforce_2D_form (intent_obj template_obj tg tc : dict) :
  well_shaped intent_obj = true ->
  template_section template_obj "geometry" = Ok (JObj tg) ->
  template_section template_obj "cells" = Ok (JObj tc) ->
  let g := geometry_of intent_obj in
  let c := cells_of intent_obj in
  exists g' c',
    enforce_dimension_mode intent_obj (Some "2D_extruded") template_obj
    = with_sections intent_obj g' c' /\
    lookup g' "dimension_mode" = Some (JStr "2D_extruded") /\
    lookup g' "thickness_2d_m" =
      Some (if is_number (get g "thickness_2d_m") then get g "thickness_2d_m"
            else fallback_thickness intent_obj tg) /\
    lookup c' "nz" =
      (if is_int (get c "nz")
       then Some (py_max (JInt 1) (py_min (get c "nz") (JInt 10)))
       else if is_int (get tc "nz") then Some (get tc "nz")
       else lookup c "nz").
Proof.
  intros Hshape Hg Hc g c.
  unfold enforce_dimension_mode. rewrite normalize_2D.
  rewrite (@enforce_setup intent_obj template_obj "2D_extruded" (JObj tg) (JObj tc) Hshape Hg Hc).
  assert (Hh : deref intent_obj HEIGHT = get g "height_m").
  { unfold deref, HEIGHT, get. now rewrite resolve_geometry by assumption. }
  unfold fallback_thickness. rewrite Hh. clear Hh.
  unfold skeleton, enforce_branch. cbn [String.eqb Ascii.eqb Bool.eqb].
  fold g c.
  assert (Ht : get (store g "dimension_mode" (JStr "2D_extruded")) "thickness_2d_m"
               = get g "thickness_2d_m").
  { unfold get. now rewrite lookup_store_other by discriminate. }
  assert (Hheight : get (store g "dimension_mode" (JStr "2D_extruded")) "height_m"
                    = get g "height_m").
  { unfold get. now rewrite lookup_store_other by discriminate. }
  assert (Hnum : forall v, is_number (get g "thickness_2d_m") = true ->
                   lookup (store g "dimension_mode" v) "thickness_2d_m"
                   = Some (get g "thickness_2d_m")).
  { intros v. rewrite lookup_store_other by discriminate. unfold get.
    destruct (lookup g "thickness_2d_m"); [reflexivity | discriminate]. }
  destruct (is_number (get g "thickness_2d_m")) eqn:E0;
  [| destruct (is_number (get tg "thickness_2d_m")) eqn:E1;
     [| destruct (is_number (get g "height_m")) eqn:E3]];
  destruct (is_int (get c "nz")) eqn:E4;
  try destruct (is_int (get tc "nz")) eqn:E2.
  all: repeat (cbn [bind ret mut_monad lift attr_get negb snd];
               rewrite ?getitem_geometry, ?getitem_cells,
                 ?setitem_geometry, ?setitem_cells,
                 ?Ht, ?Hheight, ?E0, ?E1, ?E2, ?E3, ?E4;
               cbn [is_number is_int negb]).
  all: do 2 eexists; split; [reflexivity |].
  all: rewrite ?lookup_store_same, ?(Hnum _ eq_refl).
  all: repeat split.
  all: rewrite ?(@lookup_store_other _ "thickness_2d_m" "dimension_mode")
    by discriminate.
  all: apply lookup_store_same.
Qed.

Lemma enforce_2D_sections (intent_obj template_obj tg tc : dict) :
  well_shaped intent_obj = true ->
  template_section template_obj "geometry" = Ok (JObj tg) ->
  template_section template_obj "cells" = Ok (JObj tc) ->
  let g := geometry_of intent_obj in
  let c := cells_of intent_obj in
  let out := enforce_dimension_mode intent_obj (Some "2D_extruded") template_obj in
  resolve (JObj out) THICKNESS =
    Some (if is_number (get g "thickness_2d_m") then get g "thickness_2d_m"
          else fallback_thickness intent_obj tg) /\
  resolve (JObj out) NZ =
    (if is_int (get c "nz")
     then Some (py_max (JInt 1) (py_min (get c "nz") (JInt 10)))
     else if is_int (get tc "nz") then Some (get tc "nz")
     else lookup c "nz").
Proof.
  intros Hshape Hg Hc g c out. subst out.
  destruct (@enforce_2D_form intent_obj template_obj tg tc Hshape Hg Hc)
    as (g' & c' & -> & _ & Ht & Hn).
  unfold THICKNESS, NZ. now rewrite with_sections_geometry, with_sections_cells.
Qed.

(** The 3D branch on a well-shaped intent. *)
Lemma enforce_3D_sections (intent_obj template_obj tg : dict) (tc : json) :
  well_shaped intent_obj = true ->
  template_section template_obj "geometry" = Ok (JObj tg) ->
  template_section template_obj "cells" = Ok tc ->
  let g := geometry_of intent_obj in
  let out := enforce_dimension_mode intent_obj (Some "3D") template_obj in
  resolve (JObj out) HEIGHT =
    Some (if is_number (get g "height_m") then get g "height_m"
          else if is_number (get tg "height_m") then get tg "height_m"
          else if is_number (get g "thickness_2d_m") then get g "thickness_2d_m"
          else default_thickness) /\
  forall k, resolve (JObj out) (CELLS ++ [k]) = resolve (JObj intent_obj) (CELLS ++ [k]).
Proof.
  intros Hshape Hg Hc g out. subst out.
  unfold enforce_dimension_mode. rewrite normalize_3D.
  rewrite (@enforce_setup intent_obj template_obj "3D" (JObj tg) tc Hshape Hg Hc).
  unfold skeleton, enforce_branch, HEIGHT. cbn [String.eqb Ascii.eqb Bool.eqb].
  fold g.
  assert (Ht : get (store g "dimension_mode" (JStr "3D")) "thickness_2d_m"
               = get g "thickness_2d_m").
  { unfold get. now rewrite lookup_store_other by discriminate. }
  assert (Hheight : get (store g "dimension_mode" (JStr "3D")) "height_m"
                    = get g "height_m").
  { unfold get. now rewrite lookup_store_other by discriminate. }
  assert (Hnum : forall v, is_number (get g "height_m") = true ->
                   lookup (store g "dimension_mode" v) "height_m"
                   = Some (get g "height_m")).
  { intros v. rewrite lookup_store_other by discriminate. unfold get.
    destruct (lookup g "height_m"); [reflexivity | discriminate]. }
  assert (Hcells : forall k, resolve (JObj intent_obj) (CELLS ++ [k])
                             = lookup (cells_of intent_obj) k)
    by (intros; now apply resolve_cells).
  destruct (is_number (get g "height_m")) eqn:E0;
  [| destruct (is_number (get tg "height_m")) eqn:E1;
     [| destruct (is_number (get g "thickness_2d_m")) eqn:E3]].
  all: repeat (cbn [bind ret mut_monad lift attr_get negb snd];
               rewrite ?getitem_geometry, ?getitem_cells,
                 ?setitem_geometry, ?setitem_cells,
                 ?Ht, ?Hheight, ?E0, ?E1, ?E3;
               cbn [is_number is_int negb]).
  all: split; [| intros k; now rewrite with_sections_cells, Hcells].
  all: rewrite with_sections_geometry.
  all: rewrite ?lookup_store_same; try rewrite (Hnum _ eq_refl); reflexivity.
Qed.

End EnforcerRuns.

Section EnforcerFrame.

Import EnforcerSpec.

Lemma same_outside_refl fields d : same_outside fields d d.
Proof. intros k _. reflexivity. Qed.

Lemma same_outside_trans fields d1 d2 d3 :
  same_outside fields d1 d2 -> same_outside fields d2 d3 ->
  same_outside fields d1 d3.
Proof. intros H1 H2 k Hk. now rewrite H2, H1. Qed.

Lemma same_outside_store fields d k v :
  In k fields -> same_outside fields d (store d k v).
Proof.
  intros Hin k' Hk'. apply lookup_store_other. intros ->. contradiction.
Qed.

Section Within.

Variables gf cf : list string.

Lemma within_ret {A} (a : A) : within_sections gf cf (ret a : Mut A).
Proof.
  intros doc g c. exists (Ok a), g, c. auto using same_outside_refl.
Qed.

Lemma within_lift {A} (r : result A) : within_sections gf cf (lift r).
Proof.
  intros doc g c. exists r, g, c. auto using same_outside_refl.
Qed.

Lemma within_bind {A B} (m : Mut A) (f : A -> Mut B) :
  within_sections gf cf m -> (forall a, within_sections gf cf (f a)) ->
  within_sections gf cf (x <- m ;; f x).
Proof.
  intros Hm Hf doc g c. cbn [bind mut_monad].
  destruct (Hm doc g c) as (r & g1 & c1 & -> & Hg & Hc).
  destruct r as [a | e].
  - destruct (Hf a doc g1 c1) as (r2 & g2 & c2 & -> & Hg2 & Hc2).
    exists r2, g2, c2. eauto using same_outside_trans.
  - exists (Raise e), g1, c1. auto.
Qed.

Lemma within_if {A} (b : bool) (m1 m2 : Mut A) :
  within_sections gf cf m1 -> within_sections gf cf m2 ->
  within_sections gf cf (if b then m1 else m2).
Proof. now destruct b. Qed.

Lemma within_getitem_geometry k : within_sections gf cf (getitem GEOMETRY k).
Proof.
  intros doc g c. rewrite getitem_geometry.
  do 3 eexists. eauto using same_outside_refl.
Qed.

Lemma within_getitem_cells k : within_sections gf cf (getitem CELLS k).
Proof.
  intros doc g c. rewrite getitem_cells.
  do 3 eexists. eauto using same_outside_refl.
Qed.

Lemma within_setitem_geometry k v :
  In k gf -> within_sections gf cf (setitem GEOMETRY k v).
Proof.
  intros Hk doc g c. rewrite setitem_geometry.
  do 3 eexists. eauto using same_outside_refl, same_outside_store.
Qed.

Lemma within_setitem_cells k v :
  In k cf -> within_sections gf cf (setitem CELLS k v).
Proof.
  intros Hk doc g c. rewrite setitem_cells.
  do 3 eexists. eauto using same_outside_refl, same_outside_store.
Qed.

End Within.

#[local] Ltac within_steps :=
  repeat first
    [ apply within_ret | apply within_lift
    | apply within_getitem_geometry | apply within_getitem_cells
    | apply within_setitem_geometry; cbn; tauto
    | apply within_setitem_cells; cbn; tauto
    | apply within_if
    | apply within_bind; [| intros ?] ].

Lemma enforce_branch_within mode tg tc :
  within_sections SIZE_FIELDS CELLS_FIELDS (enforce_branch mode tg tc).
Proof. unfold enforce_branch. within_steps. Qed.


Lemma same_outside_more fields fields' d d' :
  incl fields fields' -> same_outside fields d d' -> same_outside fields' d d'.
Proof. intros Hi H k Hk. apply H. intros Hin. apply Hk, Hi, Hin. Qed.

(** A nested dict is reached through [sub_dict] when the member is a
    dict or absent. *)
Lemma resolve_into (d : dict) k p :
  p <> [] ->
  match lookup d k with Some v => is_dict v = true | None => True end ->
  resolve (JObj d) (k :: p) = resolve (JObj (sub_dict d k)) p.
Proof.
  intros Hp Hd. cbn [resolve]. unfold sub_dict.
  destruct (lookup d k) as [[| | | | | |m]|]; try discriminate; auto.
  destruct p; [congruence | reflexivity].
Qed.

Lemma well_shaped_levels (doc : dict) :
  well_shaped doc = true ->
  let dictish (o : option json) :=
    match o with Some v => is_dict v = true | None => True end in
  dictish (lookup doc "meshing") /\
  dictish (lookup (sub_dict doc "meshing") "blockMesh") /\
  dictish (lookup (block_of doc) "geometry") /\
  dictish (lookup (block_of doc) "cells").
Proof.
  intros Hshape. cbv zeta.
  unfold well_shaped, block_of, sub_dict, MESHING, BLOCK, GEOMETRY, CELLS in *.
  cbn -[lookup] in Hshape.
  destruct (lookup doc "meshing") as [[| | | | | |m]|]; try discriminate;
    cbn -[lookup]; auto.
  destruct (lookup m "blockMesh") as [[| | | | | |b]|]; try discriminate;
    cbn -[lookup]; auto.
  destruct (lookup b "geometry") as [[| | | | | |g]|]; try discriminate;
  destruct (lookup b "cells") as [[| | | | | |c]|]; try discriminate;
    cbn -[lookup]; auto.
  all: cbn; auto.
Qed.

Lemma with_sections_apart (doc g' c' : dict) (p : list string) :
  well_shaped doc = true ->
  same_outside GEOMETRY_FIELDS (geometry_of doc) g' ->
  same_outside CELLS_FIELDS (cells_of doc) c' ->
  apart p = true ->
  resolve (JObj (with_sections doc g' c')) p = resolve (JObj doc) p.
Proof.
  intros Hshape Hg Hc Hp.
  destruct (well_shaped_levels doc Hshape) as (L1 & L2 & L3 & L4).
  destruct p as [| k1 p1]; [discriminate |].
  unfold with_sections.
  destruct (String.eqb_spec k1 "meshing") as [-> | N1].
  2:{ cbn [resolve]. now rewrite lookup_store_other. }
  destruct p1 as [| k2 p2]; [discriminate |].
  rewrite (@resolve_step _ _ _ _ (lookup_store_same doc "meshing" _)).
  rewrite (@resolve_into doc "meshing" (k2 :: p2)) by (auto; discriminate).
  destruct (String.eqb_spec k2 "blockMesh") as [-> | N2].
  2:{ cbn [resolve]. now rewrite lookup_store_other. }
  destruct p2 as [| k3 p3]; [discriminate |].
  rewrite (@resolve_step _ _ _ _ (lookup_store_same _ "blockMesh" _)).
  rewrite (@resolve_into (sub_dict doc "meshing") "blockMesh" (k3 :: p3))
    by (auto; discriminate).
  fold (block_of doc).
  destruct (String.eqb_spec k3 "geometry") as [-> | N3].
  - destruct p3 as [| k4 p4]; [discriminate |].
    rewrite (@resolve_step (store (store (block_of doc) "geometry" (JObj g')) "cells" (JObj c'))
               "geometry" (k4 :: p4) (JObj g'))
      by (rewrite lookup_store_other by discriminate; apply lookup_store_same).
    rewrite (@resolve_into (block_of doc) "geometry" (k4 :: p4))
      by (auto; discriminate).
    fold (geometry_of doc). cbn [resolve].
    rewrite Hg; [reflexivity |].
    unfold apart, FIELDS, GEOMETRY_FIELDS, CELLS_FIELDS, GEOMETRY, CELLS in Hp.
    cbn in Hp. cbn. intros [<- | [<- | [<- | []]]]; cbn in Hp;
      rewrite ?andb_false_r in Hp; discriminate.
  - destruct (String.eqb_spec k3 "cells") as [-> | N4].
    + destruct p3 as [| k4 p4]; [discriminate |].
      rewrite (@resolve_step (store (store (block_of doc) "geometry" (JObj g')) "cells" (JObj c'))
                 "cells" (k4 :: p4) (JObj c'))
        by apply lookup_store_same.
      rewrite (@resolve_into (block_of doc) "cells" (k4 :: p4))
        by (auto; discriminate).
      fold (cells_of doc). cbn [resolve].
      rewrite Hc; [reflexivity |].
      unfold apart, FIELDS, GEOMETRY_FIELDS, CELLS_FIELDS, GEOMETRY, CELLS in Hp.
      cbn in Hp. cbn. intros [<- | []]; cbn in Hp;
        rewrite ?andb_false_r in Hp; discriminate.
    + cbn [resolve]. now rewrite !lookup_store_other by auto.
Qed.

End EnforcerFrame.

Section PreparedTemplate.

(** The template copy after the 2D branch. *)
Lemma apply_2D_sections (template_obj : dict) :
  well_shaped template_obj = true ->
  let g := geometry_of template_obj in
  let c := cells_of template_obj in
  let prepared := apply_dimension_mode_to_template template_obj (Some "2D_extruded") in
  exists g' c',
    prepared = with_sections template_obj g' c' /\
    lookup g' "dimension_mode" = Some (JStr "2D_extruded") /\
    lookup g' "thickness_2d_m" =
      Some (if is_number (get g "thickness_2d_m") then get g "thickness_2d_m"
            else if is_number (get g "height_m") then get g "height_m"
            else default_thickness) /\
    lookup c' "nz" =
      Some (if is_int (get c "nz")
            then py_max (JInt 2) (py_min (get c "nz") (JInt 10))
            else JInt 4).
Proof.
  intros Hshape g c prepared. subst prepared.
  unfold apply_dimension_mode_to_template.
  rewrite deep_copy_dict_id, normalize_2D, (@apply_setup _ "2D_extruded" Hshape).
  unfold skeleton, apply_branch. cbn [String.eqb Ascii.eqb Bool.eqb].
  fold g c.
  assert (Ht : get (store g "dimension_mode" (JStr "2D_extruded")) "thickness_2d_m"
               = get g "thickness_2d_m").
  { unfold get. now rewrite lookup_store_other by discriminate. }
  assert (Hheight : get (store g "dimension_mode" (JStr "2D_extruded")) "height_m"
                    = get g "height_m").
  { unfold get. now rewrite lookup_store_other by discriminate. }
  assert (Hnum : forall v, is_number (get g "thickness_2d_m") = true ->
                   lookup (store g "dimension_mode" v) "thickness_2d_m"
                   = Some (get g "thickness_2d_m")).
  { intros v. rewrite lookup_store_other by discriminate. unfold get.
    destruct (lookup g "thickness_2d_m"); [reflexivity | discriminate]. }
  destruct (is_number (get g "thickness_2d_m")) eqn:E0;
  [| destruct (is_number (get g "height_m")) eqn:E3];
  destruct (is_int (get c "nz")) eqn:E4.
  all: repeat (cbn [bind ret mut_monad lift attr_get negb snd];
               rewrite ?getitem_geometry, ?getitem_cells,
                 ?setitem_geometry, ?setitem_cells,
                 ?Ht, ?Hheight, ?E0, ?E3, ?E4;
               cbn [is_number is_int negb]).
  all: do 2 eexists; split; [reflexivity |].
  all: rewrite ?lookup_store_same, ?(Hnum _ eq_refl).
  all: repeat split.
  all: rewrite ?(@lookup_store_other _ "thickness_2d_m" "dimension_mode")
    by discriminate.
  all: apply lookup_store_same.
Qed.

End PreparedTemplate.

(** X10 ([enforce_dimension_mode]): on an intent whose meshing,
    blockMesh, geometry and cells members are dicts where present, and
    with a template whose two sections can be read, the enforcer assigns
    nothing but [dimension_mode], [thickness_2d_m] and [height_m] of the
    geometry and [nz] of the cells: every path that lies apart from
    these four members resolves as before. *)
Theorem enforce_dimension_mode_writes_only_its_fields
  (intent_obj template_obj : dict) (mode : option string) (tg tc : json)
  (p : list string) :
  well_shaped intent_obj = true ->
  template_section template_obj "geometry" = Ok tg ->
  template_section template_obj "cells" = Ok tc ->
  EnforcerSpec.apart p = true ->
  resolve (JObj (enforce_dimension_mode intent_obj mode template_obj)) p
  = resolve (JObj intent_obj) p.
Proof.
  intros Hshape Hg Hc Hp. unfold enforce_dimension_mode.
  destruct (normalize_dimension_mode mode) as [m |]; [| reflexivity].
  rewrite (@enforce_setup intent_obj template_obj m tg tc Hshape Hg Hc).
  unfold skeleton.
  destruct (@enforce_branch_within m tg tc intent_obj
              (store (geometry_of intent_obj) "dimension_mode" (JStr m))
              (cells_of intent_obj)) as (r & g' & c' & -> & Hg' & Hc').
  cbn [snd]. apply with_sections_apart; auto.
  eapply same_outside_trans.
  - apply (@same_outside_store EnforcerSpec.GEOMETRY_FIELDS _ "dimension_mode" (JStr m)).
    cbn. tauto.
  - eapply same_outside_more; [| exact Hg'].
    intros k. cbn. tauto.
Qed.

(** X11 ([enforce_dimension_mode]): under the same conditions the mode
    is written: after the call [geometry.dimension_mode] is the
    normalised mode, whatever stood there. *)
Theorem enforce_dimension_mode_writes_the_mode
  (intent_obj template_obj : dict) (mode : option string) (m : string)
  (tg tc : json) :
  well_shaped intent_obj = true ->
  template_section template_obj "geometry" = Ok tg ->
  template_section template_obj "cells" = Ok tc ->
  normalize_dimension_mode mode = Some m ->
  resolve (JObj (enforce_dimension_mode intent_obj mode template_obj))
          (GEOMETRY ++ ["dimension_mode"])
  = Some (JStr m).
Proof.
  intros Hshape Hg Hc Hm. unfold enforce_dimension_mode. rewrite Hm.
  rewrite (@enforce_setup intent_obj template_obj m tg tc Hshape Hg Hc).
  unfold skeleton.
  destruct (@enforce_branch_within m tg tc intent_obj
              (store (geometry_of intent_obj) "dimension_mode" (JStr m))
              (cells_of intent_obj)) as (r & g' & c' & -> & Hg' & Hc').
  cbn [snd]. rewrite with_sections_geometry, Hg'.
  - apply lookup_store_same.
  - cbn. intros [H | [H | []]]; discriminate.
Qed.

(** X12 ([enforce_dimension_mode], 2D branch): an [nz] of the intent
    that is an int is clamped into 1..10; the template is not consulted
    for it. *)
Theorem enforce_2D_clamps_intent_nz
  (intent_obj template_obj tg tc : dict) (nz : json) :
  well_shaped intent_obj = true ->
  template_section template_obj "geometry" = Ok (JObj tg) ->
  template_section template_obj "cells" = Ok (JObj tc) ->
  resolve (JObj intent_obj) NZ = Some nz ->
  is_int nz = true ->
  resolve (JObj (enforce_dimension_mode intent_obj (Some "2D_extruded") template_obj)) NZ
  = Some (JInt (Z.max 1 (Z.min (int_of nz) 10))).
Proof.
  intros Hshape Hg Hc Hnz Hint.
  destruct (@enforce_2D_sections intent_obj template_obj tg tc Hshape Hg Hc) as [_ H].
  unfold NZ in Hnz. rewrite resolve_cells in Hnz by assumption.
  unfold get in H. rewrite Hnz in H. rewrite Hint in H.
  rewrite H. f_equal. apply int_clamp; [assumption | lia].
Qed.

(** X13 ([enforce_dimension_mode], 2D branch): the thickness is a number
    after the call, and it is the intent's own when that was a number:
    the fallback chain runs only for a missing or non-numeric value. *)
Theorem enforce_2D_thickness_is_numeric
  (intent_obj template_obj tg tc : dict) :
  well_shaped intent_obj = true ->
  template_section template_obj "geometry" = Ok (JObj tg) ->
  template_section template_obj "cells" = Ok (JObj tc) ->
  let out := enforce_dimension_mode intent_obj (Some "2D_extruded") template_obj in
  exists t,
    resolve (JObj out) THICKNESS = Some t /\ is_number t = true /\
    (forall t0, resolve (JObj intent_obj) THICKNESS = Some t0 ->
                is_number t0 = true -> t = t0).
Proof.
  intros Hshape Hg Hc out. subst out.
  destruct (@enforce_2D_sections intent_obj template_obj tg tc Hshape Hg Hc) as [H _].
  eexists. split; [exact H |].
  unfold THICKNESS. rewrite resolve_geometry by assumption. unfold get.
  destruct (lookup (geometry_of intent_obj) "thickness_2d_m") as [t1 |].
  - destruct (is_number t1) eqn:E.
    + split; [exact E |]. now intros t0 [= ->].
    + split; [apply fallback_thickness_is_number |].
      intros t0 [= ->]. congruence.
  - cbn [is_number]. split; [apply fallback_thickness_is_number | discriminate].
Qed.

(** X14 ([enforce_dimension_mode], 3D branch): the height is a number
    after the call: the intent's own when that was a number, else the
    template's, else the intent's thickness, else 0.002; and no member
    of the cells is assigned. *)
Theorem enforce_3D_height_is_numeric
  (intent_obj template_obj tg : dict) (tc : json) :
  well_shaped intent_obj = true ->
  template_section template_obj "geometry" = Ok (JObj tg) ->
  template_section template_obj "cells" = Ok tc ->
  let g := geometry_of intent_obj in
  let out := enforce_dimension_mode intent_obj (Some "3D") template_obj in
  let chain :=
    if is_number (get g "height_m") then get g "height_m"
    else if is_number (get tg "height_m") then get tg "height_m"
    else if is_number (get g "thickness_2d_m") then get g "thickness_2d_m"
    else default_thickness in
  resolve (JObj out) HEIGHT = Some chain /\ is_number chain = true /\
  forall k, resolve (JObj out) (CELLS ++ [k]) = resolve (JObj intent_obj) (CELLS ++ [k]).
Proof.
  intros Hshape Hg Hc g out chain.
  destruct (@enforce_3D_sections intent_obj template_obj tg tc Hshape Hg Hc) as [H1 H2].
  split; [exact H1 |]. split; [| exact H2].
  subst chain.
  destruct (is_number (get g "height_m")) eqn:E0; [exact E0 |].
  destruct (is_number (get tg "height_m")) eqn:E1; [exact E1 |].
  destruct (is_number (get g "thickness_2d_m")) eqn:E2; [exact E2 | reflexivity].
Qed.


(** X16 (fast fill, [apply_dimension_mode_to_template] then
    [enforce_dimension_mode]): enforcing the 2D mode against the
    prepared copy of a well-shaped template leaves every well-shaped
    intent with a numeric thickness and an int [nz] between 1 and 10,
    whatever the intent held in the two members. *)
Theorem enforce_2D_against_prepared_template (intent_obj template_obj : dict) :
  well_shaped intent_obj = true ->
  well_shaped template_obj = true ->
  let prepared := apply_dimension_mode_to_template template_obj (Some "2D_extruded") in
  let out := enforce_dimension_mode intent_obj (Some "2D_extruded") prepared in
  exists t n,
    resolve (JObj out) THICKNESS = Some t /\ is_number t = true /\
    resolve (JObj out) NZ = Some (JInt n) /\ 1 <= n <= 10.
Proof.
  intros Hi Ht prepared out. subst out.
  destruct (@apply_2D_sections template_obj Ht) as (g' & c' & Hp & _ & _ & Hn).
  fold prepared in Hp. rewrite Hp.
  destruct (@enforce_2D_sections intent_obj (with_sections template_obj g' c') g' c'
              Hi (template_section_geometry _ _ _) (template_section_cells _ _ _))
    as [H1 H2].
  rewrite H1, H2.
  assert (Hnum : is_number
            (if is_number (get (geometry_of intent_obj) "thickness_2d_m")
             then get (geometry_of intent_obj) "thickness_2d_m"
             else fallback_thickness intent_obj g') = true).
  { destruct (is_number (get (geometry_of intent_obj) "thickness_2d_m")) eqn:E;
      [exact E | apply fallback_thickness_is_number]. }
  destruct (is_int (get (cells_of intent_obj) "nz")) eqn:E.
  - rewrite int_clamp by (auto; lia).
    do 2 eexists. repeat split; eauto; lia.
  - assert (Hget : get c' "nz"
                   = if is_int (get (cells_of template_obj) "nz")
                     then py_max (JInt 2)
                            (py_min (get (cells_of template_obj) "nz") (JInt 10))
                     else JInt 4)
      by (unfold get at 1; now rewrite Hn).
    rewrite Hget.
    destruct (is_int (get (cells_of template_obj) "nz")) eqn:E'.
    + rewrite int_clamp by (auto; lia). cbn [is_int].
      do 2 eexists. repeat split; eauto; lia.
    + cbn [is_int]. exists (if is_number (get (geometry_of intent_obj) "thickness_2d_m")
             then get (geometry_of intent_obj) "thickness_2d_m"
             else fallback_thickness intent_obj g'), 4.
      repeat split; auto; lia.
Qed.

(* ===================================================================== *)
(** ** TemplateMerger: further properties *)
(* ===================================================================== *)

Section MergeMore.

Lemma merge_step_is_store (dst : dict) (key : string) (value : json) :
  exists v, merge_step dst (key, value) = store dst key v /\
            (v = value \/
             exists sub, lookup dst key = Some (JObj sub) /\ is_dict value = true /\
                         v = JObj (_merge sub value)).
Proof.
  unfold merge_step.
  destruct value; try (eexists; split; [reflexivity | now left]).
  destruct (lookup dst key) as [[| | | | | | sub] |];
    try (eexists; split; [reflexivity | now left]).
  eexists. split; [reflexivity |]. right. eauto.
Qed.

Lemma merge_step_other (dst : dict) (key : string) (value : json) (k : string) :
  k <> key -> lookup (merge_step dst (key, value)) k = lookup dst k.
Proof.
  intros Hne. destruct (merge_step_is_store dst key value) as (v & -> & _).
  now apply lookup_store_other.
Qed.

Lemma merge_loop_other (items dst : dict) (k : string) :
  lookup items k = None ->
  lookup (fold_left merge_step items dst) k = lookup dst k.
Proof.
  revert dst. induction items as [| [key value] rest IH]; intros dst H;
    [reflexivity |].
  cbn [lookup] in H. destruct (String.eqb_spec key k) as [-> | Hne];
    [discriminate |].
  cbn [fold_left]. rewrite IH by assumption.
  apply merge_step_other. congruence.
Qed.

Lemma unique_keys_cons (key : string) (value : json) (rest : dict) :
  unique_keys (JObj ((key, value) :: rest)) = true ->
  lookup rest key = None /\ unique_keys value = true /\
  unique_keys (JObj rest) = true.
Proof.
  cbn [unique_keys map fst distinct forallb snd]. intros H.
  apply andb_true_iff in H as [Hd Hall].
  apply andb_true_iff in Hd as [Hfresh Hd].
  apply andb_true_iff in Hall as [Hv Hall].
  apply negb_true_iff in Hfresh.
  split; [now apply lookup_none_not_key |].
  split; [assumption |]. cbn [unique_keys]. now rewrite Hd, Hall.
Qed.

Lemma merge_loop_wins (items : dict) :
  Forall (fun kv =>
            unique_keys (snd kv) = true ->
            forall dst p v, p <> [] ->
              resolve (snd kv) p = Some v -> is_dict v = false ->
              resolve (JObj (_merge dst (snd kv))) p = Some v) items ->
  unique_keys (JObj items) = true ->
  forall dst k p v,
    resolve (JObj items) (k :: p) = Some v -> is_dict v = false ->
    resolve (JObj (fold_left merge_step items dst)) (k :: p) = Some v.
Proof.
  induction 1 as [| [key value] rest Hhead _ IH]; intros Huniq dst k p v Hres Hv.
  - discriminate.
  - destruct (unique_keys_cons _ _ _ Huniq) as (Hfresh & Hval & Hrest).
    cbn [fold_left]. cbn [snd] in Hhead.
    cbn [resolve lookup] in Hres.
    destruct (String.eqb_spec key k) as [-> | Hne].
    + (* the member at [k] is written in this turn and left alone after *)
      cbn [resolve]. rewrite merge_loop_other by assumption.
      destruct (merge_step_is_store dst k value) as (w & -> & Hw).
      rewrite lookup_store_same.
      destruct p as [| k2 p2].
      * cbn [resolve] in *. injection Hres as ->.
        destruct Hw as [-> | (sub & _ & Hd & _)]; [reflexivity | congruence].
      * destruct Hw as [-> | (sub & _ & _ & ->)]; [exact Hres |].
        apply Hhead; auto; discriminate.
    + apply IH; auto.
Qed.

Lemma _merge_wins (src : json) :
  unique_keys src = true ->
  forall dst p v, p <> [] ->
    resolve src p = Some v -> is_dict v = false ->
    resolve (JObj (_merge dst src)) p = Some v.
Proof.
  induction src as [| | | | | l IH | d IH] using json_ind;
    intros Hu dst p v Hp Hres Hv;
    try (destruct p; [congruence | discriminate]).
  rewrite _merge_obj. destruct p as [| k p]; [congruence |].
  apply merge_loop_wins; auto.
Qed.

(** The keys of a dict after an assignment. *)
Lemma keys_store (d : dict) (k : string) (v : json) :
  map fst (store d k v)
  = (map fst d ++ (if has_key d k then [] else [k]))%list.
Proof.
  unfold has_key. induction d as [| [k0 v0] d IH]; cbn [store map fst lookup app];
    [reflexivity |].
  destruct (String.eqb_spec k0 k) as [-> | Hne]; cbn [map fst].
  - now rewrite app_nil_r.
  - now rewrite IH.
Qed.


Lemma merge_loop_keys (items dst : dict) :
  exists added,
    map fst (fold_left merge_step items dst) = (map fst dst ++ added)%list /\
    forall k, In k added -> has_key dst k = false /\ has_key items k = true.
Proof.
  revert dst. induction items as [| [key value] rest IH]; intros dst.
  - exists []. split; [now rewrite app_nil_r | contradiction].
  - cbn [fold_left].
    destruct (IH (merge_step dst (key, value))) as (added & Hkeys & Hadded).
    destruct (merge_step_is_store dst key value) as (w & Hw & _).
    rewrite Hw in *. rewrite keys_store in Hkeys.
    exists ((if has_key dst key then [] else [key]) ++ added)%list.
    split; [now rewrite Hkeys, app_assoc |].
    intros k Hin. apply in_app_or in Hin as [Hin | Hin].
    + destruct (has_key dst key) eqn:E; [contradiction |].
      destruct Hin as [<- | []]. split; [exact E |].
      unfold has_key. cbn [lookup]. now rewrite String.eqb_refl.
    + destruct (Hadded k Hin) as [H1 H2].
      assert (Hne : k <> key).
      { intros ->. unfold has_key in H1. now rewrite lookup_store_same in H1. }
      split.
      * unfold has_key in *. now rewrite lookup_store_other in H1.
      * unfold has_key in *. cbn [lookup].
        destruct (String.eqb key k); [reflexivity | exact H2].
Qed.



Lemma unique_keys_lookup (d : dict) (k : string) (v : json) :
  unique_keys (JObj d) = true -> lookup d k = Some v -> unique_keys v = true.
Proof.
  cbn [unique_keys]. intros Hd. apply andb_true_iff in Hd as [_ Hvals].
  induction d as [| [k0 v0] d IH]; cbn [lookup forallb snd] in *; [discriminate |].
  apply andb_true_iff in Hvals as [H0 Hvals].
  destruct (String.eqb k0 k); [now intros [= <-] | auto].
Qed.


(** The member under a key after the loop, when the keys of the
    overrides are unique. *)
Lemma merge_loop_lookup (items : dict) :
  unique_keys (JObj items) = true ->
  forall dst k,
    lookup (fold_left merge_step items dst) k
    = match lookup items k with
      | None => lookup dst k
      | Some value =>
          match value, lookup dst k with
          | JObj _, Some (JObj sub) => Some (JObj (_merge sub value))
          | _, _ => Some value
          end
      end.
Proof.
  induction items as [| [key value] rest IH]; intros Hu dst k; [reflexivity |].
  destruct (unique_keys_cons _ _ _ Hu) as (Hfresh & _ & Hrest).
  cbn [fold_left lookup].
  destruct (String.eqb_spec key k) as [-> | Hne].
  - rewrite merge_loop_other by assumption. unfold merge_step.
    destruct value; try apply lookup_store_same.
    destruct (lookup dst k) as [[] |]; apply lookup_store_same.
  - rewrite IH by assumption. rewrite merge_step_other by congruence.
    reflexivity.
Qed.

Lemma merge_lookup (T members : dict) (k : string) :
  unique_keys (JObj members) = true ->
  lookup (merge_with_template T (JObj members)) k
  = match lookup members k with
    | None => lookup T k
    | Some value =>
        match value, lookup T k with
        | JObj _, Some (JObj sub) => Some (JObj (merge_with_template sub value))
        | _, _ => Some value
        end
    end.
Proof.
  intros Hu. rewrite merge_with_template_obj, merge_loop_lookup by assumption.
  destruct (lookup members k) as [value |]; [| reflexivity].
  destruct value; try reflexivity.
  destruct (lookup T k) as [[] |]; try reflexivity.
  unfold merge_with_template. cbn [is_dict negb]. now rewrite deep_copy_dict_id.
Qed.

End MergeMore.

(** X17 ([merge_with_template]): the merge is pointwise.  Under a key
    that the overrides lack the result has what the template has; under
    a key where the overrides and the template both hold a dict it has
    the merge of the two; under any other key of the overrides it has
    the override's value. *)
Theorem merge_member_by_member (T members : dict) (k : string) :
  unique_keys (JObj members) = true ->
  lookup (merge_with_template T (JObj members)) k
  = match lookup members k with
    | None => lookup T k
    | Some value =>
        match value, lookup T k with
        | JObj _, Some (JObj sub) => Some (JObj (merge_with_template sub value))
        | _, _ => Some value
        end
    end.
Proof. apply merge_lookup. Qed.

(** X18 ([merge_with_template]): the overrides win: a value of the
    overrides that is not a dict stands in the result at the same path,
    whatever the template holds there. *)
Theorem merge_override_value_wins (T : dict) (O : json) (p : list string)
  (v : json) :
  unique_keys O = true ->
  p <> [] ->
  resolve O p = Some v ->
  is_dict v = false ->
  resolve (JObj (merge_with_template T O)) p = Some v.
Proof.
  intros Hu Hp Hres Hv.
  destruct O as [| | | | | | members];
    try (destruct p; [congruence | discriminate]).
  unfold merge_with_template. cbn [is_dict negb]. rewrite deep_copy_dict_id.
  now apply _merge_wins.
Qed.

(** X19 ([merge_with_template]): the keys of the template stay first and
    in their order; the keys the merge adds come behind them, and each
    is a key of the overrides that the template lacks. *)
Theorem merge_keeps_template_key_order (T : dict) (O : json) :
  exists added,
    map fst (merge_with_template T O) = (map fst T ++ added)%list /\
    forall k, In k added -> has_key T k = false /\ resolve O [k] <> None.
Proof.
  destruct O as [| | | | | | members];
    try (exists []; unfold merge_with_template; cbn [is_dict negb];
         rewrite deep_copy_dict_id, app_nil_r; split; [reflexivity | contradiction]).
  rewrite merge_with_template_obj.
  destruct (merge_loop_keys members T) as (added & Hkeys & Hadded).
  exists added. split; [exact Hkeys |].
  intros k Hin. destruct (Hadded k Hin) as [H1 H2]. split; [exact H1 |].
  cbn [resolve]. unfold has_key in H2.
  destruct (lookup members k); [discriminate | discriminate].
Qed.


(* ===================================================================== *)
(** ** ParameterCollector and string lists: further properties *)
(* ===================================================================== *)

Section CollectorMore.

Variable repr : json -> string.






End CollectorMore.



(* ===================================================================== *)
(** ** Job identifiers and storage: properties *)
(* ===================================================================== *)

Section JobIdFacts.

Import JobIdSpec.

Lemma all_chars_app p a b :
  all_chars p (a ++ b) = all_chars p a && all_chars p b.
Proof.
  induction a as [| c a IH]; cbn [append all_chars]; [reflexivity |].
  now rewrite IH, andb_assoc.
Qed.

Lemma sanitize_byte_safe c : all_chars safe_char (sanitize_byte c) = true.
Proof.
  assert (Hsafe : sanitize_byte c
                  = if safe_char c then String c EmptyString
                    else if (128 <=? Z.of_nat (nat_of_ascii c))
                            && (Z.of_nat (nat_of_ascii c) <? 192)
                         then EmptyString else "-") by reflexivity.
  rewrite Hsafe. destruct (safe_char c) eqn:E.
  - cbn [all_chars]. now rewrite E.
  - destruct (_ && _); reflexivity.
Qed.

Lemma sanitize_safe s : all_chars safe_char (sanitize s) = true.
Proof.
  induction s as [| c s IH]; cbn [sanitize]; [reflexivity |].
  now rewrite all_chars_app, sanitize_byte_safe, IH.
Qed.

Lemma lstrip_dash_step c rest :
  lstrip_dash (String c rest)
  = if Ascii.eqb c "-" then lstrip_dash rest else String c rest.
Proof.
  destruct c as [[] [] [] [] [] [] [] []]; reflexivity.
Qed.

Lemma lstrip_dash_chars p s :
  all_chars p s = true -> all_chars p (lstrip_dash s) = true.
Proof.
  induction s as [| c s IH]; [auto |]. rewrite lstrip_dash_step.
  cbn [all_chars]. intros H. apply andb_true_iff in H as [Hc Hs].
  destruct (Ascii.eqb c "-"); [auto |]. cbn [all_chars]. now rewrite Hc, Hs.
Qed.

Lemma lstrip_dash_head s : starts_with "-" (lstrip_dash s) = false.
Proof.
  induction s as [| c s IH]; [reflexivity |]. rewrite lstrip_dash_step.
  destruct (Ascii.eqb c "-") eqn:E; [exact IH | exact E].
Qed.

Lemma rstrip_dash_chars p s :
  all_chars p s = true -> all_chars p (rstrip_dash s) = true.
Proof.
  induction s as [| c s IH]; [auto |]. cbn [rstrip_dash all_chars].
  intros H. apply andb_true_iff in H as [Hc Hs].
  destruct (Ascii.eqb c "-" && (rstrip_dash s =? "")%string); [reflexivity |].
  cbn [all_chars]. now rewrite Hc, IH.
Qed.

Lemma rstrip_dash_head c s :
  starts_with c s = false -> starts_with c (rstrip_dash s) = false.
Proof.
  destruct s as [| x s]; [auto |]. cbn [rstrip_dash].
  destruct (Ascii.eqb x "-" && (rstrip_dash s =? "")%string); auto.
Qed.

Lemma prefix_chars p n s :
  all_chars p s = true -> all_chars p (String.substring 0 n s) = true.
Proof.
  revert s. induction n as [| n IH]; intros [| c s]; cbn [String.substring all_chars];
    auto.
  intros H. apply andb_true_iff in H as [Hc Hs]. now rewrite Hc, IH.
Qed.

Lemma prefix_head c n s :
  starts_with c s = false -> starts_with c (String.substring 0 n s) = false.
Proof. destruct n, s; cbn [String.substring starts_with]; auto. Qed.

Lemma prefix_length n s :
  (String.length (String.substring 0 n s) <= n)%nat /\
  (s <> "" -> (0 < n)%nat -> (1 <= String.length (String.substring 0 n s))%nat).
Proof.
  revert s. induction n as [| n IH]; intros [| c s];
    cbn [String.substring String.length]; try (split; [lia | intros; try lia; congruence]).
  destruct (IH s) as [H _]. split; [lia | intros; lia].
Qed.

Lemma nonempty_not_empty s : nonempty s = true -> s <> "".
Proof. unfold nonempty. intros H ->. discriminate. Qed.

End JobIdFacts.

(** X23 ([normalize_job_id]): the identifier is either the generated one
    or a text of 1 to 120 characters of the class [0-9A-Za-z_-] that
    does not start with a dash; in particular it holds no path
    separator and no dot. *)
Theorem normalize_job_id_shape (W : World) (raw : json) :
  let job_id := normalize_job_id W raw in
  job_id = fresh_job_id W \/
  (JobIdSpec.all_chars JobIdSpec.safe_char job_id = true /\
   (1 <= String.length job_id <= 120)%nat /\
   JobIdSpec.starts_with "-" job_id = false).
Proof.
  cbv zeta. unfold normalize_job_id.
  set (value := stripped (repr W) raw).
  set (sanitized := rstrip_dash (lstrip_dash (sanitize value))).
  destruct (nonempty value && nonempty sanitized) eqn:E; [| now left].
  right. apply andb_true_iff in E as [_ Hne].
  split; [| split].
  - apply prefix_chars, rstrip_dash_chars, lstrip_dash_chars, sanitize_safe.
  - destruct (prefix_length 120 sanitized) as [H1 H2].
    split; [| exact H1]. apply H2; [now apply nonempty_not_empty | lia].
  - apply prefix_head, rstrip_dash_head, lstrip_dash_head.
Qed.

(** X24 ([save_intent_with_job_directory]): the document that is written
    and returned is the intent with [job_meta.job_id] set to the
    identifier it is stored under; the other members of the intent and,
    when [job_meta] was a dict, its other members are unchanged; one
    file is written, and none when the write fails. *)
Theorem save_intent_stores_under_its_job_id (W : World) (intent : dict) :
  let job_meta := dict_or_empty (get intent "job_meta") in
  let job_id := normalize_job_id W (get job_meta "job_id") in
  match save_intent_with_job_directory W intent with
  | (Ok (saved, returned_id), calls) =>
      returned_id = job_id /\
      calls = [IntentFileWrite job_id saved] /\
      resolve (JObj saved) ["job_meta"; "job_id"] = Some (JStr job_id) /\
      (forall k, k <> "job_meta" -> lookup saved k = lookup intent k) /\
      (forall k, k <> "job_id" ->
                 resolve (JObj saved) ["job_meta"; k] = lookup job_meta k)
  | (Raise e, calls) =>
      calls = [] /\ exists doc, write_intent_file W job_id doc = Raise e
  end.
Proof.
  cbv zeta. unfold save_intent_with_job_directory. rewrite deep_copy_dict_id.
  destruct (write_intent_file W _ _) eqn:Hw; cbn [call raise].
  - split; [reflexivity |]. split; [reflexivity |]. split; [| split].
    + cbn [resolve]. rewrite lookup_store_same. now rewrite lookup_store_same.
    + intros k Hk. now apply lookup_store_other.
    + intros k Hk. cbn [resolve]. rewrite lookup_store_same.
      rewrite lookup_store_other by assumption.
      now destruct (lookup _ k).
  - split; [reflexivity |]. eauto.
Qed.

(* ===================================================================== *)
(** ** SchemaValidator: sorted input *)
(* ===================================================================== *)

Section SortMore.

Lemma sorted_by_path_fixed (l : list ValidationError) :
  Sorted not_after l -> sorted_by_path l = Ok l.
Proof.
  induction 1 as [| e l Hs IH Hhd]; [reflexivity |].
  cbn [sorted_by_path]. rewrite IH. cbn [bind result_monad].
  destruct Hhd as [| y l' Hy]; [reflexivity |].
  cbn [insert_by_path]. unfold not_after in Hy. rewrite Hy. reflexivity.
Qed.

End SortMore.

(** X25 ([schema_validate]): errors that the validator yields in path
    order already are returned as they are, so errors at one path keep
    the validator's order; and for errors located in the instance the
    result is a fixed point of the sort. *)
Theorem schema_validate_keeps_sorted_errors
  (iter_errors : json -> json -> list ValidationError) (instance schema : json) :
  (Sorted not_after (iter_errors schema instance) ->
   schema_validate iter_errors instance schema = Ok (iter_errors schema instance)) /\
  (Forall (fun e => locates instance (err_path e) = true)
          (iter_errors schema instance) ->
   exists errors,
     schema_validate iter_errors instance schema = Ok errors /\
     sorted_by_path errors = Ok errors).
Proof.
  unfold schema_validate. split.
  - apply sorted_by_path_fixed.
  - intros Hloc.
    destruct (@sorted_by_path_sorted instance _ Hloc) as (errors & H & _ & Hs).
    exists errors. split; [exact H | now apply sorted_by_path_fixed].
Qed.

(* ===================================================================== *)
(** ** Shapes under the merge *)
(* ===================================================================== *)

Section ShapeFacts.

Import ShapeSpec.

Lemma well_shaped_shaped (doc : dict) : well_shaped doc = true <-> shaped doc.
Proof.
  unfold well_shaped, shaped, meshing_shaped, block_shaped, dictish,
    MESHING, BLOCK, GEOMETRY, CELLS.
  cbn -[lookup].
  destruct (lookup doc "meshing") as [[| | | | | |m]|]; cbn -[lookup];
    try (split; [discriminate | tauto || contradiction]); try tauto.
  destruct (lookup m "blockMesh") as [[| | | | | |b]|]; cbn -[lookup];
    try (split; [discriminate | tauto || contradiction]); try tauto.
  destruct (lookup b "geometry") as [[| | | | | |g]|];
  destruct (lookup b "cells") as [[| | | | | |c]|]; cbn -[lookup];
    try (split; [discriminate | tauto]); tauto.
Qed.

Lemma dictish_merge (Q : dict -> Prop) (T O : dict) (k : string) :
  unique_keys (JObj O) = true ->
  dictish Q (lookup T k) -> dictish Q (lookup O k) ->
  (forall tm om, Q tm -> Q om -> unique_keys (JObj om) = true ->
                 Q (merge_with_template tm (JObj om))) ->
  dictish Q (lookup (merge_with_template T (JObj O)) k).
Proof.
  intros Hu HT HO Hrec. rewrite merge_lookup by assumption.
  destruct (lookup O k) as [v |] eqn:EO; [| exact HT].
  pose proof (unique_keys_lookup O k Hu EO) as Hv.
  destruct v; try contradiction.
  destruct (lookup T k) as [[] |]; try contradiction; cbn [dictish] in *; auto.
Qed.

Lemma merge_shaped (T O : dict) :
  unique_keys (JObj O) = true -> shaped T -> shaped O ->
  shaped (merge_with_template T (JObj O)).
Proof.
  intros Hu HT HO. unfold shaped. apply dictish_merge; auto.
  clear. intros tm om Htm Hom Hu. unfold meshing_shaped in *.
  apply dictish_merge; auto.
  clear. intros tb ob [Ht1 Ht2] [Ho1 Ho2] Hu. split; apply dictish_merge; auto.
Qed.

Lemma shaped_same_meshing (d d' : dict) :
  lookup d' "meshing" = lookup d "meshing" -> shaped d -> shaped d'.
Proof. unfold shaped. now intros ->. Qed.

Lemma with_sections_well_shaped (doc g c : dict) :
  well_shaped doc = true -> well_shaped (with_sections doc g c) = true.
Proof.
  intros H. apply well_shaped_shaped. unfold shaped, with_sections.
  rewrite lookup_store_same. cbn [dictish]. unfold meshing_shaped.
  rewrite lookup_store_same. cbn [dictish]. unfold block_shaped.
  rewrite lookup_store_other by discriminate.
  rewrite !lookup_store_same. cbn [dictish]. auto.
Qed.

End ShapeFacts.

(* ===================================================================== *)
(** ** The routes: further properties *)
(* ===================================================================== *)

Section RouteMore.

Variable W : World.

Lemma validation_valid (intent : dict) (schema_doc : json) (v : dict) :
  validation W intent schema_doc = Ok v ->
  truthy (get v "valid") = true ->
  schema_validate (iter_errors W) (JObj intent) schema_doc = Ok [].
Proof.
  unfold validation.
  destruct (schema_validate (iter_errors W) (JObj intent) schema_doc) as [errors | e];
    cbn [bind result_monad ret]; [| discriminate].
  intros [= <-]. rewrite valid_flag. now destruct errors.
Qed.

Lemma validation_invalid (intent : dict) (schema_doc : json) (v : dict) :
  validation W intent schema_doc = Ok v ->
  truthy (get v "valid") = false ->
  exists errors,
    schema_validate (iter_errors W) (JObj intent) schema_doc = Ok errors /\
    errors <> [] /\ get v "issues" = JArr (map format_issue errors).
Proof.
  unfold validation.
  destruct (schema_validate (iter_errors W) (JObj intent) schema_doc) as [errors | e];
    cbn [bind result_monad ret]; [| discriminate].
  intros [= <-]. rewrite valid_flag. exists errors.
  destruct errors; [discriminate |]. repeat split; congruence.
Qed.

Lemma registry_get_member (slug : string) (meta : profile_meta) :
  registry_get slug = Some meta ->
  (meta = MESH_V1 \/ meta = OPENFOAM_BMESH_V1) /\ key meta = slug.
Proof.
  unfold registry_get. intros H. apply find_some in H as [Hin Hk].
  apply String.eqb_eq in Hk. split; [| exact Hk].
  destruct Hin as [<- | [<- | []]]; auto.
Qed.

Lemma by_name_get_member (name : json) (meta : profile_meta) :
  by_name_get name = Ok (Some meta) ->
  (meta = with_slug MESH_V1 \/ meta = with_slug OPENFOAM_BMESH_V1) /\
  name = JStr (profile meta).
Proof.
  unfold by_name_get. destruct name as [| | | | name | |]; try discriminate.
  intros H.
  assert (H' : find (fun m => (profile m =? name)%string) PROFILE_BY_NAME
               = Some meta) by congruence.
  clear H. apply find_some in H' as [Hin Hk].
  apply String.eqb_eq in Hk. split; [| now rewrite Hk].
  destruct Hin as [<- | [<- | []]]; auto.
Qed.

Lemma resolve_profile_member (req : SaveIntentRequest) (meta : profile_meta) :
  resolve_profile req = Ok (Some meta) ->
  meta = MESH_V1 \/ meta = OPENFOAM_BMESH_V1 \/
  meta = with_slug MESH_V1 \/ meta = with_slug OPENFOAM_BMESH_V1.
Proof.
  unfold resolve_profile.
  destruct (match sv_profile_slug req with
            | Some s => if nonempty s then registry_get s else None
            | None => None
            end) as [m |] eqn:E.
  - intros [= <-]. destruct (sv_profile_slug req) as [s |]; [| discriminate].
    destruct (nonempty s); [| discriminate].
    apply registry_get_member in E. tauto.
  - destruct (truthy _); [| discriminate].
    intros H. apply by_name_get_member in H. tauto.
Qed.

Lemma reported_slug_registered (requested : option string) (meta : profile_meta) :
  meta = MESH_V1 \/ meta = OPENFOAM_BMESH_V1 \/
  meta = with_slug MESH_V1 \/ meta = with_slug OPENFOAM_BMESH_V1 ->
  reported_slug requested meta
  = match requested with
    | Some s => if nonempty s then s else key meta
    | None => key meta
    end.
Proof.
  intros [-> | [-> | [-> | ->]]]; destruct requested as [s |]; try reflexivity;
    unfold reported_slug; destruct (nonempty s) eqn:E; cbn; rewrite ?E; reflexivity.
Qed.

Lemma fill_review_calls req meta schema_doc fi di dov r calls :
  fill_review W req meta schema_doc fi di dov = (r, calls) ->
  calls = [] \/
  (calls = [ReviewerCall fi] /\
   schema_validate (iter_errors W) (JObj fi) schema_doc = Ok []).
Proof.
  unfold fill_review, validation.
  destruct (schema_validate (iter_errors W) (JObj fi) schema_doc) as [errors | e] eqn:Hv;
    cbn [bind result_monad route_monad pure ret]; [| intros [= _ <-]; now left].
  rewrite valid_flag. destruct errors as [| e0 rest]; cbn [negb].
  - destruct (call_reasoner_review W fi meta schema_doc) as [answer | e];
      cbn [bind route_monad call].
    + destruct (schema_validate (iter_errors W)
                  (JObj (reviewed_intent meta fi answer)) schema_doc) as [errors | e];
        cbn [bind result_monad route_monad pure ret];
        [| intros [= _ <-]; right; auto].
      destruct (build_multilayer_summary _ _ _ _ _ _);
        cbn [bind route_monad pure ret app]; intros [= _ <-]; right; auto.
    + destruct (build_multilayer_summary _ _ _ _ _ _);
        cbn [bind route_monad pure ret app]; intros [= _ <-]; right; auto.
  - destruct (build_multilayer_summary _ _ _ _ _ _);
      cbn [bind route_monad pure ret app]; intros [= _ <-]; now left.
Qed.

Lemma fill_collect_shape req meta template_obj r calls :
  fill_collect W req meta template_obj = (r, calls) ->
  (calls = [] /\ client_intent req <> None) \/
  (calls = [CollectorCall (user_request req) template_obj] /\
   client_intent req = None).
Proof.
  unfold fill_collect. destruct (client_intent req).
  - intros [= _ <-]. left. split; [reflexivity | discriminate].
  - destruct (call_llm_collect_parameters W _ _ _);
      cbn [bind route_monad call ret].
    + destruct (normalize_missing_parameters _ _);
        cbn [ret route_monad]; intros [= _ <-]; right; auto.
    + intros [= _ <-]. right. auto.
Qed.

Lemma fill_collect_halt req meta template_obj response calls :
  fill_collect W req meta template_obj = (Ok (Halt response), calls) ->
  pipeline_status_of response = JStr "needs_parameters" /\
  exists missing, missing <> [] /\
                  get response "missing_parameters" = JArr missing.
Proof.
  unfold fill_collect. destruct (client_intent req); [discriminate |].
  destruct (call_llm_collect_parameters W _ _ _);
    cbn [bind route_monad call ret]; [| discriminate].
  destruct (normalize_missing_parameters _ _) as [| m ms] eqn:E;
    cbn [ret route_monad]; [discriminate |].
  intros [= <- _]. unfold pipeline_status_of.
  rewrite !get_with_defaults by discriminate. split; [reflexivity |].
  eexists. split; [| reflexivity]. discriminate.
Qed.

End RouteMore.

(** X26 ([intent_save]): a file is written only for an intent that
    passed validation.  Either nothing is written, and a response then
    has status 400 and the validator's issues; or the response has
    status 200, exactly one file is written, the intent that was
    validated (the request's, with the profile forced and the job
    metadata merged) has no validation error, and the written document
    is the returned one and differs from the validated one in
    [job_meta] only. *)
Theorem intent_save_writes_only_valid_intents (W : World)
  (req : SaveIntentRequest) (r : result response) (calls : list event) :
  intent_save W req = (r, calls) ->
  (calls = [] /\
   forall resp, r = Ok resp ->
     status_code resp = 400 /\ get (content resp) "valid" = JBool false /\
     exists issues, issues <> [] /\ get (content resp) "issues" = JArr issues) \/
  (exists meta schema_doc saved job_id resp,
     r = Ok resp /\ status_code resp = 200 /\
     calls = [IntentFileWrite job_id saved] /\
     resolve_profile req = Ok (Some meta) /\
     load_json W (schema meta) = Ok schema_doc /\
     let validated :=
       merge_job_meta (store (sv_intent req) "profile" (JStr (profile meta)))
                      (sv_job_meta req) in
     schema_validate (iter_errors W) (JObj validated) schema_doc = Ok [] /\
     (forall k, k <> "job_meta" -> lookup saved k = lookup validated k) /\
     get (content resp) "intent" = JObj saved /\
     get (content resp) "job_id" = JStr job_id).
Proof.
  unfold intent_save.
  destruct (resolve_profile req) as [[meta |] | e] eqn:Hm;
    cbn [pure bind route_monad];
    try (intros [= <- <-]; left; split; [reflexivity | discriminate]).
  destruct (load_json W (schema meta)) as [s | e] eqn:Hs; cbn [files_or_500].
  2:{ destruct (is_file_not_found e); intros [= <- <-]; left;
        (split; [reflexivity | discriminate]). }
  cbn [bind route_monad ret]. rewrite deep_copy_dict_id.
  set (validated := merge_job_meta _ _).
  destruct (validation W validated s) as [v | e] eqn:Hv;
    cbn [pure bind route_monad];
    [| intros [= <- <-]; left; split; [reflexivity | discriminate]].
  destruct (truthy (get v "valid")) eqn:Hvalid; cbn [negb ret route_monad].
  - unfold save_intent_with_job_directory. rewrite deep_copy_dict_id.
    destruct (write_intent_file W _ _); cbn [call raise bind route_monad ret].
    + intros [= <- <-]. right. do 5 eexists.
      split; [reflexivity |]. split; [reflexivity |]. split; [reflexivity |].
      split; [reflexivity |]. split; [exact Hs |]. cbv zeta.
      split; [exact (validation_valid W _ _ Hv Hvalid) |].
      split; [| split; reflexivity].
      intros k Hk. now apply lookup_store_other.
    + intros [= <- <-]. left. split; [reflexivity | discriminate].
  - intros [= <- <-]. left. split; [reflexivity |].
    intros resp [= <-]. cbn [status_code content].
    split; [reflexivity |]. split; [reflexivity |].
    destruct (validation_invalid W _ _ Hv Hvalid) as (errors & _ & Hne & Hi).
    exists (map format_issue errors). split.
    + destruct errors; [congruence | discriminate].
    + exact Hi.
Qed.

(** X27 ([intent_save]): the [profile_slug] of a successful response is
    the slug of the request when that is not empty, even when no
    profile is registered under it and the profile was found through
    [intent.profile]; else it is the slug the resolved profile is
    registered under.  The default slug is never needed. *)
Theorem intent_save_reported_slug (W : World)
  (req : SaveIntentRequest) (resp : response) (calls : list event) :
  intent_save W req = (Ok resp, calls) ->
  status_code resp = 200 ->
  exists meta,
    resolve_profile req = Ok (Some meta) /\
    registry_get (key meta) <> None /\
    get (content resp) "profile_slug"
    = JStr (match sv_profile_slug req with
            | Some s => if nonempty s then s else key meta
            | None => key meta
            end).
Proof.
  unfold intent_save.
  destruct (resolve_profile req) as [[meta |] | e] eqn:Hm;
    cbn [pure bind route_monad]; try discriminate.
  destruct (load_json W (schema meta)) as [s | e]; cbn [files_or_500].
  2:{ destruct (is_file_not_found e); discriminate. }
  cbn [bind route_monad ret].
  destruct (validation W _ s) as [v | e]; cbn [pure bind route_monad];
    [| discriminate].
  destruct (negb (truthy (get v "valid"))); cbn [ret route_monad].
  { intros [= <- _] H. discriminate H. }
  unfold save_intent_with_job_directory.
  destruct (write_intent_file W _ _);
    cbn [call raise bind route_monad ret]; [| discriminate].
  intros [= <- _] _. exists meta. split; [reflexivity |].
  pose proof (resolve_profile_member req Hm) as Hmem.
  split.
  - destruct Hmem as [-> | [-> | [-> | ->]]]; discriminate.
  - cbn [content]. rewrite (reported_slug_registered _ Hmem). reflexivity.
Qed.

(** X28 ([intent_fill]): the calls of a request, whatever its outcome:
    at most one call of the collector, made only when the request
    carries no client intent, then at most one call of the reviewer,
    made only on an intent that passed the initial validation against
    the profile's schema. *)
Theorem intent_fill_call_discipline (W : World) (req : FillRequest)
  (r : result dict) (calls : list event) :
  intent_fill W req = (r, calls) ->
  exists collector_calls reviewer_calls,
    calls = (collector_calls ++ reviewer_calls)%list /\
    (collector_calls = [] \/
     (client_intent req = None /\
      exists template_obj,
        collector_calls = [CollectorCall (user_request req) template_obj])) /\
    (reviewer_calls = [] \/
     exists meta schema_doc intent,
       registry_get (profile_slug req) = Some meta /\
       load_json W (schema meta) = Ok schema_doc /\
       reviewer_calls = [ReviewerCall intent] /\
       schema_validate (iter_errors W) (JObj intent) schema_doc = Ok []).
Proof.
  unfold intent_fill.
  destruct (registry_get (profile_slug req)) as [meta |] eqn:Hmeta.
  2:{ intros [= _ <-]. exists [], []. auto. }
  destruct (if use_template req then load_json W (template meta) else Ok (JObj []))
    as [t | e]; cbn [bind result_monad].
  2:{ cbn [files_or_500]. destruct (is_file_not_found e);
        intros [= _ <-]; exists [], []; auto. }
  destruct (load_json W (schema meta)) as [s | e] eqn:Hs; cbn [bind result_monad ret].
  2:{ cbn [files_or_500]. destruct (is_file_not_found e);
        intros [= _ <-]; exists [], []; auto. }
  cbn [files_or_500 ret route_monad bind fst snd app].
  destruct (fill_collect W req meta (dict_or_empty t)) as [[stage | e] calls0] eqn:Hc.
  2:{ intros [= _ <-]. exists calls0, []. rewrite app_nil_r.
      split; [reflexivity |]. split; [| now left].
      destruct (fill_collect_shape _ _ _ _ Hc) as [[-> _] | [-> Hn]]; eauto. }
  assert (Hcoll : calls0 = [] \/
            (client_intent req = None /\
             exists template_obj,
               calls0 = [CollectorCall (user_request req) template_obj])).
  { destruct (fill_collect_shape _ _ _ _ Hc) as [[-> _] | [-> Hn]]; eauto. }
  destruct stage as [response | fi di dov]; cbn [ret route_monad].
  - intros [= _ <-]. exists calls0, []. auto.
  - destruct (fill_review W req meta s fi di dov) as [r1 calls1] eqn:Hr.
    intros [= _ <-]. exists calls0, calls1. split; [reflexivity |].
    split; [exact Hcoll |].
    destruct (fill_review_calls _ _ _ _ _ _ _ Hr) as [-> | [-> Hv]]; [now left |].
    right. exists meta, s, fi. auto.
Qed.

(** X29 ([intent_fill]): the status of a response is one of the five
    pipeline statuses; the list of missing parameters is empty except
    under [needs_parameters]; and under [ok] the returned intent has no
    validation error against the profile's schema and the reviewer was
    called. *)
Theorem intent_fill_status (W : World) (req : FillRequest)
  (response : dict) (calls : list event) :
  intent_fill W req = (Ok response, calls) ->
  exists meta schema_doc intent status,
    registry_get (profile_slug req) = Some meta /\
    load_json W (schema meta) = Ok schema_doc /\
    get response "intent" = JObj intent /\
    pipeline_status_of response = JStr status /\
    In status ["needs_parameters"; "schema_failed"; "reasoner_failed";
               "schema_regression"; "ok"] /\
    (status <> "needs_parameters" -> get response "missing_parameters" = JArr []) /\
    (status = "needs_parameters" ->
     exists missing, missing <> [] /\
                     get response "missing_parameters" = JArr missing) /\
    (status = "ok" ->
     schema_validate (iter_errors W) (JObj intent) schema_doc = Ok [] /\
     reviewer_calls calls <> []).
Proof.
  unfold intent_fill.
  destruct (registry_get (profile_slug req)) as [meta |] eqn:Hmeta; [| discriminate].
  destruct (if use_template req then load_json W (template meta) else Ok (JObj []))
    as [t | e]; cbn [bind result_monad].
  2:{ cbn [files_or_500]. destruct (is_file_not_found e); discriminate. }
  destruct (load_json W (schema meta)) as [s | e] eqn:Hs; cbn [bind result_monad ret].
  2:{ cbn [files_or_500]. destruct (is_file_not_found e); discriminate. }
  cbn [files_or_500 ret route_monad bind fst snd app].
  destruct (fill_collect W req meta (dict_or_empty t)) as [[stage | e] calls0] eqn:Hc;
    [| discriminate].
  destruct stage as [resp | fi di dov]; cbn [ret route_monad].
  - intros [= <- <-].
    destruct (fill_collect_halt _ _ _ _ Hc) as (Hst & missing & Hne & Hm).
    pose proof (fill_collect_profile _ _ _ _ Hc) as (intent & Hi & _).
    exists meta, s, intent, "needs_parameters".
    repeat split; auto; try (cbn; tauto); try congruence; try discriminate.
    eauto.
  - destruct (fill_review W req meta s fi di dov) as [[resp | e] calls1] eqn:Hr;
      [| discriminate].
    intros [= <- <-].
    destruct (fill_review_outcome _ _ _ _ _ _ _ Hr)
      as (fi' & hs & rp & st & -> & Hcases).
    exists meta, s, fi', st.
    rewrite fill_response_status, fill_response_intent.
    assert (Hmissing : get (fill_response req meta fi' hs rp st di dov)
                           "missing_parameters" = JArr []).
    { unfold fill_response. now rewrite get_with_defaults by discriminate. }
    split; [reflexivity |]. split; [exact Hs |]. split; [reflexivity |].
    split; [reflexivity |].
    destruct Hcases as [(-> & -> & -> & _) | [(-> & -> & -> & _)
                       | (answer & errors & -> & -> & Hv1 & Hv2 & ->)]].
    + split; [cbn; tauto |]. split; [intros _; exact Hmissing |].
      split; discriminate.
    + split; [cbn; tauto |]. split; [intros _; exact Hmissing |].
      split; discriminate.
    + destruct errors as [| e0 rest].
      * split; [cbn; tauto |]. split; [intros _; exact Hmissing |].
        split; [discriminate |]. intros _. split; [exact Hv2 |].
        rewrite reviewer_calls_app. intros H. apply app_eq_nil in H as [_ H].
        discriminate H.
      * split; [cbn; tauto |]. split; [intros _; exact Hmissing |].
        split; discriminate.
Qed.

(** X30 ([intent_fill_fast], 2D): with a well-shaped template and an
    answer of the generation service whose intent is well-shaped, a
    request for the 2D mode makes one call, with the prepared template,
    and returns an intent that carries the mode, a numeric thickness
    and an int [nz] between 1 and 10; the [dimension_mode] of the
    response is the one written into the intent. *)
Theorem fast_fill_2D_intent_is_consistent (W : World) (req : FillFastRequest)
  (meta : profile_meta) (T llm : dict) :
  registry_get (ff_profile_slug req) = Some meta ->
  load_json W (template meta) = Ok (JObj T) ->
  well_shaped T = true ->
  normalize_dimension_mode (ff_dimension_mode req) = Some "2D_extruded" ->
  let prepared := apply_dimension_mode_to_template T (Some "2D_extruded") in
  (forall override,
     call_llm_fill_fast W (ff_user_request req) prepared (ff_profile_slug req)
       (Some "2D_extruded") override = Ok (JObj llm)) ->
  let llm_intent := dict_or_empty (get llm "intent") in
  well_shaped llm_intent = true ->
  unique_keys (JObj llm_intent) = true ->
  exists response intent t n,
    intent_fill_fast W req
    = (Ok response, [FastFillCall (ff_user_request req) prepared]) /\
    get response "intent" = JObj intent /\
    get response "dimension_mode" = JStr "2D_extruded" /\
    resolve (JObj intent) (GEOMETRY ++ ["dimension_mode"])
    = Some (JStr "2D_extruded") /\
    resolve (JObj intent) THICKNESS = Some t /\ is_number t = true /\
    resolve (JObj intent) NZ = Some (JInt n) /\ 1 <= n <= 10.
Proof.
  intros Hmeta Hload HT Hmode prepared Hcall llm_intent Hshape Huniq.
  unfold intent_fill_fast. rewrite Hmeta, Hload. cbn [files_or_500].
  cbn [bind route_monad ret dict_or_empty]. rewrite Hmode. fold prepared.
  rewrite Hcall. cbn [call app]. fold llm_intent.
  set (merged := merge_job_meta
                   (store (merge_with_template prepared (JObj llm_intent))
                          "profile" (JStr (profile meta)))
                   (ff_job_meta req)).
  destruct (@apply_2D_sections T HT) as (tg & tc & Hp & _ & _ & Hn).
  fold prepared in Hp.
  assert (Hprepared : well_shaped prepared = true)
    by (rewrite Hp; now apply with_sections_well_shaped).
  assert (Hmerged : well_shaped merged = true).
  { apply well_shaped_shaped.
    apply (@shaped_same_meshing
             (merge_with_template prepared (JObj llm_intent))).
    - subst merged. unfold merge_job_meta.
      destruct (ff_job_meta req);
        rewrite ?(@lookup_store_other _ "job_meta" "meshing") by discriminate;
        now rewrite lookup_store_other by discriminate.
    - apply merge_shaped; auto; now apply well_shaped_shaped. }
  destruct (@enforce_2D_form merged prepared tg tc Hmerged) as
    (g' & c' & Hout & Hdim & Hth & Hnz).
  { rewrite Hp. apply template_section_geometry. }
  { rewrite Hp. apply template_section_cells. }
  rewrite Hout.
  pose proof (template_section_geometry merged g' c') as Hgeo.
  unfold template_section in Hgeo. cbn [bind result_monad] in Hgeo.
  destruct (attr_get_default (py_or (get (with_sections merged g' c') "meshing")
                                    (JObj [])) "blockMesh" (JObj []))
    as [block | e]; [| discriminate].
  cbn [pure bind route_monad]. rewrite Hgeo. cbn [ret route_monad app].
  assert (Hnum : exists t, lookup g' "thickness_2d_m" = Some t /\ is_number t = true).
  { rewrite Hth. eexists. split; [reflexivity |].
    destruct (is_number (get (geometry_of merged) "thickness_2d_m")) eqn:E;
      [exact E | apply fallback_thickness_is_number]. }
  destruct Hnum as (t & Ht & Htnum).
  assert (Hcells : exists n, lookup c' "nz" = Some (JInt n) /\ 1 <= n <= 10).
  { rewrite Hnz.
    destruct (is_int (get (cells_of merged) "nz")) eqn:E.
    - rewrite int_clamp by (auto; lia). eexists. split; [reflexivity | lia].
    - assert (Hget : exists k, get tc "nz" = JInt k /\ 2 <= k <= 10).
      { unfold get at 1. rewrite Hn.
        destruct (is_int (get (cells_of T) "nz")) eqn:E'.
        - rewrite int_clamp by (auto; lia). eexists. split; [reflexivity | lia].
        - exists 4. split; [reflexivity | lia]. }
      destruct Hget as (k & -> & Hk). cbn [is_int].
      exists k. split; [reflexivity | lia]. }
  destruct Hcells as (n & Hcn & Hbounds).
  do 4 eexists. split; [reflexivity |].
  split; [reflexivity |].
  split; [cbn [get lookup String.eqb Ascii.eqb Bool.eqb]; unfold get; now rewrite Hdim |].
  unfold THICKNESS, NZ. rewrite !with_sections_geometry, with_sections_cells.
  repeat split; eauto; lia.
Qed.

(* ===================================================================== *)
(** ** Worked instances of the properties above *)
(* ===================================================================== *)

Section Instances.

Import Cases.

Lemma load_json_without_slash_witness :
  Loader.load_json (fun _ => true) (fun _ => Ok "{}") loads_empty_object
    "intent.schema.json"
  = Ok (JObj []).
Proof.
  apply (@load_json_without_slash (fun _ => true) (fun _ => Ok "{}")
           loads_empty_object "intent.schema.json" "{}"); reflexivity.
Defined.

Lemma parse_content_salvages_outer_object_witness :
  Llm.parse_content loads_empty_object (String.substring 0)
    "Here is the intent: {} (done)"
  = Ok (JObj []).
Proof.
  apply (@parse_content_salvages_outer_object loads_empty_object
           (String.substring 0) "Here is the intent: " "" " (done)"
           "Expecting value"); reflexivity.
Defined.

Lemma parse_content_without_object_witness :
  Llm.parse_content loads_empty_object (String.substring 0) "sorry } no {"
  = Raise (Exn RuntimeError ("模型返回非 JSON：" ++ "sorry } no {" ++ "...")).
Proof.
  apply (@parse_content_without_object loads_empty_object (String.substring 0)
           "sorry } no " "{" "Expecting value"); reflexivity.
Defined.

Lemma enforce_dimension_mode_writes_only_its_fields_witness :
  resolve (JObj (enforce_dimension_mode sample_intent (Some "3D") sample_template))
          ["meshing"; "blockMesh"; "cells"; "nx"]
  = Some (JInt 40).
Proof.
  apply (@enforce_dimension_mode_writes_only_its_fields
           sample_intent sample_template (Some "3D")
           (JObj [("height_m", JInt 2)]) (JObj [("nz", JInt 20)])
           ["meshing"; "blockMesh"; "cells"; "nx"]); reflexivity.
Defined.

Lemma enforce_dimension_mode_writes_the_mode_witness :
  resolve (JObj (enforce_dimension_mode sample_intent (Some " 3D ") sample_template))
          (GEOMETRY ++ ["dimension_mode"])
  = Some (JStr "3D").
Proof.
  apply (@enforce_dimension_mode_writes_the_mode
           sample_intent sample_template (Some " 3D ") "3D"
           (JObj [("height_m", JInt 2)]) (JObj [("nz", JInt 20)])); reflexivity.
Defined.

Lemma enforce_2D_clamps_intent_nz_witness :
  resolve (JObj (enforce_dimension_mode sample_intent (Some "2D_extruded")
                   sample_template)) NZ
  = Some (JInt 10).
Proof.
  apply (@enforce_2D_clamps_intent_nz sample_intent sample_template
           [("height_m", JInt 2)] [("nz", JInt 20)] (JInt 40)); reflexivity.
Defined.

Lemma enforce_2D_thickness_is_numeric_witness :
  exists t,
    resolve (JObj (enforce_dimension_mode sample_intent (Some "2D_extruded")
                     sample_template)) THICKNESS = Some t /\
    is_number t = true /\
    (forall t0, resolve (JObj sample_intent) THICKNESS = Some t0 ->
                is_number t0 = true -> t = t0).
Proof.
  apply (@enforce_2D_thickness_is_numeric sample_intent sample_template
           [("height_m", JInt 2)] [("nz", JInt 20)]); reflexivity.
Defined.

Lemma enforce_3D_height_is_numeric_witness :
  resolve (JObj (enforce_dimension_mode sample_intent (Some "3D") sample_template))
          HEIGHT = Some (JInt 2) /\
  is_number (JInt 2) = true /\
  forall k,
    resolve (JObj (enforce_dimension_mode sample_intent (Some "3D") sample_template))
            (CELLS ++ [k])
    = resolve (JObj sample_intent) (CELLS ++ [k]).
Proof.
  apply (@enforce_3D_height_is_numeric sample_intent sample_template
           [("height_m", JInt 2)] (JObj [("nz", JInt 20)])); reflexivity.
Defined.


Lemma enforce_2D_against_prepared_template_witness :
  let prepared :=
    apply_dimension_mode_to_template sample_template (Some "2D_extruded") in
  let out := enforce_dimension_mode sample_intent (Some "2D_extruded") prepared in
  exists t n,
    resolve (JObj out) THICKNESS = Some t /\ is_number t = true /\
    resolve (JObj out) NZ = Some (JInt n) /\ 1 <= n <= 10.
Proof.
  apply (@enforce_2D_against_prepared_template sample_intent sample_template);
    reflexivity.
Defined.

Lemma merge_member_by_member_witness :
  lookup (merge_with_template merge_template (JObj merge_overrides)) "a"
  = Some (JObj (merge_with_template [("b", JInt 1); ("c", JInt 2)]
                  (JObj [("b", JStr "x")]))).
Proof.
  apply (@merge_member_by_member merge_template merge_overrides "a"); reflexivity.
Defined.

Lemma merge_override_value_wins_witness :
  resolve (JObj (merge_with_template merge_template (JObj merge_overrides)))
          ["a"; "b"]
  = Some (JStr "x").
Proof.
  apply (@merge_override_value_wins merge_template (JObj merge_overrides)
           ["a"; "b"] (JStr "x"));
    [reflexivity | discriminate | reflexivity | reflexivity].
Defined.


Lemma intent_save_writes_only_valid_intents_witness :
  let r := fst (intent_save save_world save_request) in
  let calls := snd (intent_save save_world save_request) in
  (calls = [] /\
   forall resp, r = Ok resp ->
     status_code resp = 400 /\ get (content resp) "valid" = JBool false /\
     exists issues, issues <> [] /\ get (content resp) "issues" = JArr issues) \/
  (exists meta schema_doc saved job_id resp,
     r = Ok resp /\ status_code resp = 200 /\
     calls = [IntentFileWrite job_id saved] /\
     resolve_profile save_request = Ok (Some meta) /\
     load_json save_world (schema meta) = Ok schema_doc /\
     let validated :=
       merge_job_meta (store (sv_intent save_request) "profile" (JStr (profile meta)))
                      (sv_job_meta save_request) in
     schema_validate (iter_errors save_world) (JObj validated) schema_doc = Ok [] /\
     (forall k, k <> "job_meta" -> lookup saved k = lookup validated k) /\
     get (content resp) "intent" = JObj saved /\
     get (content resp) "job_id" = JStr job_id).
Proof.
  apply (@intent_save_writes_only_valid_intents save_world save_request).
  reflexivity.
Defined.

Lemma intent_save_reported_slug_witness :
  exists meta,
    resolve_profile save_request = Ok (Some meta) /\
    registry_get (key meta) <> None /\
    get (content {| status_code := 200;
                    content := [("ok", JBool true);
                                ("job_id", JStr "run-7-a");
                                ("relative_path", JStr "run-7-a/intent.json");
                                ("storage_path", JStr "storage/run-7-a/intent.json");
                                ("intent",
                                 JObj [("job_meta", JObj [("job_id", JStr "run-7-a")]);
                                       ("profile", JStr "CoolingPlate-Intent@mesh_v1.0")]);
                                ("profile_slug", JStr "coolingplate-mesh-v1")] |})
        "profile_slug"
    = JStr "coolingplate-mesh-v1".
Proof.
  apply (@intent_save_reported_slug save_world save_request _
           [IntentFileWrite "run-7-a"
              [("job_meta", JObj [("job_id", JStr "run-7-a")]);
               ("profile", JStr "CoolingPlate-Intent@mesh_v1.0")]]);
    reflexivity.
Defined.

Lemma intent_fill_call_discipline_witness :
  let calls := snd (intent_fill fill_world fill_with_intent) in
  exists collector_calls reviewer_calls,
    calls = (collector_calls ++ reviewer_calls)%list /\
    (collector_calls = [] \/
     (client_intent fill_with_intent = None /\
      exists template_obj,
        collector_calls = [CollectorCall (user_request fill_with_intent) template_obj])) /\
    (reviewer_calls = [] \/
     exists meta schema_doc intent,
       registry_get (profile_slug fill_with_intent) = Some meta /\
       load_json fill_world (schema meta) = Ok schema_doc /\
       reviewer_calls = [ReviewerCall intent] /\
       schema_validate (iter_errors fill_world) (JObj intent) schema_doc = Ok []).
Proof.
  apply (@intent_fill_call_discipline fill_world fill_with_intent
           (fst (intent_fill fill_world fill_with_intent))).
  reflexivity.
Defined.

Lemma intent_fill_status_witness :
  let response :=
    match fst (intent_fill fill_world fill_with_intent) with
    | Ok response => response
    | Raise _ => []
    end in
  let calls := snd (intent_fill fill_world fill_with_intent) in
  exists meta schema_doc intent status,
    registry_get (profile_slug fill_with_intent) = Some meta /\
    load_json fill_world (schema meta) = Ok schema_doc /\
    get response "intent" = JObj intent /\
    pipeline_status_of response = JStr status /\
    In status ["needs_parameters"; "schema_failed"; "reasoner_failed";
               "schema_regression"; "ok"] /\
    (status <> "needs_parameters" -> get response "missing_parameters" = JArr []) /\
    (status = "needs_parameters" ->
     exists missing, missing <> [] /\
                     get response "missing_parameters" = JArr missing) /\
    (status = "ok" ->
     schema_validate (iter_errors fill_world) (JObj intent) schema_doc = Ok [] /\
     reviewer_calls calls <> []).
Proof.
  apply (@intent_fill_status fill_world fill_with_intent). reflexivity.
Defined.

Lemma fast_fill_2D_intent_is_consistent_witness :
  let prepared :=
    apply_dimension_mode_to_template sample_template (Some "2D_extruded") in
  exists response intent t n,
    intent_fill_fast fast_world fast_request
    = (Ok response, [FastFillCall (ff_user_request fast_request) prepared]) /\
    get response "intent" = JObj intent /\
    get response "dimension_mode" = JStr "2D_extruded" /\
    resolve (JObj intent) (GEOMETRY ++ ["dimension_mode"])
    = Some (JStr "2D_extruded") /\
    resolve (JObj intent) THICKNESS = Some t /\ is_number t = true /\
    resolve (JObj intent) NZ = Some (JInt n) /\ 1 <= n <= 10.
Proof.
  apply (@fast_fill_2D_intent_is_consistent fast_world fast_request
           OPENFOAM_BMESH_V1 sample_template [("intent", JObj sample_intent)]);
    reflexivity.
Defined.

End Instances.
